(** * Octo inference adapters: a shallow embedding and its properties

    The repository wraps a pretrained robot-control model behind a
    [reset] / [step] interface.  Two classes are embedded here:

    - [OctoServer]: [OctoServerInference] of
      [real2sim/octo/octo_server_model.py], which asks a remote server for
      the action and debounces the gripper with a "sticky" state machine;
    - [Octo]: [OctoInference] of [real2sim/octo/octo_model.py], which runs
      the model locally over a sliding window of frames.

    Numbers: the Python code computes with numpy floating point arrays.
    They are idealised here as exact rationals ([Q]); a numeric equality
    produced by arithmetic is therefore stated with [==] ([Qeq]), and an
    equality of a value that is only stored and handed on with [=].

    Exceptions: a Python exception is a [Raise] result.  The object keeps
    whatever was assigned to it before the exception, so a method maps a
    state to a result and the state it leaves behind.

    Sizes and counters ([horizon], [pred_action_horizon], [image_size], the
    step and repeat counters) are natural numbers: [deque] refuses a
    negative bound when the object is built, and the counters only count
    up from 0.

    Arrays: the adapters build a new array wherever they compute one and
    never write into an array they hold, so arrays are values here.  The
    caller, who receives some of them, is taken not to write into them
    either. *)

From Stdlib Require Import String List Bool Arith Lia QArith Qabs.
Import ListNotations.

Close Scope Q_scope.

Set Implicit Arguments.

(** ** Exceptions and results *)

Inductive exn : Type :=
| NotImplementedError (msg : string)
| AssertionError
| ValueError
| IndexError
| KeyError
| AttributeError.

Inductive result (A : Type) : Type :=
| Ok (a : A)
| Raise (e : exn).

Arguments Ok {A} a.
Arguments Raise {A} e.

(** ** numpy helpers shared by the two adapters *)

(** [x > y] on numbers, as a boolean. *)
Definition Qgtb (x y : Q) : bool := negb (Qle_bool x y).

(** [a[i:j]] on a one-dimensional array (0 <= i <= j). *)
Definition slice {A} (i j : nat) (a : list A) : list A :=
  firstn (j - i) (skipn i a).

(** [a[-1:]]: the last entry as an array of length one (empty on an empty
    array). *)
Definition last_slice {A} (a : list A) : list A :=
  skipn (length a - 1) a.

(** [v * c] for an array [v] and a scalar [c]. *)
Definition scale (v : list Q) (c : Q) : list Q := map (fun x => x * c)%Q v.

(** [2.0 * (g > 0.5) - 1.0] on one entry: the comparison is a boolean, which
    numpy reads as 1 or 0. *)
Definition binarize (g : Q) : Q :=
  (2.0 * (if Qgtb g 0.5 then 1 else 0) - 1.0)%Q.

(** Pointwise [==] of arrays. *)
Definition Qeq_list (u v : list Q) : Prop := Forall2 Qeq u v.

(** ** Bounded deques and rank-2 arrays (used by the local adapter) *)

(** [collections.deque(maxlen=...)], oldest entry first.  [append] drops
    entries from the left once the bound is passed (with bound 0 nothing is
    kept); [extend] appends the entries one by one. *)
Definition deque_append {A} (maxlen : nat) (d : list A) (x : A) : list A :=
  let d' := d ++ [x] in
  skipn (length d' - maxlen) d'.

Definition deque_extend {A} (maxlen : nat) (d : list A) (xs : list A)
    : list A :=
  fold_left (deque_append maxlen) xs d.

(** The last [n] entries of a list. *)
Definition lastn {A} (n : nat) (l : list A) : list A :=
  skipn (length l - n) l.

(** A numpy array of rank 2: its shape and its rows.  An array of rank 3 is
    the list of its rank-2 slices along the first (batch) axis. *)
Record array2 : Type := mkArray2 {
  nrows : nat;
  ncols : nat;
  rows : list (list Q)
}.

Definition array3 : Type := list array2.

(** The rows agree with the shape, as in every array numpy builds. *)
Definition wf_array2 (a : array2) : Prop :=
  length (rows a) = nrows a /\ Forall (fun r => length r = ncols a) (rows a).

(** A vector of 7 zeros. *)
Definition zeros7 (a : list Q) : Prop :=
  length a = 7 /\ Forall (fun x => (x == 0)%Q) a.

(** A chunk of zeros with the given number of actions of 7 entries. *)
Definition zero_chunk (n : nat) (c : array2) : Prop :=
  wf_array2 c /\ nrows c = n /\ ncols c = 7 /\
  Forall (Forall (fun x => (x == 0)%Q)) (rows c).

(** [a.shape == (n, m)]. *)
Definition shape_is (a : array2) (n m : nat) : bool :=
  (nrows a =? n) && (ncols a =? m).

(** [a[:, :, :m]] on a rank-3 array: every row cut to its first [m]
    entries. *)
Definition take_cols (m : nat) (a : array2) : array2 :=
  mkArray2 (nrows a) (Nat.min (ncols a) m) (map (firstn m) (rows a)).

(** [v[None]]: a vector as an array with one row. *)
Definition add_axis (v : list Q) : array2 := mkArray2 1 (length v) [v].

(** numpy broadcasting along the last axis: two lengths are compatible when
    they are equal or one of them is 1. *)
Definition broadcast_dim (a b : nat) : option nat :=
  if a =? b then Some a
  else if a =? 1 then Some b
  else if b =? 1 then Some a
  else None.

Definition map2 {A B C} (f : A -> B -> C) (u : list A) (v : list B)
    : list C :=
  map (fun p => f (fst p) (snd p)) (combine u v).

Definition broadcast_row (f : Q -> Q -> Q) (u v : list Q) : list Q :=
  if length u =? length v then map2 f u v
  else match u, v with
       | [x], _ => map (f x) v
       | _, [y] => map (fun a => f a y) u
       | _, _ => []
       end.

(** [a op v[None]] for a rank-2 array [a] and a vector [v]. *)
Definition broadcast_op (f : Q -> Q -> Q) (a : array2) (v : list Q)
    : result array2 :=
  match broadcast_dim (ncols a) (length v) with
  | None => Raise ValueError
  | Some c =>
      Ok (mkArray2 (nrows a) c (map (fun r => broadcast_row f r v) (rows a)))
  end.

(** The Python f-string of the constructors' error message. *)
Definition not_supported (policy_setup : string) : string :=
  ("Policy setup " ++ policy_setup ++ " not supported for octo models.")%string.

(** * The remote adapter: [OctoServerInference] *)

Module OctoServer.

(** The fields of the object.  [task] is [None] until the first [reset];
    [previous_gripper_action] is [None] until the first [step] of an
    episode.  The gripper values are numpy arrays of shape (1,) in the
    source; their one entry is kept here. *)
Record OctoServerInference : Type := mkServer {
  policy_setup : string;
  sticky_gripper_num_repeat : nat;
  sticky_action_is_on : bool;
  gripper_action_repeat : nat;
  sticky_gripper_action : Q;
  previous_gripper_action : option Q;
  image_size : nat;
  action_scale : Q;
  task : option string;
  time_step : nat
}.

Record RawAction : Type := mkRaw {
  raw_world_vector : list Q;
  raw_rotation_delta : list Q;
  raw_open_gripper : list Q
}.

(** The [action] dictionary; the key ['gripper'] is only set under the two
    known policies. *)
Record Action : Type := mkAction {
  world_vector : list Q;
  rot_axangle : list Q;
  gripper : option Q;
  terminate_episode : list Q
}.

(** Assignments to single fields. *)
Definition set_sticky_action_is_on (b : bool) (s : OctoServerInference) :=
  mkServer (policy_setup s) (sticky_gripper_num_repeat s) b
    (gripper_action_repeat s) (sticky_gripper_action s)
    (previous_gripper_action s) (image_size s) (action_scale s) (task s)
    (time_step s).

Definition set_gripper_action_repeat (n : nat) (s : OctoServerInference) :=
  mkServer (policy_setup s) (sticky_gripper_num_repeat s)
    (sticky_action_is_on s) n (sticky_gripper_action s)
    (previous_gripper_action s) (image_size s) (action_scale s) (task s)
    (time_step s).

Definition set_sticky_gripper_action (a : Q) (s : OctoServerInference) :=
  mkServer (policy_setup s) (sticky_gripper_num_repeat s)
    (sticky_action_is_on s) (gripper_action_repeat s) a
    (previous_gripper_action s) (image_size s) (action_scale s) (task s)
    (time_step s).

Definition set_previous_gripper_action (p : option Q)
    (s : OctoServerInference) :=
  mkServer (policy_setup s) (sticky_gripper_num_repeat s)
    (sticky_action_is_on s) (gripper_action_repeat s)
    (sticky_gripper_action s) p (image_size s) (action_scale s) (task s)
    (time_step s).

Definition set_task (t : option string) (s : OctoServerInference) :=
  mkServer (policy_setup s) (sticky_gripper_num_repeat s)
    (sticky_action_is_on s) (gripper_action_repeat s)
    (sticky_gripper_action s) (previous_gripper_action s) (image_size s)
    (action_scale s) t (time_step s).

Definition set_time_step (n : nat) (s : OctoServerInference) :=
  mkServer (policy_setup s) (sticky_gripper_num_repeat s)
    (sticky_action_is_on s) (gripper_action_repeat s)
    (sticky_gripper_action s) (previous_gripper_action s) (image_size s)
    (action_scale s) (task s) n.

(** [__init__].  The first branch assigns [sticky_gripper_num_repeat = 1] and
    raises at once; no object is returned. *)
Definition __init__ (model_type policy_setup : string) (image_size : nat)
    (action_scale : Q) : result OctoServerInference :=
  if String.eqb policy_setup "widowx_bridge" then
    Raise (NotImplementedError "Action normalization might be wrong, TODO")
  else if String.eqb policy_setup "google_robot" then
    Ok (mkServer policy_setup 15 false 0 0%Q None image_size action_scale
          None 0)
  else
    Raise (NotImplementedError (not_supported policy_setup)).

(** [reset].  The request to the server's [reset] endpoint and the one second
    of sleep touch no field. *)
Definition reset (task_description : string) (self : OctoServerInference)
    : OctoServerInference :=
  let self := set_task (Some task_description) self in
  let self := set_time_step 0 self in
  let self := set_sticky_action_is_on false self in
  let self := set_gripper_action_repeat 0 self in
  let self := set_sticky_gripper_action 0%Q self in
  set_previous_gripper_action None self.

(** The gripper block of [step] under [google_robot] (the body of the first
    branch of the policy test), on the current gripper value.  It returns
    the value stored under ['gripper'] and the updated object. *)
Definition sticky_gripper (current_gripper_action : Q)
    (self : OctoServerInference) : Q * OctoServerInference :=
  let relative_gripper_action :=
    match previous_gripper_action self with
    | None => 0%Q
    | Some previous => (previous - current_gripper_action)%Q
    end in
  let self := set_previous_gripper_action (Some current_gripper_action) self in
  let self :=
    if Qgtb (Qabs relative_gripper_action) 0.5
       && negb (sticky_action_is_on self)
    then set_sticky_gripper_action relative_gripper_action
           (set_sticky_action_is_on true self)
    else self in
  let '(relative_gripper_action, self) :=
    if sticky_action_is_on self
    then (sticky_gripper_action self,
          set_gripper_action_repeat (gripper_action_repeat self + 1) self)
    else (relative_gripper_action, self) in
  let self :=
    if gripper_action_repeat self =? sticky_gripper_num_repeat self
    then set_sticky_gripper_action 0%Q
           (set_gripper_action_repeat 0
              (set_sticky_action_is_on false self))
    else self in
  (relative_gripper_action, self).

(** The relative action of a call: zero on the first step of an episode. *)
Definition relative (current : Q) (self : OctoServerInference) : Q :=
  match previous_gripper_action self with
  | None => 0%Q
  | Some previous => (previous - current)%Q
  end.

(** Not holding, and the counter and the held value cleared. *)
Definition idle (self : OctoServerInference) : Prop :=
  sticky_action_is_on self = false /\
  gripper_action_repeat self = 0 /\
  sticky_gripper_action self = 0%Q.

(** The relation between the three fields of the sticky gripper that holds
    between calls. *)
Definition sticky_invariant (self : OctoServerInference) : Prop :=
  (sticky_action_is_on self = false ->
   gripper_action_repeat self = 0 /\ sticky_gripper_action self = 0%Q) /\
  (sticky_action_is_on self = true ->
   1 <= gripper_action_repeat self <= sticky_gripper_num_repeat self - 1 /\
   (0.5 < Qabs (sticky_gripper_action self))%Q).

Section Step.

(** The collaborators outside the repository: the images the simulator
    hands in, with the test [image.dtype == np.uint8], and
    [transforms3d.euler.euler2axangle], which returns an axis and an
    angle. *)
Variable Image : Type.
Variable dtype_is_uint8 : Image -> bool.
Variable euler2axangle : Q -> Q -> Q -> list Q * Q.

(** [step].  [reply] is what [_query_for_action] returns for the resized
    image and the task: the decoded answer of the server, a one-dimensional
    array.  Unpacking [roll, pitch, yaw] needs exactly three entries, and
    the truth value of the comparison on [relative_gripper_action] exactly
    one; a reply that passed the unpacking has six entries or more, so its
    slice [[-1:]] has exactly one and the second test never fails. *)
Definition step (image : Image) (reply : list Q) (self : OctoServerInference)
    : result (RawAction * Action) * OctoServerInference :=
  if negb (dtype_is_uint8 image) then (Raise AssertionError, self) else
  let raw_action :=
    mkRaw (slice 0 3 reply) (slice 3 6 reply) (last_slice reply) in
  let action_world_vector :=
    scale (raw_world_vector raw_action) (action_scale self) in
  match raw_rotation_delta raw_action with
  | [roll; pitch; yaw] =>
      let '(action_rotation_ax, action_rotation_angle) :=
        euler2axangle roll pitch yaw in
      let action_rotation_axangle :=
        scale action_rotation_ax action_rotation_angle in
      let action_rot_axangle :=
        scale action_rotation_axangle (action_scale self) in
      if String.eqb (policy_setup self) "google_robot" then
        match raw_open_gripper raw_action with
        | [current_gripper_action] =>
            let '(g, self) := sticky_gripper current_gripper_action self in
            let action :=
              mkAction action_world_vector action_rot_axangle (Some g)
                [0%Q] in
            (Ok (raw_action, action),
             set_time_step (time_step self + 1) self)
        | _ => (Raise ValueError, self)
        end
      else
        let action_gripper :=
          if String.eqb (policy_setup self) "widowx_bridge" then
            match raw_open_gripper raw_action with
            | [g] => Some (binarize g)
            | _ => None
            end
          else None in
        let action :=
          mkAction action_world_vector action_rot_axangle action_gripper
            [0%Q] in
        (Ok (raw_action, action), set_time_step (time_step self + 1) self)
  | _ => (Raise ValueError, self)
  end.

(** A sequence of calls of [step], one image and one reply of the server
    each; the results in order and the final object. *)
Fixpoint run (inputs : list (Image * list Q)) (self : OctoServerInference)
    : list (result (RawAction * Action)) * OctoServerInference :=
  match inputs with
  | [] => ([], self)
  | (image, reply) :: rest =>
      let '(r, self) := step image reply self in
      let '(rs, self) := run rest self in
      (r :: rs, self)
  end.

(** An input on which [step] goes through: a uint8 image and a reply with
    at least the six entries of the translation and the rotation.  Its
    gripper reading is the last entry of the reply. *)
Definition well_formed (x : Image * list Q) : Prop :=
  dtype_is_uint8 (fst x) = true /\ 6 <= length (snd x).

Definition grip (x : Image * list Q) : Q := last (snd x) 0%Q.

(** What a call emitted under ['gripper'], if it returned. *)
Definition emitted (r : result (RawAction * Action)) : option Q :=
  match r with
  | Ok (_, action) => gripper action
  | Raise _ => None
  end.

(** The states an object built as [fresh] can be in between calls. *)
Inductive reachable (fresh : OctoServerInference)
    : OctoServerInference -> Prop :=
| reach_fresh : reachable fresh fresh
| reach_reset task_description self :
    reachable fresh self -> reachable fresh (reset task_description self)
| reach_step image reply self :
    reachable fresh self -> reachable fresh (snd (step image reply self)).

(** The part of the state that changes from step to step. *)
Definition core_state (self : OctoServerInference)
    : bool * nat * Q * option Q * nat :=
  (sticky_action_is_on self, gripper_action_repeat self,
   sticky_gripper_action self, previous_gripper_action self, time_step self).

End Step.

End OctoServer.

(** * The local adapter: [OctoInference] *)

(** ** A state and exception monad for methods that assign fields *)

Definition M (S A : Type) : Type := S -> result A * S.

Definition ret {S A} (a : A) : M S A := fun s => (Ok a, s).

Definition raise {S A} (e : exn) : M S A := fun s => (Raise e, s).

Definition bind {S A B} (m : M S A) (k : A -> M S B) : M S B :=
  fun s =>
    match m s with
    | (Ok a, s') => k a s'
    | (Raise e, s') => (Raise e, s')
    end.

Definition get {S} : M S S := fun s => (Ok s, s).

Definition modify {S} (f : S -> S) : M S unit := fun s => (Ok tt, f s).

Definition lift {S A} (r : result A) : M S A := fun s => (r, s).

(** The [assert] statement. *)
Definition assert {S} (b : bool) : M S unit :=
  if b then ret tt else raise AssertionError.

Declare Scope method_scope.
Delimit Scope method_scope with method.
Notation "x <- m ;; k" := (bind m (fun x => k))
  (at level 61, m at next level, right associativity) : method_scope.
Notation "m ;; k" := (bind m (fun _ => k))
  (at level 61, right associativity) : method_scope.

Module Octo.

(** ** The collaborators outside the repository

    The images of the simulator with the test [image.dtype == np.uint8];
    [tf.image.resize] followed by rounding, clipping and the cast to uint8;
    the two ways to load a model, its table of dataset statistics, and the
    two ways to encode a task; the model's forward pass (released models:
    [sample_actions] with the fixed key [PRNGKey(0)]; saved models:
    [lc_ws2] with the fixed [rng]), from the window, the mask and the task to
    a batch of action chunks; [transforms3d.euler.euler2axangle]; and
    [np.exp]. *)
Class Runtime : Type := {
  Image : Type;
  Frame : Type;
  Task : Type;
  Model : Type;
  dtype_is_uint8 : Image -> bool;
  tf_image_resize : nat -> Image -> Frame;
  load_pretrained : string -> Model;
  saved_model_load : string -> Model;
  dataset_statistics : Model -> string -> option (list Q * list Q);
  create_tasks : Model -> string -> Task;
  tokenizer : string -> Task;
  sample_actions : Model -> list Frame -> list bool -> option Task -> array3;
  lc_ws2 : Model -> list Frame -> list bool -> option Task -> array3;
  euler2axangle : Q -> Q -> Q -> list Q * Q;
  np_exp : Q -> Q
}.

(** ** The action ensembler *)

(** Modelled from the spec: the class [ActionEnsembler] of
    [real2sim/utils/action/action_ensemble.py], which the adapter imports
    and which is not among the source files.  It keeps a bounded queue of
    at most [pred_action_horizon] chunks (oldest first) and a temperature. *)
Record ActionEnsembler : Type := mkEnsembler {
  ens_pred_action_horizon : nat;
  ens_temp : Q;
  action_history : list array2
}.

(** Modelled from the spec: the constructor of [ActionEnsembler]; the buffer
    is created empty. *)
Definition new_ensembler (pred_action_horizon : nat) (temp : Q)
    : ActionEnsembler :=
  mkEnsembler pred_action_horizon temp [].

(** Modelled from the spec: [ActionEnsembler.reset] clears the buffer. *)
Definition ensembler_reset (e : ActionEnsembler) : ActionEnsembler :=
  mkEnsembler (ens_pred_action_horizon e) (ens_temp e) [].

(** The sum of a list of numbers, and the sum of two vectors. *)
Definition Qsum (l : list Q) : Q := fold_right Qplus 0%Q l.

Definition vector_add (u v : list Q) : list Q := map2 Qplus u v.

(** Modelled from the spec: [ActionEnsembler.ensemble_action].  The chunk is
    pushed (the oldest one leaves when the queue is full); the chunk pushed
    [k] steps ago contributes its [k]-th action with a weight proportional
    to [exp(-temp * k)], the weights are normalised to sum to 1, and the
    weighted sum, a 7-vector, is returned. *)
Definition ensemble_action {rt : Runtime} (chunk : array2)
    (e : ActionEnsembler) : list Q * ActionEnsembler :=
  let history :=
    deque_append (ens_pred_action_horizon e) (action_history e) chunk in
  let steps_ago := seq 0 (length history) in
  let contributions :=
    map2 (fun k c => nth k (rows c) []) steps_ago (rev history) in
  let raw_weights :=
    map (fun k => np_exp (- ens_temp e * inject_Z (Z.of_nat k))%Q)
      steps_ago in
  let weights := map (fun w => (w / Qsum raw_weights)%Q) raw_weights in
  let weighted := map2 (fun w a => scale a w) weights contributions in
  (fold_right vector_add (repeat 0%Q 7) weighted,
   mkEnsembler (ens_pred_action_horizon e) (ens_temp e) history).

(** ** The adapter *)

Section Adapter.

Context {rt : Runtime}.

(** The fields of the object.  The tokenizer and its keyword arguments are
    constants of the custom-model branch and are not kept. *)
Record OctoInference : Type := mkOcto {
  policy_setup : string;
  model_type : string;
  model : Model;
  action_mean : list Q;
  action_std : list Q;
  automatic_task_creation : bool;
  image_size : nat;
  action_scale : Q;
  horizon : nat;
  pred_action_horizon : nat;
  exec_horizon : nat;
  action_ensemble : bool;
  action_ensemble_temp : Q;
  task : option Task;
  image_history : list Frame;
  action_ensembler : option ActionEnsembler;
  num_image_history : nat;
  time_step : nat
}.

Record RawAction : Type := mkRaw {
  raw_world_vector : list Q;
  raw_rotation_delta : list Q;
  raw_open_gripper : list Q
}.

Record Action : Type := mkAction {
  world_vector : list Q;
  rot_axangle : list Q;
  gripper : list Q;
  terminate_episode : list Q
}.

(** Assignments to single fields. *)
Definition set_task (t : option Task) (s : OctoInference) :=
  mkOcto (policy_setup s) (model_type s) (model s) (action_mean s)
    (action_std s) (automatic_task_creation s) (image_size s)
    (action_scale s) (horizon s) (pred_action_horizon s) (exec_horizon s)
    (action_ensemble s) (action_ensemble_temp s) t (image_history s)
    (action_ensembler s) (num_image_history s) (time_step s).

Definition set_image_history (h : list Frame) (s : OctoInference) :=
  mkOcto (policy_setup s) (model_type s) (model s) (action_mean s)
    (action_std s) (automatic_task_creation s) (image_size s)
    (action_scale s) (horizon s) (pred_action_horizon s) (exec_horizon s)
    (action_ensemble s) (action_ensemble_temp s) (task s) h
    (action_ensembler s) (num_image_history s) (time_step s).

Definition set_action_ensembler (e : option ActionEnsembler)
    (s : OctoInference) :=
  mkOcto (policy_setup s) (model_type s) (model s) (action_mean s)
    (action_std s) (automatic_task_creation s) (image_size s)
    (action_scale s) (horizon s) (pred_action_horizon s) (exec_horizon s)
    (action_ensemble s) (action_ensemble_temp s) (task s) (image_history s)
    e (num_image_history s) (time_step s).

Definition set_num_image_history (n : nat) (s : OctoInference) :=
  mkOcto (policy_setup s) (model_type s) (model s) (action_mean s)
    (action_std s) (automatic_task_creation s) (image_size s)
    (action_scale s) (horizon s) (pred_action_horizon s) (exec_horizon s)
    (action_ensemble s) (action_ensemble_temp s) (task s) (image_history s)
    (action_ensembler s) n (time_step s).

Definition set_time_step (n : nat) (s : OctoInference) :=
  mkOcto (policy_setup s) (model_type s) (model s) (action_mean s)
    (action_std s) (automatic_task_creation s) (image_size s)
    (action_scale s) (horizon s) (pred_action_horizon s) (exec_horizon s)
    (action_ensemble s) (action_ensemble_temp s) (task s) (image_history s)
    (action_ensembler s) (num_image_history s) n.

(** *** Construction *)

(** The first test of [__init__]: the dataset id, whether to ensemble, and
    the temperature, by policy. *)
Definition policy_config (policy_setup : string)
    : result (string * bool * Q) :=
  if String.eqb policy_setup "widowx_bridge" then
    Ok ("bridge_dataset"%string, true, 0.0%Q)
  else if String.eqb policy_setup "google_robot" then
    Ok ("fractal20220817_data"%string, false, 0.0%Q)
  else
    Raise (NotImplementedError (not_supported policy_setup)).

(** The statistics written out in [__init__] for custom checkpoints. *)
Definition bridge_action_mean : list Q :=
  [0.00021161; 0.00012614; -0.00017022; -0.00015062; -0.00023831;
   0.00025646; 0.0]%Q.

Definition bridge_action_std : list Q :=
  [0.00963721; 0.0135066; 0.01251861; 0.02806791; 0.03016905; 0.07632624;
   1.0]%Q.

Definition fractal_action_mean : list Q :=
  [0.00696389; 0.00627008; -0.01263256; 0.04330839; -0.00570499;
   0.00089247; 0]%Q.

Definition fractal_action_std : list Q :=
  [0.06925472; 0.06019009; 0.07354742; 0.15605888; 0.1316399; 0.14593437;
   1]%Q.

Definition custom_statistics (dataset_id : string)
    : result (list Q * list Q) :=
  if String.eqb dataset_id "bridge_dataset" then
    Ok (bridge_action_mean, bridge_action_std)
  else if String.eqb dataset_id "fractal20220817_data" then
    Ok (fractal_action_mean, fractal_action_std)
  else
    Raise (NotImplementedError
             (dataset_id ++ " not supported yet for custom octo model checkpoints.")%string).

(** The second test of [__init__]: the stored model type, the model, the
    statistics and whether tasks are created by the model.  A released
    model without an entry for the dataset fails the dictionary lookup. *)
Definition load_model (model_type dataset_id : string)
    : result (string * Model * (list Q * list Q) * bool) :=
  if String.eqb model_type "octo-base" || String.eqb model_type "octo-small"
  then
    let stored := ("hf://rail-berkeley/" ++ model_type)%string in
    let model := load_pretrained stored in
    match dataset_statistics model dataset_id with
    | Some stats => Ok (stored, model, stats, true)
    | None => Raise KeyError
    end
  else
    let model := saved_model_load model_type in
    match custom_statistics dataset_id with
    | Ok stats => Ok (model_type, model, stats, false)
    | Raise e => Raise e
    end.

(** [__init__]: the two tests, then the assignments of the fields. *)
Definition __init__ (model_type policy_setup : string)
    (horizon pred_action_horizon exec_horizon image_size : nat)
    (action_scale : Q) : result OctoInference :=
  match policy_config policy_setup with
  | Raise e => Raise e
  | Ok (dataset_id, action_ensemble, action_ensemble_temp) =>
      match load_model model_type dataset_id with
      | Raise e => Raise e
      | Ok (stored, model, (mean, std), automatic) =>
          Ok (mkOcto policy_setup stored model mean std automatic image_size
                action_scale horizon pred_action_horizon exec_horizon
                action_ensemble action_ensemble_temp None []
                (if action_ensemble
                 then Some (new_ensembler pred_action_horizon
                              action_ensemble_temp)
                 else None)
                0 0)
      end
  end.

(** *** The observation history *)

Definition _resize_image (self : OctoInference) (image : Image) : Frame :=
  tf_image_resize (image_size self) image.

Definition _add_image_to_history (image : Frame) (self : OctoInference)
    : OctoInference :=
  let self :=
    if num_image_history self =? 0
    then set_image_history
           (deque_extend (horizon self) (image_history self)
              (repeat image (horizon self))) self
    else set_image_history
           (deque_append (horizon self) (image_history self) image) self in
  set_num_image_history
    (Nat.min (num_image_history self + 1) (horizon self)) self.

(** [np.ones(horizon)] with the first [horizon - num] entries set to 0;
    [num] never exceeds [horizon] ([LifecycleFacts.num_image_history_le]
    below), so the bound of the slice is never negative. *)
Definition pad_mask_of (horizon num : nat) : list bool :=
  repeat false (horizon - num) ++ repeat true (horizon - (horizon - num)).

(** [np.stack] refuses an empty sequence. *)
Definition _obtain_image_history_and_mask (self : OctoInference)
    : result (list Frame * list bool) :=
  match image_history self with
  | [] => Raise ValueError
  | images =>
      Ok (images, pad_mask_of (horizon self) (num_image_history self))
  end.

(** *** [reset] *)

(** The task is encoded, the history cleared, the ensembler reset where the
    policy ensembles (a call on [None] raises), and the counters set to 0. *)
Definition reset (task_description : string) (self : OctoInference)
    : result unit * OctoInference :=
  let self :=
    if automatic_task_creation self
    then set_task (Some (create_tasks (model self) task_description)) self
    else set_task (Some (tokenizer task_description)) self in
  let self := set_image_history [] self in
  let cleared :=
    if action_ensemble self
    then match action_ensembler self with
         | Some e => Ok (set_action_ensembler (Some (ensembler_reset e)) self)
         | None => Raise AttributeError
         end
    else Ok self in
  match cleared with
  | Raise e => (Raise e, self)
  | Ok self =>
      let self := set_num_image_history 0 self in
      (Ok tt, set_time_step 0 self)
  end.

(** *** [step] *)

Local Open Scope method_scope.

(** From the test of the image to the test of the shape: the frame is
    pushed, the window and the mask are handed to the model, the batch axis
    is removed and the shape of the chunk is checked.  The custom-model
    branch first cuts every action to its first 7 entries ([[:, :, :7]]). *)
Definition query_model (image : Image) : M OctoInference array2 :=
  assert (dtype_is_uint8 image) ;;
  self <- get ;;
  modify (_add_image_to_history (_resize_image self image)) ;;
  self <- get ;;
  window <- lift (_obtain_image_history_and_mask self) ;;
  let '(images, pad_mask) := window in
  let batch :=
    if automatic_task_creation self
    then sample_actions (model self) images pad_mask (task self)
    else map (take_cols 7) (lc_ws2 (model self) images pad_mask (task self))
  in
  norm_raw_actions <-
    lift (match batch with
          | [] => Raise IndexError
          | chunk :: _ => Ok chunk
          end) ;;
  assert (shape_is norm_raw_actions (pred_action_horizon self) 7) ;;
  ret norm_raw_actions.

(** The ensembling of the chunk where the policy asks for it; the result is
    given a leading axis of length 1. *)
Definition ensemble (norm_raw_actions : array2) : M OctoInference array2 :=
  self <- get ;;
  if action_ensemble self then
    match action_ensembler self with
    | None => raise AttributeError
    | Some e =>
        let '(a, e) := ensemble_action norm_raw_actions e in
        modify (set_action_ensembler (Some e)) ;;
        ret (add_axis a)
    end
  else ret norm_raw_actions.

(** The normalized actions that enter the de-normalization. *)
Definition normalized_actions (image : Image) : M OctoInference array2 :=
  norm_raw_actions <- query_model image ;;
  ensemble norm_raw_actions.

(** [norm_raw_actions * self.action_std[None] + self.action_mean[None]]. *)
Definition denormalize (self : OctoInference) (norm_raw_actions : array2)
    : result array2 :=
  match broadcast_op Qmult norm_raw_actions (action_std self) with
  | Raise e => Raise e
  | Ok scaled => broadcast_op Qplus scaled (action_mean self)
  end.

(** [2.0 * (open_gripper > 0.5) - 1.0], negated for the google robot. *)
Definition gripper_action (policy_setup : string) (open_gripper : list Q)
    : list Q :=
  let g := map binarize open_gripper in
  if String.eqb policy_setup "google_robot" then map Qopp g else g.

(** From the de-normalization to the end of [step]. *)
Definition postprocess (norm_raw_actions : array2)
    : M OctoInference (RawAction * Action) :=
  self <- get ;;
  raw_actions <- lift (denormalize self norm_raw_actions) ;;
  first <-
    lift (match rows raw_actions with
          | [] => Raise IndexError
          | r :: _ => Ok r
          end) ;;
  let raw_action :=
    mkRaw (slice 0 3 first) (slice 3 6 first) (slice 6 7 first) in
  let action_world_vector :=
    scale (raw_world_vector raw_action) (action_scale self) in
  match raw_rotation_delta raw_action with
  | [roll; pitch; yaw] =>
      let '(action_rotation_ax, action_rotation_angle) :=
        euler2axangle roll pitch yaw in
      let action_rotation_axangle :=
        scale action_rotation_ax action_rotation_angle in
      let action :=
        mkAction action_world_vector
          (scale action_rotation_axangle (action_scale self))
          (gripper_action (policy_setup self) (raw_open_gripper raw_action))
          [0.0%Q] in
      modify (fun self => set_time_step (time_step self + 1) self) ;;
      ret (raw_action, action)
  | _ => raise ValueError
  end.

(** [step]: the stages above, one after the other. *)
Definition step (image : Image) : M OctoInference (RawAction * Action) :=
  norm_raw_actions <- normalized_actions image ;;
  postprocess norm_raw_actions.

Local Close Scope method_scope.

(** The frames pushed by a sequence of calls of [_add_image_to_history]. *)
Definition push_all (frames : list Frame) (self : OctoInference)
    : OctoInference :=
  fold_left (fun s f => _add_image_to_history f s) frames self.

(** The part of the state that changes from step to step. *)
Definition core_state (self : OctoInference)
    : list Frame * nat * option ActionEnsembler * nat :=
  (image_history self, num_image_history self, action_ensembler self,
   time_step self).

(** The fields that no method assigns after [__init__]. *)
Definition config (self : OctoInference) :=
  (policy_setup self, model_type self, model self, action_mean self,
   action_std self, automatic_task_creation self, image_size self,
   action_scale self, horizon self, pred_action_horizon self,
   exec_horizon self, action_ensemble self, action_ensemble_temp self).

(** There is an ensembler exactly when the policy ensembles, and it has the
    bound and the temperature of the adapter. *)
Definition ensembler_ok (self : OctoInference) : Prop :=
  match action_ensembler self with
  | Some e =>
      action_ensemble self = true /\
      ens_pred_action_horizon e = pred_action_horizon self /\
      ens_temp e = action_ensemble_temp self
  | None => action_ensemble self = false
  end.

(** The chunk the model answers with on the window of a state, after the
    cut of the custom-model branch. *)
Definition answer_of (self : OctoInference) (images : list Frame)
    (pad_mask : list bool) : array3 :=
  if automatic_task_creation self
  then sample_actions (model self) images pad_mask (task self)
  else map (take_cols 7) (lc_ws2 (model self) images pad_mask (task self)).

(** The raw action and the action built from the first de-normalized row. *)
Definition raw_of (first : list Q) : RawAction :=
  mkRaw (slice 0 3 first) (slice 3 6 first) (slice 6 7 first).

Definition action_of (self : OctoInference) (first : list Q)
    (roll pitch yaw : Q) : Action :=
  mkAction (scale (slice 0 3 first) (action_scale self))
    (scale (scale (fst (euler2axangle roll pitch yaw))
              (snd (euler2axangle roll pitch yaw)))
       (action_scale self))
    (gripper_action (policy_setup self) (slice 6 7 first))
    [0.0%Q].

(** The configuration and the task are kept, and so is the ensembler's
    agreement with the configuration. *)
Definition evolves (self self' : OctoInference) : Prop :=
  config self' = config self /\ task self' = task self /\
  (ensembler_ok self -> ensembler_ok self').

(** The buffer of the ensembler, where there is one, holds chunks of zeros
    only and is within its bound. *)
Definition zero_buffered (self : OctoInference) : Prop :=
  match action_ensembler self with
  | Some e =>
      Forall (zero_chunk (ens_pred_action_horizon e)) (action_history e) /\
      length (action_history e) <= ens_pred_action_horizon e
  | None => True
  end.

(** A sequence of calls of [step]; the results in order and the final
    object. *)
Fixpoint run (images : list Image) (self : OctoInference)
    : list (result (RawAction * Action)) * OctoInference :=
  match images with
  | [] => ([], self)
  | image :: rest =>
      let '(r, self) := step image self in
      let '(rs, self) := run rest self in
      (r :: rs, self)
  end.

(** The call returned, and its raw action is the vector [v]. *)
Definition returns_raw (v : list Q) (r : result (RawAction * Action))
    : Prop :=
  match r with
  | Ok (raw, _) =>
      Qeq_list
        (raw_world_vector raw ++ raw_rotation_delta raw
           ++ raw_open_gripper raw) v
  | Raise _ => False
  end.

(** The states an object built as [fresh] can be in between calls. *)
Inductive reachable (fresh : OctoInference) : OctoInference -> Prop :=
| reach_fresh : reachable fresh fresh
| reach_reset task_description self :
    reachable fresh self ->
    reachable fresh (snd (reset task_description self))
| reach_step image self :
    reachable fresh self -> reachable fresh (snd (step image self)).

End Adapter.

End Octo.

(** * Concrete collaborators and inputs for the examples *)

Module Toy.

(** An image is its dtype test ([true]: uint8) and a tag for its content;
    resizing keeps the tag. *)
Definition image : Type := bool * nat.

Definition is_uint8 (i : image) : bool := fst i.

(** A stand-in for [euler2axangle] that is right on the zero rotation (axis
    [1, 0, 0], angle 0) and returns the same on every other one. *)
Definition axangle (roll pitch yaw : Q) : list Q * Q := ([1; 0; 0]%Q, 0%Q).

(** A reply of the server with no motion and the given gripper value. *)
Definition reply_of (g : Q) : list Q := [0; 0; 0; 0; 0; 0; g]%Q.

Definition input_of (g : Q) : image * list Q := ((true, 0), reply_of g).

(** The remote adapter for the google robot, as [__init__] builds it and
    after [reset]. *)
Definition server0 : OctoServer.OctoServerInference :=
  OctoServer.mkServer "google_robot" 15 false 0 0%Q None 256 1.0%Q None 0.

Definition server_reset : OctoServer.OctoServerInference :=
  OctoServer.reset "pick coke can" server0.

(** Gripper readings: open at 0.6 on the first step, then 0 from the second
    step on (a relative action of 0.6 on the second step, then zeros). *)
Definition one_trigger : list (image * list Q) :=
  map input_of (0.6 :: repeat 0 17)%Q.

(** The same with the gripper back at 0.6 from the seventh step on: a
    second relative action of magnitude 0.6, five steps after the first. *)
Definition two_triggers : list (image * list Q) :=
  map input_of (0.6 :: repeat 0 5 ++ repeat 0.6 16)%Q.

(** The adapter after the first call of an episode, which read 0.6. *)
Definition server_armed : OctoServer.OctoServerInference :=
  OctoServer.mkServer "google_robot" 15 false 0 0%Q (Some 0.6%Q) 256 1.0%Q
    (Some "pick coke can"%string) 1.

(** A runtime whose model is its constant answer: every forward pass
    returns the batch the model was loaded as.  Frames are the tags of the
    images, tasks are their descriptions, released models carry the
    statistics of the two known datasets, and [np.exp] is only ever asked
    for [exp 0] (the temperature is 0.0 under both policies). *)
Definition runtime (answer : array3) : Octo.Runtime :=
  {| Octo.Image := image;
     Octo.Frame := nat;
     Octo.Task := string;
     Octo.Model := array3;
     Octo.dtype_is_uint8 := is_uint8;
     Octo.tf_image_resize := fun _ i => snd i;
     Octo.load_pretrained := fun _ => answer;
     Octo.saved_model_load := fun _ => answer;
     Octo.dataset_statistics :=
       fun _ d => match Octo.custom_statistics d with
                  | Ok stats => Some stats
                  | Raise _ => None
                  end;
     Octo.create_tasks := fun _ t => t;
     Octo.tokenizer := fun t => t;
     Octo.sample_actions := fun m _ _ _ => m;
     Octo.lc_ws2 := fun m _ _ _ => m;
     Octo.euler2axangle := axangle;
     Octo.np_exp := fun _ => 1%Q |}.

(** A chunk of four actions that are zero but for the gripper entry. *)
Definition chunk_with_gripper (g : Q) : array2 :=
  mkArray2 4 7 (repeat [0; 0; 0; 0; 0; 0; g]%Q 4).

(** A chunk of four actions with eight entries each. *)
Definition wide_chunk : array2 :=
  mkArray2 4 8 (repeat [0; 0; 0; 0; 0; 0; 0.9; 5]%Q 4).

(** A chunk of four actions with six entries each. *)
Definition narrow_chunk : array2 :=
  mkArray2 4 6 (repeat [0; 0; 0; 0; 0; 0]%Q 4).

(** The local adapter as [__init__] builds it with horizon 2 and chunks of
    4 actions: a released model under [widowx_bridge], and a released and a
    custom model under [google_robot]. *)
Definition widowx_released (answer : array3)
    : @Octo.OctoInference (runtime answer) :=
  @Octo.mkOcto (runtime answer) "widowx_bridge" "hf://rail-berkeley/octo-base"
    answer Octo.bridge_action_mean Octo.bridge_action_std true 256 1.0%Q
    2 4 1 true 0.0%Q None [] (Some (Octo.new_ensembler 4 0.0%Q)) 0 0.

Definition google_released (answer : array3)
    : @Octo.OctoInference (runtime answer) :=
  @Octo.mkOcto (runtime answer) "google_robot" "hf://rail-berkeley/octo-small"
    answer Octo.fractal_action_mean Octo.fractal_action_std true 256 1.0%Q
    2 4 1 false 0.0%Q None [] None 0 0.

Definition google_custom (answer : array3)
    : @Octo.OctoInference (runtime answer) :=
  @Octo.mkOcto (runtime answer) "google_robot" "checkpoints/octo_custom"
    answer Octo.fractal_action_mean Octo.fractal_action_std false 256 1.0%Q
    2 4 1 false 0.0%Q None [] None 0 0.

End Toy.

(** * Counting the calls that returned *)

(** The number of calls that returned. *)
Definition count_ok {A} (rs : list (result A)) : nat :=
  length (filter (fun r => match r with Ok _ => true | Raise _ => false end) rs).

(** * The figure of an episode: [visualize_epoch] of [OctoInference] *)

Module Visualize.

Import Octo.

(** [l[::3]]: the entries at the indices 0, 3, 6, ... *)
Fixpoint every_third {A} (l : list A) : list A :=
  match l with
  | [] => []
  | x :: rest =>
      x :: match rest with
           | _ :: _ :: rest' => every_third rest'
           | _ => []
           end
  end.

Definition ACTION_DIM_LABELS : list string :=
  ["x"; "y"; "z"; "yaw"; "pitch"; "roll"; "grasp"]%string.

(** What the figure shows: the strip of images, left to right, and under
    each label the series that is plotted there.  The calls that only lay
    out and save the figure are left out. *)
Record Figure (Frame : Type) : Type := mkFigure {
  img_strip : list Frame;
  series : list (string * list Q)
}.

(** The series plotted under a label. *)
Definition series_of {Frame} (label : string) (fig : Figure Frame)
    : option (list Q) :=
  option_map snd
    (find (fun p => String.eqb (fst p) label) (series fig)).

Section Epoch.

Context {rt : Runtime}.

(** [np.concatenate([a['world_vector'], a['rotation_delta'],
    a['open_gripper']], axis=-1)]. *)
Definition action_row (a : RawAction) : list Q :=
  raw_world_vector a ++ raw_rotation_delta a ++ raw_open_gripper a.

(** [visualize_epoch].  [np.concatenate] refuses an empty sequence of
    images.  [np.array] of the rows is of rank 1 when there is no row, so
    that the index [[:, action_dim]] raises; it refuses rows of different
    lengths (numpy 1.24 and later); and with rows of fewer than 7 entries
    the index raises at the first label that has no column. *)
Definition visualize_epoch (self : OctoInference)
    (predicted_raw_actions : list RawAction) (images : list Image)
    : result (Figure Frame) :=
  let images := map (_resize_image self) images in
  match every_third images with
  | [] => Raise ValueError
  | strip =>
      let pred_actions := map action_row predicted_raw_actions in
      match pred_actions with
      | [] => Raise IndexError
      | row :: _ =>
          if negb (forallb (fun r => length r =? length row) pred_actions)
          then Raise ValueError
          else if length row <? length ACTION_DIM_LABELS
          then Raise IndexError
          else
            Ok (mkFigure strip
                  (map (fun p =>
                          (snd p,
                           map (fun r => nth (fst p) r 0%Q) pred_actions))
                     (combine (seq 0 (length ACTION_DIM_LABELS))
                        ACTION_DIM_LABELS)))
      end
  end.

End Epoch.

End Visualize.

(** * The JSON codec for numpy objects of [octo_server_model.py]

    [default] and [object_hook] are the functions the module hands to
    [json.dumps] and [json.loads].  A numpy object is its dtype, its shape
    and the bytes of its items in C order, which is what [obj.data] and
    [obj.tobytes()] give; base64 and the dtype descriptions of
    [numpy.lib.format] are collaborators. *)

Module NumpyJson.

Inductive error : Type :=
| TypeError
| Other (e : exn)
| LibraryError (msg : string).

Inductive outcome (A : Type) : Type :=
| Done (a : A)
| Fail (e : error).

Arguments Done {A} a.
Arguments Fail {A} e.

Definition and_then {A B} (m : outcome A) (k : A -> outcome B) : outcome B :=
  match m with
  | Done a => k a
  | Fail e => Fail e
  end.

Declare Scope outcome_scope.
Delimit Scope outcome_scope with outcome.
Notation "x <~ m ;; k" := (and_then m (fun x => k))
  (at level 61, m at next level, right associativity) : outcome_scope.

(** [np.prod(shape)]: the number of items of an array. *)
Definition np_prod (shape : list nat) : nat := fold_right Nat.mul 1 shape.

Section Codec.

Variable Dtype : Type.

(** [dtype.itemsize], in bytes, and [dtype.hasobject]: whether items hold
    references to Python objects. *)
Variable itemsize : Dtype -> nat.
Variable hasobject : Dtype -> bool.

Record ndarray : Type := mkArray {
  dtype : Dtype;
  shape : list nat;
  data : list Byte.byte
}.

#[local] Unset Elimination Schemes.

(** Python objects: what JSON decodes to, tuples, [np.ndarray] and the
    scalars of [np.generic] (a scalar is its dtype and the bytes of its one
    item).  A dict is the list of its items, with distinct keys. *)
Inductive pyobj : Type :=
| PyNone
| PyBool (b : bool)
| PyInt (z : Z)
| PyFloat (q : Q)
| PyStr (s : string)
| PyTuple (l : list pyobj)
| PyList (l : list pyobj)
| PyDict (d : list (string * pyobj))
| NdArray (a : ndarray)
| Generic (d : Dtype) (item : list Byte.byte).

#[local] Set Elimination Schemes.

(** [b64encode(...).decode('ascii')] and [b64decode]. *)
Variable b64encode : list Byte.byte -> string.
Variable b64decode : pyobj -> outcome (list Byte.byte).

(** [numpy.lib.format.dtype_to_descr] and [descr_to_dtype]. *)
Variable dtype_to_descr : Dtype -> pyobj.
Variable descr_to_dtype : pyobj -> outcome Dtype.

(** The truth value of a numpy object, and [reshape] on an argument that
    is not a sequence of non-negative ints. *)
Variable np_truth : pyobj -> outcome bool.
Variable reshape_other : ndarray -> pyobj -> outcome pyobj.

(** [k in dct] and [dct[k]]. *)
Definition lookup (k : string) (dct : list (string * pyobj)) : option pyobj :=
  option_map snd (find (fun p => String.eqb (fst p) k) dct).

Definition getitem (dct : list (string * pyobj)) (k : string) : outcome pyobj :=
  match lookup k dct with
  | Some v => Done v
  | None => Fail (Other KeyError)
  end.

(** [obj.shape] as a tuple of ints. *)
Definition shape_tuple (shape : list nat) : pyobj :=
  PyTuple (map (fun n => PyInt (Z.of_nat n)) shape).

Definition default (obj : pyobj) : outcome pyobj :=
  match obj with
  | NdArray a =>
      Done (PyDict [("__numpy__"%string, PyStr (b64encode (data a)));
                    ("dtype"%string, dtype_to_descr (dtype a));
                    ("shape"%string, shape_tuple (shape a))])
  | Generic d item =>
      Done (PyDict [("__numpy__"%string, PyStr (b64encode item));
                    ("dtype"%string, dtype_to_descr d);
                    ("shape"%string, shape_tuple [])])
  | _ => Fail TypeError
  end.

(** [np.frombuffer(buffer, dtype)]: a one-dimensional array over all the
    bytes.  It refuses a dtype with objects, an item size of 0 and a buffer
    that is not a whole number of items. *)
Definition np_frombuffer (buffer : list Byte.byte) (d : Dtype)
    : outcome ndarray :=
  if hasobject d then Fail (Other ValueError)
  else if itemsize d =? 0 then Fail (Other ValueError)
  else if length buffer mod itemsize d =? 0
       then Done (mkArray d [length buffer / itemsize d] buffer)
       else Fail (Other ValueError).

(** A sequence of non-negative ints, as a shape. *)
Fixpoint dims (l : list pyobj) : option (list nat) :=
  match l with
  | [] => Some []
  | PyInt z :: rest =>
      if (0 <=? z)%Z then option_map (cons (Z.to_nat z)) (dims rest) else None
  | _ => None
  end.

(** [a.reshape(shape)]. *)
Definition reshape (a : ndarray) (new_shape : pyobj) : outcome pyobj :=
  let to (l : list pyobj) :=
    match dims l with
    | Some ds =>
        if np_prod ds =? np_prod (shape a)
        then Done (NdArray (mkArray (dtype a) ds (data a)))
        else Fail (Other ValueError)
    | None => reshape_other a new_shape
    end in
  match new_shape with
  | PyList l => to l
  | PyTuple l => to l
  | _ => reshape_other a new_shape
  end.

(** [a[0]] on a one-dimensional array. *)
Definition first_item (a : ndarray) : outcome pyobj :=
  if np_prod (shape a) =? 0 then Fail (Other IndexError)
  else Done (Generic (dtype a) (firstn (itemsize (dtype a)) (data a))).

(** The truth value of an object, as [if shape] takes it. *)
Definition truth (o : pyobj) : outcome bool :=
  match o with
  | PyNone => Done false
  | PyBool b => Done b
  | PyInt z => Done (negb (z =? 0)%Z)
  | PyFloat q => Done (negb (Qeq_bool q 0))
  | PyStr s => Done (negb (String.eqb s ""%string))
  | PyTuple l => Done (negb (length l =? 0))
  | PyList l => Done (negb (length l =? 0))
  | PyDict d => Done (negb (length d =? 0))
  | _ => np_truth o
  end.

Definition object_hook (dct : list (string * pyobj)) : outcome pyobj :=
  (match lookup "__numpy__" dct with
   | Some payload =>
       buffer <~ b64decode payload ;;
       descr <~ getitem dct "dtype" ;;
       d <~ descr_to_dtype descr ;;
       np_obj <~ np_frombuffer buffer d ;;
       shape <~ getitem dct "shape" ;;
       nonempty <~ truth shape ;;
       if nonempty then reshape np_obj shape else first_item np_obj
   | None => Done (PyDict dct)
   end)%outcome.

(** What [json.loads] without a hook reads from the text [json.dumps]
    writes for an object of None, booleans, numbers, strings, tuples, lists
    and dicts: tuples come back as lists. *)
Fixpoint decoded (o : pyobj) : pyobj :=
  match o with
  | PyTuple l => PyList (map decoded l)
  | PyList l => PyList (map decoded l)
  | PyDict d => PyDict (map (fun p => let '(k, v) := p in (k, decoded v)) d)
  | _ => o
  end.

(** The items of a dict. *)
Definition items (o : pyobj) : list (string * pyobj) :=
  match o with
  | PyDict d => d
  | _ => []
  end.

(** An array holds as many items as its shape says. *)
Definition well_formed (a : ndarray) : Prop :=
  0 < itemsize (dtype a) /\
  length (data a) = np_prod (shape a) * itemsize (dtype a).

End Codec.

End NumpyJson.

(** Stand-ins for the codec's collaborators: a dtype is its item size, its
    description that number, and the text of a buffer its bytes read as
    characters. *)
Module ToyCodec.

Import NumpyJson.

Definition pyobj : Type := NumpyJson.pyobj nat.

Definition b64encode (buffer : list Byte.byte) : string :=
  string_of_list_byte buffer.

Definition b64decode (o : pyobj) : outcome (list Byte.byte) :=
  match o with
  | PyStr _ s => Done (list_byte_of_string s)
  | _ => Fail TypeError
  end.

Definition dtype_to_descr (d : nat) : pyobj := PyInt _ (Z.of_nat d).

Definition descr_to_dtype (o : pyobj) : outcome nat :=
  match o with
  | PyInt _ z => Done (Z.to_nat z)
  | _ => Fail TypeError
  end.

Definition np_truth (o : pyobj) : outcome bool := Fail (Other ValueError).

Definition reshape_other (a : ndarray nat) (o : pyobj) : outcome pyobj :=
  Fail (Other ValueError).

Definition default : pyobj -> outcome pyobj :=
  NumpyJson.default b64encode dtype_to_descr.

Definition object_hook : list (string * pyobj) -> outcome pyobj :=
  NumpyJson.object_hook (fun d => d) (fun _ => false) b64decode
    descr_to_dtype np_truth reshape_other.

(** Six bytes: a (3, 2) array of one-byte items, or three items of two
    bytes. *)
Definition six_bytes : list Byte.byte :=
  [Byte.x01; Byte.x02; Byte.x03; Byte.x04; Byte.x05; Byte.x06].

End ToyCodec.

(** * Facts on the shared helpers *)

Unset Implicit Arguments.

Lemma Qgtb_true (x y : Q) : Qgtb x y = true <-> (y < x)%Q.
Proof.
  unfold Qgtb. rewrite negb_true_iff. split; intros H.
  - apply Qnot_le_lt. intros Hle. apply Qle_bool_iff in Hle. congruence.
  - destruct (Qle_bool x y) eqn:E; trivial.
    apply Qle_bool_iff in E. exfalso. apply (Qlt_not_le _ _ H E).
Qed.

Lemma Qgtb_false (x y : Q) : Qgtb x y = false <-> (x <= y)%Q.
Proof.
  unfold Qgtb. rewrite negb_false_iff. apply Qle_bool_iff.
Qed.

Lemma binarize_open (g : Q) : (0.5 < g)%Q -> (binarize g == 1)%Q.
Proof.
  intros H. apply Qgtb_true in H. unfold binarize. rewrite H. reflexivity.
Qed.

Lemma binarize_closed (g : Q) : (g <= 0.5)%Q -> (binarize g == -1)%Q.
Proof.
  intros H. apply Qgtb_false in H. unfold binarize. rewrite H. reflexivity.
Qed.

(** * Properties of the remote adapter *)

Module OctoServerFacts.

Import OctoServer.

(** ** The sticky gripper, one call at a time *)

(** While idle, a call emits the raw relative action, trigger or not. *)
Lemma sticky_gripper_idle_emits g self :
  sticky_action_is_on self = false ->
  fst (sticky_gripper g self) = relative g self.
Proof.
  intros Hoff. unfold sticky_gripper, relative.
  destruct self as [ps n on r h prev sz sc t ts]; simpl in *. subst on.
  destruct (Qgtb _ _); simpl; reflexivity.
Qed.

(** While holding, a call emits the held value, whatever it reads. *)
Lemma sticky_gripper_hold_emits g self :
  sticky_action_is_on self = true ->
  fst (sticky_gripper g self) = sticky_gripper_action self.
Proof.
  intros Hon. unfold sticky_gripper.
  destruct self as [ps n on r h prev sz sc t ts]; simpl in *. subst on.
  rewrite andb_false_r. simpl. reflexivity.
Qed.

(** While holding, a call counts one more repeat and returns to idle when
    the count reaches the bound. *)
Lemma sticky_gripper_hold_state g self :
  sticky_action_is_on self = true ->
  snd (sticky_gripper g self) =
    if gripper_action_repeat self + 1 =? sticky_gripper_num_repeat self
    then set_sticky_gripper_action 0%Q
           (set_gripper_action_repeat 0
              (set_sticky_action_is_on false
                 (set_previous_gripper_action (Some g) self)))
    else set_gripper_action_repeat (gripper_action_repeat self + 1)
           (set_previous_gripper_action (Some g) self).
Proof.
  intros Hon. unfold sticky_gripper.
  destruct self as [ps n on r h prev sz sc t ts]; simpl in *. subst on.
  rewrite andb_false_r. simpl.
  destruct (r + 1 =? n); reflexivity.
Qed.

(** While idle, a relative action above the threshold starts a hold with
    the count at 1, unless the bound is 1 and the hold ends at once. *)
Lemma sticky_gripper_trigger_state g self :
  idle self ->
  (0.5 < Qabs (relative g self))%Q ->
  snd (sticky_gripper g self) =
    if 1 =? sticky_gripper_num_repeat self
    then set_previous_gripper_action (Some g) self
    else set_gripper_action_repeat 1
           (set_sticky_gripper_action (relative g self)
              (set_sticky_action_is_on true
                 (set_previous_gripper_action (Some g) self))).
Proof.
  intros (Hoff & Hrep & Hheld) Htrig. apply Qgtb_true in Htrig.
  unfold sticky_gripper, relative in *.
  destruct self as [ps n on r h prev sz sc t ts]; simpl in *. subst on r h.
  rewrite Htrig. simpl.
  destruct n as [|[|n]]; reflexivity.
Qed.

(** While idle, a relative action within the threshold changes nothing but
    the previous reading. *)
Lemma sticky_gripper_quiet_state g self :
  idle self ->
  (1 <= sticky_gripper_num_repeat self) ->
  (Qabs (relative g self) <= 0.5)%Q ->
  snd (sticky_gripper g self) = set_previous_gripper_action (Some g) self.
Proof.
  intros (Hoff & Hrep & Hheld) HN Hq. apply Qgtb_false in Hq.
  unfold sticky_gripper, relative in *.
  destruct self as [ps n on r h prev sz sc t ts]; simpl in *. subst on r h.
  rewrite Hq. simpl.
  destruct n as [|n]; [lia | reflexivity].
Qed.

(** The bound of the hold is never assigned. *)
Lemma sticky_gripper_keeps_config g self :
  policy_setup (snd (sticky_gripper g self)) = policy_setup self /\
  sticky_gripper_num_repeat (snd (sticky_gripper g self)) =
    sticky_gripper_num_repeat self /\
  previous_gripper_action (snd (sticky_gripper g self)) = Some g.
Proof.
  unfold sticky_gripper.
  destruct self as [ps n on r h prev sz sc t ts]; simpl.
  destruct (Qgtb _ _), on; simpl;
    match goal with |- context [?a =? ?b] => destruct (a =? b) end;
    simpl; auto.
Qed.

Lemma sticky_gripper_invariant g self :
  1 <= sticky_gripper_num_repeat self ->
  sticky_invariant self ->
  sticky_invariant (snd (sticky_gripper g self)).
Proof.
  intros HN [Hoff Hon].
  destruct (sticky_action_is_on self) eqn:E.
  - destruct (Hon eq_refl) as [Hr Hh].
    rewrite (sticky_gripper_hold_state g self E).
    destruct (Nat.eqb_spec (gripper_action_repeat self + 1)
                (sticky_gripper_num_repeat self)) as [Heq|Hne];
      destruct self as [ps n on r h prev sz sc t ts]; simpl in *; subst on;
      (split; intros H; simpl in *; [auto; discriminate|]);
      try discriminate.
    split; [lia | assumption].
  - destruct (Hoff eq_refl) as [Hr Hh].
    assert (Hidle : idle self) by (repeat split; assumption).
    destruct (Qlt_le_dec 0.5 (Qabs (relative g self))) as [Ht|Hq].
    + rewrite (sticky_gripper_trigger_state g self Hidle Ht).
      destruct (Nat.eqb_spec 1 (sticky_gripper_num_repeat self)) as [Heq|Hne];
        destruct self as [ps n on r h prev sz sc t ts]; simpl in *; subst on;
        (split; intros H; simpl in *; [auto; discriminate|]);
        try discriminate.
      split; [lia | assumption].
    + rewrite (sticky_gripper_quiet_state g self Hidle HN Hq).
      destruct self as [ps n on r h prev sz sc t ts]; simpl in *; subst on.
      split; intros H; simpl in *; [auto | discriminate].
Qed.

(** ** [step] *)

Lemma skipn_length_cons {A} (d x : A) (l : list A) :
  skipn (length l) (x :: l) = [last (x :: l) d].
Proof.
  revert x. induction l as [|y l IH]; intros x; [reflexivity|].
  change (skipn (length (y :: l)) (x :: y :: l))
    with (skipn (length l) (y :: l)).
  rewrite IH. reflexivity.
Qed.

Lemma last_slice_cons {A} (d x : A) (l : list A) :
  last_slice (x :: l) = [last (x :: l) d].
Proof.
  unfold last_slice.
  replace (length (x :: l) - 1) with (length l) by (simpl; lia).
  apply skipn_length_cons.
Qed.

Section Steps.

Variable Image : Type.
Variable dtype_is_uint8 : Image -> bool.
Variable euler2axangle : Q -> Q -> Q -> list Q * Q.

Local Abbreviation step := (step dtype_is_uint8 euler2axangle).
Local Abbreviation run := (run dtype_is_uint8 euler2axangle).
Local Abbreviation well_formed := (well_formed dtype_is_uint8).
Local Abbreviation reachable := (reachable dtype_is_uint8 euler2axangle).

(** Whatever the input, [step] leaves the object as it was, or as the
    sticky gripper left it, up to the step counter. *)
Lemma step_state_cases image reply self :
  let self' := snd (step image reply self) in
  self' = self \/
  self' = set_time_step (time_step self + 1) self \/
  exists g,
    1 <= length reply /\ g = last reply 0%Q /\
    policy_setup self = "google_robot"%string /\
    self' = set_time_step (time_step (snd (sticky_gripper g self)) + 1)
              (snd (sticky_gripper g self)).
Proof.
  unfold OctoServer.step.
  destruct (dtype_is_uint8 image); simpl negb; cbv iota; [|left; reflexivity].
  cbn [raw_rotation_delta raw_open_gripper raw_world_vector].
  destruct (slice 3 6 reply) as [|roll [|pitch [|yaw [|]]]];
    try (left; reflexivity).
  destruct (euler2axangle roll pitch yaw) as [ax angle].
  destruct (String.eqb_spec (policy_setup self) "google_robot") as [Hg|Hg].
  - destruct reply as [|x reply]; [left; reflexivity|].
    rewrite (last_slice_cons 0%Q).
    destruct (sticky_gripper (last (x :: reply) 0%Q) self) as [g self1] eqn:E.
    right; right. exists (last (x :: reply) 0%Q).
    rewrite E. simpl. repeat split; auto. lia.
  - right; left. reflexivity.
Qed.

(** On a well-formed input under [google_robot], [step] returns, emits what
    the sticky gripper emits on the last entry of the reply, and leaves the
    object as the sticky gripper left it, one step later. *)
Lemma step_google x self :
  policy_setup self = "google_robot"%string ->
  well_formed x ->
  emitted (fst (step (fst x) (snd x) self)) =
    Some (fst (sticky_gripper (grip x) self)) /\
  snd (step (fst x) (snd x) self) =
    set_time_step (time_step (snd (sticky_gripper (grip x) self)) + 1)
      (snd (sticky_gripper (grip x) self)).
Proof.
  destruct x as [image reply]. unfold OctoServer.well_formed, grip.
  cbn [fst snd]. intros Hg [Hu Hlen].
  unfold OctoServer.step. rewrite Hu, Hg. simpl negb. cbv iota.
  cbn [raw_rotation_delta raw_open_gripper raw_world_vector].
  destruct reply as [|a [|b [|c [|roll [|pitch [|yaw rest]]]]]];
    simpl in Hlen; try lia.
  change (slice 3 6 (a :: b :: c :: roll :: pitch :: yaw :: rest))
    with [roll; pitch; yaw].
  cbv beta iota.
  destruct (euler2axangle roll pitch yaw) as [ax angle].
  rewrite String.eqb_refl.
  rewrite (last_slice_cons 0%Q).
  destruct (sticky_gripper _ self) as [g self1].
  split; reflexivity.
Qed.

Lemma step_keeps_config image reply self :
  policy_setup (snd (step image reply self)) = policy_setup self /\
  sticky_gripper_num_repeat (snd (step image reply self)) =
    sticky_gripper_num_repeat self.
Proof.
  destruct (step_state_cases image reply self)
    as [-> | [-> | (g & _ & _ & _ & ->)]]; auto.
  destruct (sticky_gripper_keeps_config g self) as (H1 & H2 & _).
  simpl. auto.
Qed.

Lemma sticky_invariant_time_step n self :
  sticky_invariant (set_time_step n self) <-> sticky_invariant self.
Proof. reflexivity. Qed.

Lemma init_bound model_type policy size scale fresh :
  __init__ model_type policy size scale = Ok fresh ->
  fresh = mkServer "google_robot" 15 false 0 0%Q None size scale None 0.
Proof.
  unfold __init__. intros Hinit.
  destruct (String.eqb policy "widowx_bridge"); [discriminate|].
  destruct (String.eqb_spec policy "google_robot"); [|discriminate].
  injection Hinit as <-. now subst.
Qed.

Lemma reachable_config fresh self :
  reachable fresh self ->
  sticky_gripper_num_repeat self = sticky_gripper_num_repeat fresh /\
  policy_setup self = policy_setup fresh /\
  image_size self = image_size fresh /\
  action_scale self = action_scale fresh.
Proof.
  induction 1 as [| t self _ IH | image reply self _ IH]; auto.
  destruct (step_state_cases image reply self)
    as [-> | [-> | (g & _ & _ & _ & ->)]]; auto.
  unfold sticky_gripper.
  destruct self as [ps n on r h prev sz sc t ts]; simpl in *.
  destruct (Qgtb _ _), on; simpl;
    match goal with |- context [?a =? ?b] => destruct (a =? b) end;
    simpl; auto.
Qed.

(** ** Sequences of calls *)

Lemma run_cons x xs self :
  run (x :: xs) self =
    (fst (step (fst x) (snd x) self)
       :: fst (run xs (snd (step (fst x) (snd x) self))),
     snd (run xs (snd (step (fst x) (snd x) self)))).
Proof.
  destruct x as [image reply]. simpl.
  destruct (step image reply self) as [r s1]. simpl.
  destruct (run xs s1) as [rs s2]. reflexivity.
Qed.

Lemma run_app xs ys self :
  run (xs ++ ys) self =
    (fst (run xs self) ++ fst (run ys (snd (run xs self))),
     snd (run ys (snd (run xs self)))).
Proof.
  revert self. induction xs as [|x xs IH]; intros self.
  - simpl. destruct (run ys self). reflexivity.
  - rewrite <- app_comm_cons, !run_cons, IH. reflexivity.
Qed.

Lemma run_length xs self : length (fst (run xs self)) = length xs.
Proof.
  revert self. induction xs as [|x xs IH]; intros self; [reflexivity|].
  rewrite run_cons. simpl. now rewrite IH.
Qed.

(** One call while holding, before the last repeat. *)
Lemma hold_step x self :
  policy_setup self = "google_robot"%string ->
  well_formed x ->
  sticky_action_is_on self = true ->
  gripper_action_repeat self + 1 <> sticky_gripper_num_repeat self ->
  let self' := snd (step (fst x) (snd x) self) in
  policy_setup self' = "google_robot"%string /\
  sticky_gripper_num_repeat self' = sticky_gripper_num_repeat self /\
  sticky_action_is_on self' = true /\
  gripper_action_repeat self' = gripper_action_repeat self + 1 /\
  sticky_gripper_action self' = sticky_gripper_action self.
Proof.
  intros Hg Hwf Hon Hne. cbv zeta.
  destruct (step_google x self Hg Hwf) as [_ ->].
  rewrite (sticky_gripper_hold_state _ self Hon).
  destruct (Nat.eqb_spec (gripper_action_repeat self + 1)
              (sticky_gripper_num_repeat self)); [contradiction|].
  simpl. auto.
Qed.

(** The call of the last repeat. *)
Lemma hold_last_step x self :
  policy_setup self = "google_robot"%string ->
  well_formed x ->
  sticky_action_is_on self = true ->
  gripper_action_repeat self + 1 = sticky_gripper_num_repeat self ->
  let self' := snd (step (fst x) (snd x) self) in
  policy_setup self' = "google_robot"%string /\
  sticky_gripper_num_repeat self' = sticky_gripper_num_repeat self /\
  idle self' /\
  previous_gripper_action self' = Some (grip x).
Proof.
  intros Hg Hwf Hon Heq. cbv zeta.
  destruct (step_google x self Hg Hwf) as [_ ->].
  rewrite (sticky_gripper_hold_state _ self Hon).
  destruct (Nat.eqb_spec (gripper_action_repeat self + 1)
              (sticky_gripper_num_repeat self)); [|contradiction].
  unfold idle. simpl. repeat split; auto.
Qed.

(** While the hold lasts, every call emits the held value, whatever the
    server replies. *)
Lemma hold_outputs ys :
  forall self k,
    policy_setup self = "google_robot"%string ->
    Forall well_formed ys ->
    sticky_action_is_on self = true ->
    k < length ys ->
    k < sticky_gripper_num_repeat self - gripper_action_repeat self ->
    nth k (map emitted (fst (run ys self))) None =
      Some (sticky_gripper_action self).
Proof.
  induction ys as [|y ys IH]; intros self k Hg Hwf Hon Hk Hrem;
    [simpl in Hk; lia|].
  inversion Hwf as [|? ? Hy Hys]; subst.
  rewrite run_cons. cbn [fst map].
  destruct k as [|k].
  - simpl. destruct (step_google y self Hg Hy) as [-> _].
    now rewrite sticky_gripper_hold_emits.
  - cbn [nth].
    assert (Hne : gripper_action_repeat self + 1
                  <> sticky_gripper_num_repeat self) by lia.
    destruct (hold_step y self Hg Hy Hon Hne) as (Hg' & HN & Hon' & Hr & Hh).
    rewrite IH; auto.
    + now rewrite Hh.
    + simpl in Hk. lia.
    + lia.
Qed.

(** The hold is still on before its last repeat. *)
Lemma hold_still_on ys :
  forall self,
    policy_setup self = "google_robot"%string ->
    Forall well_formed ys ->
    sticky_action_is_on self = true ->
    length ys < sticky_gripper_num_repeat self - gripper_action_repeat self ->
    sticky_action_is_on (snd (run ys self)) = true.
Proof.
  induction ys as [|y ys IH]; intros self Hg Hwf Hon Hlen; [assumption|].
  inversion Hwf as [|? ? Hy Hys]; subst.
  rewrite run_cons. cbn [snd]. simpl in Hlen.
  assert (Hne : gripper_action_repeat self + 1
                <> sticky_gripper_num_repeat self) by lia.
  destruct (hold_step y self Hg Hy Hon Hne) as (Hg' & HN & Hon' & Hr & Hh).
  apply IH; auto. lia.
Qed.

(** The hold ends with its last repeat: the object is idle again. *)
Lemma hold_end ys :
  forall self,
    policy_setup self = "google_robot"%string ->
    Forall well_formed ys ->
    sticky_action_is_on self = true ->
    gripper_action_repeat self < sticky_gripper_num_repeat self ->
    length ys = sticky_gripper_num_repeat self - gripper_action_repeat self ->
    let self' := snd (run ys self) in
    policy_setup self' = "google_robot"%string /\
    sticky_gripper_num_repeat self' = sticky_gripper_num_repeat self /\
    idle self' /\
    exists y, In y ys /\ previous_gripper_action self' = Some (grip y).
Proof.
  induction ys as [|y ys IH]; intros self Hg Hwf Hon Hlt Hlen;
    [simpl in Hlen; lia|].
  inversion Hwf as [|? ? Hy Hys]; subst.
  cbv zeta. rewrite run_cons. cbn [snd]. simpl in Hlen.
  destruct (Nat.eq_dec (gripper_action_repeat self + 1)
              (sticky_gripper_num_repeat self)) as [Heq|Hne].
  - destruct ys; [|simpl in Hlen; lia].
    destruct (hold_last_step y self Hg Hy Hon Heq) as (Hg' & HN & Hidle & Hp).
    simpl. repeat split; try apply Hidle; auto.
    exists y. split; [now left | assumption].
  - destruct (hold_step y self Hg Hy Hon Hne) as (Hg' & HN & Hon' & Hr & Hh).
    destruct (IH _ Hg' Hys Hon') as (H1 & H2 & H3 & z & Hz & H4); try lia.
    repeat split; try apply H3; auto; try congruence.
    exists z. split; [now right | assumption].
Qed.

(** A call that triggers: the relative action is emitted and latched. *)
Lemma trigger_step x p self :
  policy_setup self = "google_robot"%string ->
  well_formed x ->
  idle self ->
  previous_gripper_action self = Some p ->
  (0.5 < Qabs (p - grip x))%Q ->
  let self' := snd (step (fst x) (snd x) self) in
  emitted (fst (step (fst x) (snd x) self)) = Some (p - grip x)%Q /\
  policy_setup self' = "google_robot"%string /\
  sticky_gripper_num_repeat self' = sticky_gripper_num_repeat self /\
  previous_gripper_action self' = Some (grip x) /\
  (sticky_gripper_num_repeat self = 1 -> idle self') /\
  (sticky_gripper_num_repeat self <> 1 ->
   sticky_action_is_on self' = true /\
   gripper_action_repeat self' = 1 /\
   sticky_gripper_action self' = (p - grip x)%Q).
Proof.
  intros Hg Hwf Hidle Hp Ht. cbv zeta.
  assert (Hrel : relative (grip x) self = (p - grip x)%Q)
    by (unfold relative; now rewrite Hp).
  destruct (step_google x self Hg Hwf) as [-> ->].
  rewrite sticky_gripper_idle_emits by apply Hidle.
  rewrite sticky_gripper_trigger_state by (auto; now rewrite Hrel).
  rewrite Hrel. destruct Hidle as (Hoff & Hrep & Hheld).
  destruct (Nat.eqb_spec 1 (sticky_gripper_num_repeat self)) as [H1|H1];
    unfold idle; simpl; repeat split; auto; try congruence; intros; lia.
Qed.

(** A call while idle whose reading equals the previous one emits a zero
    relative action and stays idle. *)
Lemma quiet_step x p self :
  policy_setup self = "google_robot"%string ->
  1 <= sticky_gripper_num_repeat self ->
  well_formed x ->
  idle self ->
  previous_gripper_action self = Some p ->
  (p == grip x)%Q ->
  let self' := snd (step (fst x) (snd x) self) in
  emitted (fst (step (fst x) (snd x) self)) = Some (p - grip x)%Q /\
  policy_setup self' = "google_robot"%string /\
  sticky_gripper_num_repeat self' = sticky_gripper_num_repeat self /\
  previous_gripper_action self' = Some (grip x) /\
  idle self'.
Proof.
  intros Hg HN Hwf Hidle Hp Heq. cbv zeta.
  assert (Hrel : relative (grip x) self = (p - grip x)%Q)
    by (unfold relative; now rewrite Hp).
  assert (Hq : (Qabs (relative (grip x) self) <= 0.5)%Q).
  { rewrite Hrel.
    assert (H0 : (p - grip x == 0)%Q) by (rewrite Heq; ring).
    rewrite H0. discriminate. }
  destruct (step_google x self Hg Hwf) as [-> ->].
  rewrite sticky_gripper_idle_emits by apply Hidle.
  rewrite sticky_gripper_quiet_state by auto.
  rewrite Hrel. destruct Hidle as (Hoff & Hrep & Hheld).
  unfold idle; simpl; repeat split; auto.
Qed.

(** Once idle with readings that no longer change, every call emits a zero
    relative action. *)
Lemma quiet_outputs ys :
  forall self p g k,
    policy_setup self = "google_robot"%string ->
    1 <= sticky_gripper_num_repeat self ->
    Forall well_formed ys ->
    idle self ->
    previous_gripper_action self = Some p ->
    (p == g)%Q ->
    Forall (fun y => (grip y == g)%Q) ys ->
    k < length ys ->
    exists r,
      nth k (map emitted (fst (run ys self))) None = Some r /\ (r == 0)%Q.
Proof.
  induction ys as [|y ys IH]; intros self p g k Hg HN Hwf Hidle Hp Hpg Hall Hk;
    [simpl in Hk; lia|].
  inversion Hwf as [|? ? Hy Hys]; subst.
  inversion Hall as [|? ? Hgy Hgys]; subst.
  assert (Heq : (p == grip y)%Q) by (rewrite Hpg, Hgy; reflexivity).
  destruct (quiet_step y p self Hg HN Hy Hidle Hp Heq)
    as (Hout & Hg' & HN' & Hp' & Hidle').
  rewrite run_cons. cbn [fst map].
  destruct k as [|k].
  - exists (p - grip y)%Q. split; [exact Hout|]. rewrite Heq. ring.
  - cbn [nth]. apply (IH _ (grip y) g); auto; try lia.
    simpl in Hk. lia.
Qed.

Lemma Forall_take {A} (P : A -> Prop) n (l : list A) :
  Forall P l -> Forall P (firstn n l).
Proof.
  intros H. rewrite <- (firstn_skipn n l) in H.
  now apply Forall_app in H.
Qed.

Lemma split_at {A} n (l : list A) :
  n <= length l -> exists a b, l = a ++ b /\ length a = n.
Proof.
  intros H. exists (firstn n l), (skipn n l). split.
  - symmetry. apply firstn_skipn.
  - rewrite length_firstn. lia.
Qed.

(** C1, as the code has it.  Under [google_robot], let a call made while
    idle compute a relative action of magnitude above 0.5, and let every
    later reading equal the one of that call, so that every later relative
    action is zero.  Then the latched value is emitted on the triggering
    call and on the [sticky_gripper_num_repeat - 1] calls after it (call 0
    is the triggering one), and every call from the
    [sticky_gripper_num_repeat]-th after the trigger on emits the zero
    relative action. *)
Theorem sticky_hold_counts_the_trigger :
  forall (self : OctoServerInference) (p : Q) (x : Image * list Q)
         (xs : list (Image * list Q)),
    policy_setup self = "google_robot"%string ->
    1 <= sticky_gripper_num_repeat self ->
    idle self ->
    previous_gripper_action self = Some p ->
    Forall well_formed (x :: xs) ->
    (0.5 < Qabs (p - grip x))%Q ->
    Forall (fun y => (grip y == grip x)%Q) xs ->
    forall k, k < length (x :: xs) ->
      let out := nth k (map emitted (fst (run (x :: xs) self))) None in
      (k < sticky_gripper_num_repeat self -> out = Some (p - grip x)%Q) /\
      (sticky_gripper_num_repeat self <= k ->
       exists r, out = Some r /\ (r == 0)%Q).
Proof.
  intros self p x xs Hg HN Hidle Hp Hwf Ht Hall k Hk.
  inversion Hwf as [|? ? Hx Hxs]; subst.
  destruct (trigger_step x p self Hg Hx Hidle Hp Ht)
    as (Hout & Hg' & HN' & Hp' & Hone & Hmore).
  cbv zeta. rewrite run_cons. cbn [fst map].
  destruct k as [|k]; [split; intros; [exact Hout | lia]|].
  cbn [nth]. simpl in Hk.
  set (s1 := snd (step (fst x) (snd x) self)) in *.
  split.
  - intros Hlt.
    destruct Hmore as (Hon & Hrep & Hheld); [lia|].
    rewrite hold_outputs; auto; [now rewrite Hheld | lia | lia].
  - intros Hge.
    destruct (Nat.eq_dec (sticky_gripper_num_repeat self) 1) as [E1|E1].
    + apply (quiet_outputs xs s1 (grip x) (grip x)); auto;
        [lia | reflexivity | lia].
    + destruct Hmore as (Hon & Hrep & Hheld); [exact E1|].
      destruct (split_at (sticky_gripper_num_repeat self - 1) xs)
        as (a & b & -> & Hlen); [lia|].
      apply Forall_app in Hxs as [Hwa Hwb].
      apply Forall_app in Hall as [Hga Hgb].
      rewrite length_app in Hk.
      rewrite run_app. cbn [fst]. rewrite map_app.
      rewrite app_nth2 by (rewrite length_map, run_length; lia).
      rewrite length_map, run_length.
      destruct (hold_end a s1 Hg' Hwa Hon) as (Hg2 & HN2 & Hidle2 & y & Hy & Hp2);
        try lia.
      apply (quiet_outputs b _ (grip y) (grip x)); auto; try lia.
      rewrite Forall_forall in Hga. apply Hga, Hy.
Qed.

(** C2, as the code has it.  Under [google_robot], after a call made while
    idle that computes a relative action of magnitude above 0.5, the next
    [sticky_gripper_num_repeat - 1] calls emit the value latched by that
    call whatever the server replies, further relative actions above the
    threshold included; the hold stays on until the last of them and the
    adapter is idle after it: a second trigger neither extends nor restarts
    the hold. *)
Theorem second_trigger_is_ignored :
  forall (self : OctoServerInference) (p : Q) (x : Image * list Q)
         (ys : list (Image * list Q)),
    policy_setup self = "google_robot"%string ->
    1 <= sticky_gripper_num_repeat self ->
    idle self ->
    previous_gripper_action self = Some p ->
    Forall well_formed (x :: ys) ->
    (0.5 < Qabs (p - grip x))%Q ->
    length ys = sticky_gripper_num_repeat self - 1 ->
    (forall k, k < length (x :: ys) ->
       nth k (map emitted (fst (run (x :: ys) self))) None
       = Some (p - grip x)%Q) /\
    (forall j, j < length ys ->
       sticky_action_is_on (snd (run (x :: firstn j ys) self)) = true) /\
    idle (snd (run (x :: ys) self)).
Proof.
  intros self p x ys Hg HN Hidle Hp Hwf Ht Hlen.
  inversion Hwf as [|? ? Hx Hys]; subst.
  destruct (trigger_step x p self Hg Hx Hidle Hp Ht)
    as (Hout & Hg' & HN' & Hp' & Hone & Hmore).
  set (s1 := snd (step (fst x) (snd x) self)) in *.
  destruct (Nat.eq_dec (sticky_gripper_num_repeat self) 1) as [E1|E1].
  - destruct ys; [|simpl in Hlen; lia].
    repeat split.
    + intros [|k] Hk; [|simpl in Hk; lia].
      rewrite run_cons. exact Hout.
    + intros j Hj. simpl in Hj. lia.
    + rewrite run_cons; apply (Hone E1).
    + rewrite run_cons; apply (Hone E1).
    + rewrite run_cons; apply (Hone E1).
  - destruct Hmore as (Hon & Hrep & Hheld); [exact E1|].
    split; [|split].
    + intros [|k] Hk; rewrite run_cons; cbn [fst map nth]; [exact Hout|].
      simpl in Hk. fold s1.
      rewrite hold_outputs; auto; [now rewrite Hheld | lia | lia].
    + intros j Hj. rewrite run_cons. cbn [snd]. fold s1.
      apply hold_still_on; auto using Forall_take.
      rewrite length_firstn. lia.
    + rewrite run_cons. cbn [snd]. fold s1.
      apply (hold_end ys s1 Hg' Hys Hon); lia.
Qed.

End Steps.

(** C10.  In every state the remote adapter can be in between calls, when
    the sticky action is off the repeat counter is 0 and the held action is
    0.0, and when it is on the repeat counter lies between 1 and
    [sticky_gripper_num_repeat - 1] and the held action has magnitude above
    0.5. *)
Theorem sticky_fields_between_calls :
  forall (Image : Type) (dtype_is_uint8 : Image -> bool)
         (euler2axangle : Q -> Q -> Q -> list Q * Q)
         (model_type policy : string) (size : nat) (scale : Q)
         (fresh self : OctoServerInference),
    __init__ model_type policy size scale = Ok fresh ->
    reachable dtype_is_uint8 euler2axangle fresh self ->
    (sticky_action_is_on self = false ->
     gripper_action_repeat self = 0 /\ sticky_gripper_action self = 0%Q) /\
    (sticky_action_is_on self = true ->
     1 <= gripper_action_repeat self <= sticky_gripper_num_repeat self - 1 /\
     (0.5 < Qabs (sticky_gripper_action self))%Q).
Proof.
  intros Image dtype euler mt ps sz sc fresh self Hinit Hreach.
  apply init_bound in Hinit.
  change (sticky_invariant self).
  induction Hreach as [| t self Hr IH | image reply self Hr IH].
  - subst fresh. split; simpl; intros H; [auto | discriminate].
  - split; simpl; intros H; [auto | discriminate].
  - destruct (reachable_config Image dtype euler fresh self Hr) as [HN _].
    rewrite Hinit in HN. simpl in HN.
    destruct (step_state_cases Image dtype euler image reply self)
      as [-> | [-> | (g & _ & _ & _ & ->)]]; try exact IH.
    apply sticky_invariant_time_step, sticky_gripper_invariant; [lia | exact IH].
Qed.

(** ** The two traces *)

Section Traces.

Import Toy.

Local Abbreviation run := (run is_uint8 axangle).

Lemma server_armed_is_reached :
  snd (run (firstn 1 one_trigger) server_reset) = server_armed.
Proof. reflexivity. Qed.

Lemma inputs_well_formed (gs : list Q) :
  Forall (well_formed is_uint8) (map input_of gs).
Proof.
  induction gs as [|g gs IH]; constructor; [|exact IH].
  split; [reflexivity | simpl; lia].
Qed.

Lemma readings_all_zero n :
  Forall (fun y => (grip y == grip (input_of 0))%Q)
    (map input_of (repeat 0%Q n)).
Proof.
  induction n as [|n IH]; constructor; [reflexivity | exact IH].
Qed.

(** On the first trace the relative action of call 1 is 0.6.  It is emitted
    on calls 1 to 15; call 16, the fifteenth after the trigger, emits zero. *)
Lemma one_trigger_outputs :
  map emitted (fst (run one_trigger server_reset)) =
    Some 0%Q :: repeat (Some 0.6%Q) 15 ++ [Some 0%Q; Some 0%Q].
Proof. vm_compute. reflexivity. Qed.

(** C1 fails as stated: with [sticky_gripper_num_repeat] = 15, the latched
    0.6 is not emitted on each of the 15 calls after the triggering call 1;
    the fifteenth of them, call 16, emits the raw zero. *)
Lemma fifteenth_call_after_trigger_emits_zero :
  let outs := map emitted (fst (run one_trigger server_reset)) in
  nth 1 outs None = Some 0.6%Q /\
  nth 16 outs None = Some 0%Q /\
  ~ (forall k, 1 <= k <= sticky_gripper_num_repeat server_reset ->
       nth (1 + k) outs None = Some 0.6%Q).
Proof.
  cbv zeta. rewrite one_trigger_outputs.
  split; [reflexivity|]. split; [reflexivity|].
  intros H. specialize (H 15). simpl in H.
  assert (H15 : 1 <= 15 <= 15) by lia.
  specialize (H H15). discriminate H.
Qed.

Lemma sticky_hold_counts_the_trigger_witness :
  nth 14 (map emitted (fst (run (tl one_trigger) server_armed))) None
    = Some (0.6 - grip (input_of 0))%Q /\
  exists r,
    nth 15 (map emitted (fst (run (tl one_trigger) server_armed))) None
      = Some r /\ (r == 0)%Q.
Proof.
  assert (Hwf : Forall (well_formed is_uint8) (tl one_trigger))
    by (apply (inputs_well_formed (repeat 0%Q 17))).
  assert (Hidle : idle server_armed) by (repeat split; reflexivity).
  assert (HN : 1 <= sticky_gripper_num_repeat server_armed) by (simpl; lia).
  assert (Ht : (0.5 < Qabs (0.6 - grip (input_of 0)))%Q) by reflexivity.
  split.
  - refine (proj1 (sticky_hold_counts_the_trigger image is_uint8 axangle
                     server_armed 0.6%Q (input_of 0%Q)
                     (map input_of (repeat 0%Q 16))
                     eq_refl HN Hidle eq_refl Hwf Ht (readings_all_zero 16)
                     14 _) _); simpl; lia.
  - refine (proj2 (sticky_hold_counts_the_trigger image is_uint8 axangle
                     server_armed 0.6%Q (input_of 0%Q)
                     (map input_of (repeat 0%Q 16))
                     eq_refl HN Hidle eq_refl Hwf Ht (readings_all_zero 16)
                     15 _) _); simpl; lia.
Defined.

(** On the second trace call 1 triggers with 0.6 and call 6 computes a
    relative action of -0.6.  Calls 1 to 15 emit 0.6 all the same, and from
    call 16 on the raw relative action is emitted. *)
Lemma two_triggers_outputs :
  map emitted (fst (run two_triggers server_reset)) =
    Some 0%Q :: repeat (Some 0.6%Q) 15 ++ repeat (Some 0.00%Q) 6.
Proof. vm_compute. reflexivity. Qed.

(** C2 fails as stated: the second trigger, on call 6, neither restarts nor
    extends the hold.  Call 6 emits the first latched value, the adapter is
    idle after call 15 (fifteen calls from the first trigger, ten from the
    second), and so the hold is not on during the calls counted from the
    second trigger. *)
Lemma second_trigger_does_not_restart_hold :
  relative (grip (nth 6 two_triggers (input_of 0)))
    (snd (run (firstn 6 two_triggers) server_reset)) = (-0.6)%Q /\
  sticky_action_is_on (snd (run (firstn 6 two_triggers) server_reset))
    = true /\
  nth 6 (map emitted (fst (run two_triggers server_reset))) None
    = Some 0.6%Q /\
  idle (snd (run (firstn 16 two_triggers) server_reset)) /\
  ~ (forall k, k < sticky_gripper_num_repeat server_reset - 1 ->
       sticky_action_is_on
         (snd (run (firstn (7 + k) two_triggers) server_reset)) = true).
Proof.
  split; [reflexivity|]. split; [reflexivity|].
  split; [rewrite two_triggers_outputs; reflexivity|].
  split; [repeat split; reflexivity|].
  intros H. specialize (H 9). simpl sticky_gripper_num_repeat in H.
  assert (H9 : 9 < 15 - 1) by lia.
  specialize (H H9). vm_compute in H. discriminate H.
Qed.

Lemma second_trigger_is_ignored_witness :
  (forall k, k < 15 ->
     nth k (map emitted
              (fst (run (firstn 15 (tl two_triggers)) server_armed))) None
     = Some (0.6 - grip (input_of 0))%Q) /\
  idle (snd (run (firstn 15 (tl two_triggers)) server_armed)).
Proof.
  assert (Hwf : Forall (well_formed is_uint8) (firstn 15 (tl two_triggers)))
    by (apply (inputs_well_formed (repeat 0%Q 5 ++ repeat 0.6%Q 10))).
  assert (Hidle : idle server_armed) by (repeat split; reflexivity).
  assert (HN : 1 <= sticky_gripper_num_repeat server_armed) by (simpl; lia).
  assert (Ht : (0.5 < Qabs (0.6 - grip (input_of 0)))%Q) by reflexivity.
  destruct (second_trigger_is_ignored image is_uint8 axangle
              server_armed 0.6%Q (input_of 0%Q)
              (map input_of (repeat 0%Q 4 ++ repeat 0.6%Q 10))
              eq_refl HN Hidle eq_refl Hwf Ht eq_refl) as (Hout & _ & Hend).
  split; [exact Hout | exact Hend].
Defined.

Lemma sticky_fields_between_calls_witness :
  let self :=
    snd (step is_uint8 axangle (true, 0) (reply_of 0%Q)
           (snd (step is_uint8 axangle (true, 0) (reply_of 0.6%Q)
                   server_reset))) in
  sticky_action_is_on self = true /\
  1 <= gripper_action_repeat self <= sticky_gripper_num_repeat self - 1 /\
  (0.5 < Qabs (sticky_gripper_action self))%Q.
Proof.
  cbv zeta.
  assert (Hreach : reachable is_uint8 axangle server0
            (snd (step is_uint8 axangle (true, 0) (reply_of 0%Q)
                    (snd (step is_uint8 axangle (true, 0) (reply_of 0.6%Q)
                            server_reset))))).
  { apply (@reach_step image is_uint8 axangle server0 (true, 0)
             (reply_of 0%Q)).
    apply (@reach_step image is_uint8 axangle server0 (true, 0)
             (reply_of 0.6%Q)).
    apply (@reach_reset image is_uint8 axangle server0 "pick coke can").
    apply reach_fresh. }
  destruct (sticky_fields_between_calls image is_uint8 axangle
              "octo-base" "google_robot" 256 1.0%Q server0 _ eq_refl Hreach)
    as [_ Hon].
  split; [reflexivity | exact (Hon eq_refl)].
Defined.

End Traces.

End OctoServerFacts.

(** * Properties of the local adapter *)

Module OctoFacts.

Import Octo.

(** ** Bounded deques *)

Lemma lastn_short {A} n (l : list A) : length l <= n -> lastn n l = l.
Proof.
  intros H. unfold lastn. replace (length l - n) with 0 by lia. reflexivity.
Qed.

Lemma lastn_length {A} n (l : list A) : length (lastn n l) = Nat.min n (length l).
Proof. unfold lastn. rewrite length_skipn. lia. Qed.

(** Only the last [n] entries of the left part matter. *)
Lemma lastn_app_lastn {A} n (l r : list A) :
  lastn n (lastn n l ++ r) = lastn n (l ++ r).
Proof.
  unfold lastn at 1 3. rewrite !length_app, lastn_length.
  destruct (Nat.le_gt_cases (length l) n) as [Hle|Hgt].
  - rewrite lastn_short by assumption. f_equal. lia.
  - unfold lastn. rewrite !skipn_app, skipn_skipn, length_skipn.
    replace (Nat.min n (length l) + length r - n + (length l - n))
      with (length l + length r - n) by lia.
    replace (Nat.min n (length l) + length r - n - (length l - (length l - n)))
      with (length l + length r - n - length l) by lia.
    reflexivity.
Qed.

(** Entries that cannot be among the last [n] may be dropped. *)
Lemma lastn_app_long {A} n (l r : list A) :
  n <= length r -> lastn n (l ++ r) = lastn n r.
Proof.
  intros H. unfold lastn. rewrite skipn_app, length_app.
  rewrite skipn_all2 by lia. simpl. f_equal. lia.
Qed.

Lemma deque_append_lastn {A} n (d : list A) x :
  deque_append n d x = lastn n (d ++ [x]).
Proof. reflexivity. Qed.

Lemma deque_extend_lastn {A} n (xs : list A) :
  forall l, deque_extend n (lastn n l) xs = lastn n (l ++ xs).
Proof.
  unfold deque_extend.
  induction xs as [|x xs IH]; intros l; simpl.
  - now rewrite app_nil_r.
  - rewrite deque_append_lastn, lastn_app_lastn, IH, <- app_assoc.
    reflexivity.
Qed.

(** ** The observation history *)

Section History.

Context {rt : Runtime}.

(** After [reset]: an empty history and no frame counted. *)
Lemma reset_history task_description (self : OctoInference) :
  fst (reset task_description self) = Ok tt ->
  let self' := snd (reset task_description self) in
  image_history self' = [] /\ num_image_history self' = 0 /\
  horizon self' = horizon self /\ image_size self' = image_size self.
Proof.
  unfold reset.
  destruct self as [ps mt m mean std auto sz sc h P ex ae temp t hist ens n ts].
  simpl. destruct auto, ae; simpl; try destruct ens; simpl;
    intros H; try discriminate; repeat split.
Qed.

(** The first push fills the window with the frame. *)
Lemma first_push frame (self : OctoInference) :
  image_history self = [] ->
  num_image_history self = 0 ->
  let self' := _add_image_to_history frame self in
  image_history self' = repeat frame (horizon self) /\
  num_image_history self' = Nat.min 1 (horizon self) /\
  horizon self' = horizon self.
Proof.
  intros Hh Hn. unfold _add_image_to_history. rewrite Hn, Hh.
  cbn [Nat.eqb num_image_history set_image_history horizon
       set_num_image_history image_history].
  rewrite Hn.
  split; [|split; reflexivity].
  change (@nil Frame) with (lastn (horizon self) (@nil Frame)).
  rewrite deque_extend_lastn. simpl.
  apply lastn_short. now rewrite repeat_length.
Qed.

(** A later push slides the window. *)
Lemma later_push frame (self : OctoInference) :
  num_image_history self <> 0 ->
  let self' := _add_image_to_history frame self in
  image_history self' =
    lastn (horizon self) (image_history self ++ [frame]) /\
  num_image_history self' =
    Nat.min (num_image_history self + 1) (horizon self) /\
  horizon self' = horizon self.
Proof.
  intros Hn. unfold _add_image_to_history.
  destruct (Nat.eqb_spec (num_image_history self) 0); [contradiction|].
  cbn [num_image_history set_image_history horizon set_num_image_history
       image_history].
  rewrite deque_append_lastn. auto.
Qed.

(** The pushes after the first one. *)
Lemma later_pushes frames :
  forall (self : OctoInference) l,
    0 < horizon self ->
    0 < num_image_history self <= horizon self ->
    image_history self = lastn (horizon self) l ->
    let self' := push_all frames self in
    image_history self' = lastn (horizon self) (l ++ frames) /\
    num_image_history self' =
      Nat.min (num_image_history self + length frames) (horizon self) /\
    horizon self' = horizon self.
Proof.
  induction frames as [|f frames IH]; intros self l Hh Hn Hl; cbv zeta.
  - simpl. rewrite app_nil_r, Nat.add_0_r. repeat split; auto. lia.
  - change (push_all (f :: frames) self)
      with (push_all frames (_add_image_to_history f self)).
    destruct (later_push f self) as (H1 & H2 & H3); [lia|].
    destruct (IH (_add_image_to_history f self) (l ++ [f]))
      as (I1 & I2 & I3).
    + lia.
    + lia.
    + rewrite H1, H3, Hl. apply lastn_app_lastn.
    + rewrite I1, I2, I3, H2, H3, <- app_assoc. simpl.
      repeat split; auto. lia.
Qed.

(** The window and the mask after the pushes of [frame :: frames] into a
    history that was just reset. *)
Lemma pushes_after_reset frame frames (self : OctoInference) :
  0 < horizon self ->
  image_history self = [] ->
  num_image_history self = 0 ->
  let self' := push_all (frame :: frames) self in
  image_history self' =
    lastn (horizon self) (repeat frame (horizon self) ++ frames) /\
  num_image_history self' =
    Nat.min (length (frame :: frames)) (horizon self) /\
  horizon self' = horizon self.
Proof.
  intros Hh Hist Hn. cbv zeta.
  change (push_all (frame :: frames) self)
    with (push_all frames (_add_image_to_history frame self)).
  destruct (first_push frame self Hist Hn) as (H1 & H2 & H3).
  destruct (later_pushes frames (_add_image_to_history frame self)
              (repeat frame (horizon self))) as (I1 & I2 & I3).
  - lia.
  - lia.
  - rewrite H1, H3. symmetry. apply lastn_short. now rewrite repeat_length.
  - rewrite I1, I2, I3, H2, H3. repeat split; auto. cbn [length]. lia.
Qed.

Lemma pad_mask_of_length h n : length (pad_mask_of h n) = h.
Proof.
  unfold pad_mask_of. rewrite length_app, !repeat_length. lia.
Qed.

Lemma skipn_repeat {A} (x : A) k n : skipn k (repeat x n) = repeat x (n - k).
Proof.
  revert k. induction n as [|n IH]; intros [|k]; simpl; auto.
Qed.

Lemma repeat_snoc {A} (x : A) n : repeat x (S n) = repeat x n ++ [x].
Proof. simpl. apply repeat_cons. Qed.

End History.

(** C3.  After [reset], one push of the resized image gives a window of
    [horizon] copies of that frame and a mask that is false everywhere but
    at its last entry. *)
Theorem window_after_first_push :
  forall (rt : Runtime) (self0 : OctoInference) (task_description : string)
         (image : Image),
    0 < horizon self0 ->
    fst (reset task_description self0) = Ok tt ->
    let self := snd (reset task_description self0) in
    let frame := _resize_image self image in
    _obtain_image_history_and_mask (_add_image_to_history frame self) =
      Ok (repeat frame (horizon self0),
          repeat false (horizon self0 - 1) ++ [true]).
Proof.
  intros rt self0 task image Hh Hok. cbv zeta.
  destruct (reset_history task self0 Hok) as (Hist & Hn & Hhor & _).
  set (self := snd (reset task self0)) in *.
  set (frame := _resize_image self image).
  destruct (first_push frame self Hist Hn) as (H1 & H2 & H3).
  unfold _obtain_image_history_and_mask.
  rewrite H1, H2, H3, Hhor.
  destruct (horizon self0) as [|h]; [lia|].
  simpl repeat at 1. cbv iota.
  unfold pad_mask_of. simpl Nat.min.
  replace (S h - (S h - 1)) with 1 by lia.
  reflexivity.
Qed.

(** C4.  After [reset] and n >= 1 pushes, the window is read without error;
    the mask has [horizon] entries, false on the leading
    [horizon - min n horizon] and true on the trailing [min n horizon] of
    them; from n >= [horizon] on the mask is all true and the window is the
    last [horizon] pushed frames in order; before that the window is the
    first frame repeated in front of the pushed frames. *)
Theorem window_after_pushes :
  forall (rt : Runtime) (self0 : OctoInference) (task_description : string)
         (frame : Frame) (frames : list Frame),
    0 < horizon self0 ->
    fst (reset task_description self0) = Ok tt ->
    let self := push_all (frame :: frames) (snd (reset task_description self0)) in
    let n := length (frame :: frames) in
    let h := horizon self0 in
    exists images mask,
      _obtain_image_history_and_mask self = Ok (images, mask) /\
      length mask = h /\
      mask = repeat false (h - Nat.min n h) ++ repeat true (Nat.min n h) /\
      (h <= n ->
       mask = repeat true h /\ images = skipn (n - h) (frame :: frames)) /\
      (n < h -> images = repeat frame (h - n) ++ frame :: frames).
Proof.
  intros rt self0 task frame frames Hh Hok. cbv zeta.
  destruct (reset_history task self0 Hok) as (Hist & Hn & Hhor & _).
  set (self1 := snd (reset task self0)) in *.
  destruct (pushes_after_reset frame frames self1) as (H1 & H2 & H3);
    try assumption; try lia.
  set (self := push_all (frame :: frames) self1) in *.
  set (n := length (frame :: frames)) in *.
  rewrite Hhor in *. set (h := horizon self0) in *.
  assert (Hn1 : n = S (length frames)) by reflexivity.
  assert (Himg : image_history self =
            if h <=? n then skipn (n - h) (frame :: frames)
            else repeat frame (h - n) ++ frame :: frames).
  { rewrite H1. destruct (Nat.leb_spec h n) as [Hle|Hlt].
    - destruct h as [|h']; [lia|].
      rewrite repeat_snoc, <- app_assoc. simpl app.
      rewrite lastn_app_long by (simpl; lia). reflexivity.
    - unfold lastn. rewrite length_app, repeat_length, skipn_app.
      rewrite skipn_repeat, repeat_length.
      replace (h + length frames - h - h) with 0 by lia.
      replace (h - (h + length frames - h)) with (S (h - n)) by lia.
      simpl skipn. rewrite repeat_snoc, <- app_assoc. reflexivity. }
  assert (Hne : image_history self <> []).
  { rewrite Himg. destruct (h <=? n) eqn:E.
    - apply Nat.leb_le in E. intros Hnil.
      apply (f_equal (@length Frame)) in Hnil.
      rewrite length_skipn in Hnil. cbn [length] in Hnil. lia.
    - destruct (repeat frame (h - n)); discriminate. }
  unfold _obtain_image_history_and_mask.
  destruct (image_history self) as [|f0 rest] eqn:E; [contradiction|].
  rewrite H2, H3.
  exists (f0 :: rest), (pad_mask_of h (Nat.min n h)).
  assert (Hmask : pad_mask_of h (Nat.min n h) =
                  repeat false (h - Nat.min n h) ++ repeat true (Nat.min n h)).
  { unfold pad_mask_of. f_equal. f_equal. lia. }
  split; [reflexivity|].
  split; [apply pad_mask_of_length|].
  split; [exact Hmask|].
  split.
  - intros Hle. rewrite Hmask, Himg.
    replace (Nat.min n h) with h by lia.
    replace (h - h) with 0 by lia.
    destruct (Nat.leb_spec h n); [|lia]. auto.
  - intros Hlt. rewrite Himg. destruct (Nat.leb_spec h n); [lia|]. reflexivity.
Qed.

(** ** [step], stage by stage *)

Section StepFacts.

Context {rt : Runtime}.

Lemma query_model_eq image (self : OctoInference) :
  query_model image self =
    if dtype_is_uint8 image then
      let self1 := _add_image_to_history (_resize_image self image) self in
      (match _obtain_image_history_and_mask self1 with
       | Raise e => Raise e
       | Ok (images, pad_mask) =>
           match answer_of self1 images pad_mask with
           | [] => Raise IndexError
           | chunk :: _ =>
               if shape_is chunk (pred_action_horizon self1) 7
               then Ok chunk else Raise AssertionError
           end
       end, self1)
    else (Raise AssertionError, self).
Proof.
  unfold query_model, bind, assert, get, modify, lift, ret, raise, answer_of.
  destruct (dtype_is_uint8 image); [|reflexivity]. cbv zeta.
  destruct (_obtain_image_history_and_mask _) as [[images pad_mask]|e];
    [|reflexivity].
  match goal with
  | |- context [match ?b with [] => _ | _ :: _ => _ end] =>
      destruct b as [|chunk batch]
  end; [reflexivity|].
  destruct (shape_is chunk _ 7); reflexivity.
Qed.

Lemma ensemble_eq norm (self : OctoInference) :
  ensemble norm self =
    if action_ensemble self then
      match action_ensembler self with
      | None => (Raise AttributeError, self)
      | Some e =>
          (Ok (add_axis (fst (ensemble_action norm e))),
           set_action_ensembler (Some (snd (ensemble_action norm e))) self)
      end
    else (Ok norm, self).
Proof.
  unfold ensemble, bind, get, modify, ret, raise.
  destruct (action_ensemble self); [|reflexivity].
  destruct (action_ensembler self) as [e|]; [|reflexivity].
  destruct (ensemble_action norm e) as [a e']. reflexivity.
Qed.

Lemma postprocess_eq norm (self : OctoInference) :
  postprocess norm self =
    match denormalize self norm with
    | Raise e => (Raise e, self)
    | Ok raw_actions =>
        match rows raw_actions with
        | [] => (Raise IndexError, self)
        | first :: _ =>
            match slice 3 6 first with
            | [roll; pitch; yaw] =>
                (Ok (raw_of first, action_of self first roll pitch yaw),
                 set_time_step (time_step self + 1) self)
            | _ => (Raise ValueError, self)
            end
        end
    end.
Proof.
  unfold postprocess, bind, get, modify, lift, ret, raise.
  destruct (denormalize self norm) as [raw_actions|e]; [|reflexivity].
  destruct (rows raw_actions) as [|first others]; [reflexivity|].
  cbn [raw_rotation_delta raw_world_vector raw_open_gripper].
  destruct (slice 3 6 first) as [|roll [|pitch [|yaw [|]]]] eqn:E;
    try reflexivity.
  unfold action_of, raw_of. rewrite E.
  destruct (euler2axangle roll pitch yaw) as [ax angle]. reflexivity.
Qed.

Lemma step_eq image (self : OctoInference) :
  step image self =
    match query_model image self with
    | (Raise e, self1) => (Raise e, self1)
    | (Ok chunk, self1) =>
        match ensemble chunk self1 with
        | (Raise e, self2) => (Raise e, self2)
        | (Ok norm, self2) => postprocess norm self2
        end
    end.
Proof.
  unfold step, normalized_actions, bind.
  destruct (query_model image self) as [[chunk|e] self1]; [|reflexivity].
  destruct (ensemble chunk self1) as [[norm|e] self2]; reflexivity.
Qed.

(** *** What the stages leave unchanged *)

Lemma evolves_refl self : evolves self self.
Proof. repeat split; auto. Qed.

Lemma evolves_trans s1 s2 s3 : evolves s1 s2 -> evolves s2 s3 -> evolves s1 s3.
Proof.
  intros (A1 & A2 & A3) (B1 & B2 & B3).
  repeat split; try congruence. auto.
Qed.

Lemma add_image_evolves frame self :
  evolves self (_add_image_to_history frame self) /\
  action_ensembler (_add_image_to_history frame self) = action_ensembler self.
Proof.
  unfold _add_image_to_history, evolves, ensembler_ok.
  destruct (num_image_history self =? 0); repeat split; auto.
Qed.

Lemma query_model_evolves image self :
  evolves self (snd (query_model image self)).
Proof.
  rewrite query_model_eq.
  destruct (dtype_is_uint8 image); [|apply evolves_refl].
  apply add_image_evolves.
Qed.

Lemma ensemble_evolves norm self :
  evolves self (snd (ensemble norm self)).
Proof.
  rewrite ensemble_eq.
  destruct (action_ensemble self) eqn:Ea; [|apply evolves_refl].
  destruct (action_ensembler self) as [e|] eqn:Ee; [|apply evolves_refl].
  unfold evolves, ensembler_ok. cbn [snd]. rewrite Ee.
  repeat split; auto; simpl; tauto.
Qed.

Lemma postprocess_evolves norm self :
  evolves self (snd (postprocess norm self)).
Proof.
  rewrite postprocess_eq.
  destruct (denormalize self norm) as [raw_actions|e]; [|apply evolves_refl].
  destruct (rows raw_actions) as [|first others]; [apply evolves_refl|].
  destruct (slice 3 6 first) as [|roll [|pitch [|yaw [|]]]];
    try apply evolves_refl.
  repeat split; auto.
Qed.

Lemma step_evolves image self : evolves self (snd (step image self)).
Proof.
  rewrite step_eq.
  pose proof (query_model_evolves image self) as H1.
  destruct (query_model image self) as [[chunk|e] self1]; [|exact H1].
  pose proof (ensemble_evolves chunk self1) as H2.
  destruct (ensemble chunk self1) as [[norm|e] self2];
    [|exact (evolves_trans _ _ _ H1 H2)].
  exact (evolves_trans _ _ _ H1 (evolves_trans _ _ _ H2
           (postprocess_evolves norm self2))).
Qed.

Lemma normalized_actions_eq image (self : OctoInference) :
  normalized_actions image self =
    match query_model image self with
    | (Raise e, self1) => (Raise e, self1)
    | (Ok chunk, self1) => ensemble chunk self1
    end.
Proof.
  unfold normalized_actions, bind.
  destruct (query_model image self) as [[chunk|e] self1]; reflexivity.
Qed.

Lemma normalized_actions_evolves image self :
  evolves self (snd (normalized_actions image self)).
Proof.
  rewrite normalized_actions_eq.
  pose proof (query_model_evolves image self) as H1.
  destruct (query_model image self) as [[chunk|e] self1]; [|exact H1].
  exact (evolves_trans _ _ _ H1 (ensemble_evolves chunk self1)).
Qed.


Lemma step_ok_inv image (self self' : OctoInference) raw action :
  step image self = (Ok (raw, action), self') ->
  exists norm self1,
    normalized_actions image self = (Ok norm, self1) /\
    postprocess norm self1 = (Ok (raw, action), self').
Proof.
  unfold step, bind.
  destruct (normalized_actions image self) as [[norm|e] self1]; [|discriminate].
  intros H. exists norm, self1. auto.
Qed.

(** The fields of the configuration, one by one. *)
Lemma config_fields (self self' : OctoInference) :
  config self' = config self ->
  policy_setup self' = policy_setup self /\
  model self' = model self /\
  action_mean self' = action_mean self /\
  action_std self' = action_std self /\
  automatic_task_creation self' = automatic_task_creation self /\
  action_scale self' = action_scale self /\
  horizon self' = horizon self /\
  pred_action_horizon self' = pred_action_horizon self /\
  action_ensemble self' = action_ensemble self /\
  action_ensemble_temp self' = action_ensemble_temp self /\
  model_type self' = model_type self /\
  image_size self' = image_size self /\
  exec_horizon self' = exec_horizon self.
Proof.
  unfold config. intros H. injection H. intros. repeat split; assumption.
Qed.

(** With a positive horizon the history is not empty after a push. *)
Lemma history_after_push frame (self : OctoInference) :
  0 < horizon self ->
  image_history (_add_image_to_history frame self) <> [].
Proof.
  intros Hh. unfold _add_image_to_history.
  assert (Hne : forall d, deque_append (horizon self) d frame <> []).
  { intros d Hnil. apply (f_equal (@length Frame)) in Hnil.
    rewrite deque_append_lastn, lastn_length, length_app in Hnil.
    simpl in Hnil. lia. }
  destruct (num_image_history self =? 0); cbn [image_history
    set_num_image_history set_image_history]; [|apply Hne].
  destruct (horizon self) as [|h]; [lia|].
  rewrite repeat_snoc. unfold deque_extend. rewrite fold_left_app.
  apply Hne.
Qed.

(** [step] leaves the history as it was or as the push left it. *)
Lemma step_history image (self : OctoInference) :
  let pushed := _add_image_to_history (_resize_image self image) self in
  let self' := snd (step image self) in
  (image_history self' = image_history self /\
   num_image_history self' = num_image_history self) \/
  (image_history self' = image_history pushed /\
   num_image_history self' = num_image_history pushed).
Proof.
  cbv zeta. rewrite step_eq, query_model_eq.
  destruct (dtype_is_uint8 image); [|left; auto]. right. cbv zeta.
  set (self1 := _add_image_to_history (_resize_image self image) self).
  assert (Hpost : forall norm s,
            image_history (snd (postprocess norm s)) = image_history s /\
            num_image_history (snd (postprocess norm s))
              = num_image_history s).
  { intros norm s. rewrite postprocess_eq.
    destruct (denormalize s norm) as [raw_actions|e]; [|auto].
    destruct (rows raw_actions) as [|first others]; [auto|].
    destruct (slice 3 6 first) as [|roll [|pitch [|yaw [|]]]]; auto. }
  destruct (_obtain_image_history_and_mask self1) as [[images pad_mask]|e];
    [|auto].
  destruct (answer_of self1 images pad_mask) as [|chunk batch]; [auto|].
  destruct (shape_is chunk (pred_action_horizon self1) 7); [|auto].
  rewrite ensemble_eq.
  destruct (action_ensemble self1); [|apply Hpost].
  destruct (action_ensembler self1) as [e|]; [|auto].
  destruct (Hpost (add_axis (fst (ensemble_action chunk e)))
              (set_action_ensembler (Some (snd (ensemble_action chunk e)))
                 self1)) as [-> ->].
  auto.
Qed.

(** The de-normalization of a first row of 7 entries with statistics of 7
    entries, and what [postprocess] returns on it. *)
Lemma postprocess_denormalizes (self : OctoInference) (norm : array2)
    (first : list Q) (others : list (list Q)) :
  rows norm = first :: others ->
  ncols norm = 7 ->
  length first = 7 ->
  length (action_mean self) = 7 ->
  length (action_std self) = 7 ->
  exists raw action,
    postprocess norm self
      = (Ok (raw, action), set_time_step (time_step self + 1) self) /\
    raw_world_vector raw ++ raw_rotation_delta raw ++ raw_open_gripper raw
      = map2 Qplus (map2 Qmult first (action_std self)) (action_mean self) /\
    (Forall (fun x => (x == 0)%Q) first ->
     Qeq_list
       (raw_world_vector raw ++ raw_rotation_delta raw ++ raw_open_gripper raw)
       (action_mean self) /\
     Qeq_list (world_vector action)
       (scale (firstn 3 (action_mean self)) (action_scale self))).
Proof.
  intros Hrows Hcols Hfirst Hmean Hstd.
  rewrite postprocess_eq. unfold denormalize, broadcast_op, action_of.
  rewrite Hcols, Hstd. cbn [broadcast_dim Nat.eqb ncols].
  rewrite Hmean. cbn [broadcast_dim Nat.eqb rows]. rewrite Hrows.
  destruct first as [|a0 [|a1 [|a2 [|a3 [|a4 [|a5 [|a6 [|]]]]]]]];
    try discriminate Hfirst.
  destruct (action_std self) as [|s0 [|s1 [|s2 [|s3 [|s4 [|s5 [|s6 [|]]]]]]]];
    try discriminate Hstd.
  destruct (action_mean self)
    as [|m0 [|m1 [|m2 [|m3 [|m4 [|m5 [|m6 [|]]]]]]]];
    try discriminate Hmean.
  cbn -[Qmult Qplus].
  eexists _, _. split; [reflexivity|].
  split; [reflexivity|].
  intros Hzero.
  repeat match goal with
         | H : Forall _ (_ :: _) |- _ => inversion H; clear H; subst
         end.
  unfold Qeq_list.
  split; repeat constructor;
    repeat match goal with
           | H : (?a == 0)%Q |- context [?a] => rewrite H; clear H
           end; ring.
Qed.

End StepFacts.


(** C6.  Whenever [step] returns with a de-normalized open_gripper [g], the
    gripper of the action is +1 for [g] above 0.5 and -1 otherwise under
    [widowx_bridge], and the opposite under [google_robot]. *)
Theorem gripper_is_binarized :
  forall (rt : Runtime) (self self' : OctoInference) (image : Image)
         (raw : RawAction) (action : Action) (g : Q),
    step image self = (Ok (raw, action), self') ->
    raw_open_gripper raw = [g] ->
    (policy_setup self = "widowx_bridge"%string ->
     ((0.5 < g)%Q -> Qeq_list (gripper action) [1%Q]) /\
     ((g <= 0.5)%Q -> Qeq_list (gripper action) [(-1)%Q])) /\
    (policy_setup self = "google_robot"%string ->
     ((0.5 < g)%Q -> Qeq_list (gripper action) [(-1)%Q]) /\
     ((g <= 0.5)%Q -> Qeq_list (gripper action) [1%Q])).
Proof.
  intros rt self self' image raw action g Hstep Hg.
  destruct (step_ok_inv image self self' raw action Hstep)
    as (norm & self1 & Hnorm & Hpost).
  pose proof (normalized_actions_evolves image self) as (Hcfg & _ & _).
  rewrite Hnorm in Hcfg. cbn [snd] in Hcfg.
  destruct (config_fields self self1 Hcfg) as (Ep & _).
  rewrite postprocess_eq in Hpost.
  destruct (denormalize self1 norm) as [raw_actions|e]; [|discriminate].
  destruct (rows raw_actions) as [|first others]; [discriminate|].
  destruct (slice 3 6 first) as [|roll [|pitch [|yaw [|]]]];
    try discriminate.
  injection Hpost as <- <- _.
  cbn [raw_open_gripper raw_of] in Hg.
  unfold action_of. cbn [gripper]. rewrite Hg, Ep.
  unfold gripper_action, Qeq_list. cbn [map].
  split; intros Hp; rewrite Hp; cbn [String.eqb Ascii.eqb Bool.eqb map];
    split; intros Hcmp; repeat constructor;
    first [ rewrite (binarize_open g Hcmp)
          | rewrite (binarize_closed g Hcmp) ]; reflexivity.
Qed.

(** C9, as the code has it.  With a released model, a chunk of any shape
    other than ([pred_action_horizon], 7) makes [step] raise.  With a
    custom model, a chunk with another number of rows or with fewer than 7
    columns makes [step] raise, while a chunk with [pred_action_horizon]
    rows and 7 or more columns passes the test of the shape, cut to its
    first 7 columns. *)
Theorem wrong_chunk_shape :
  forall (rt : Runtime) (self : OctoInference) (image : Image)
         (chunk : array2) (batch : array3),
    (automatic_task_creation self = true ->
     (forall images pad_mask,
        sample_actions (model self) images pad_mask (task self)
        = chunk :: batch) ->
     shape_is chunk (pred_action_horizon self) 7 = false ->
     exists e, fst (step image self) = Raise e) /\
    (automatic_task_creation self = false ->
     (forall images pad_mask,
        lc_ws2 (model self) images pad_mask (task self) = chunk :: batch) ->
     (nrows chunk <> pred_action_horizon self \/ ncols chunk < 7 ->
      exists e, fst (step image self) = Raise e) /\
     (nrows chunk = pred_action_horizon self -> 7 <= ncols chunk ->
      dtype_is_uint8 image = true -> 0 < horizon self ->
      fst (query_model image self) = Ok (take_cols 7 chunk))).
Proof.
  intros rt self image chunk batch.
  assert (Hstep : forall e, fst (query_model image self) = Raise e ->
                  exists e', fst (step image self) = Raise e').
  { intros e He. rewrite step_eq.
    destruct (query_model image self) as [[c|e'] s1]; [discriminate|].
    exists e'. reflexivity. }
  pose proof (add_image_evolves (_resize_image self image) self)
    as ((Hcfg & Htask & _) & _).
  destruct (config_fields _ _ Hcfg)
    as (_ & Em & _ & _ & Ea & _ & Eh & EP & _).
  assert (Hq := query_model_eq image self). cbv zeta in Hq.
  unfold answer_of in Hq. rewrite Ea, Em, Htask, EP in Hq.
  split; [intros Hauto Hans Hshape | intros Hauto Hans; split].
  - rewrite Hauto in Hq.
    destruct (dtype_is_uint8 image);
      [|apply (Hstep AssertionError); now rewrite Hq].
    destruct (_obtain_image_history_and_mask _) as [[images pad_mask]|e];
      [|apply (Hstep e); now rewrite Hq].
    rewrite Hans, Hshape in Hq.
    apply (Hstep AssertionError); now rewrite Hq.
  - intros Hbad. rewrite Hauto in Hq.
    destruct (dtype_is_uint8 image);
      [|apply (Hstep AssertionError); now rewrite Hq].
    destruct (_obtain_image_history_and_mask _) as [[images pad_mask]|e];
      [|apply (Hstep e); now rewrite Hq].
    rewrite Hans in Hq. cbn [map] in Hq.
    assert (Hshape : shape_is (take_cols 7 chunk) (pred_action_horizon self) 7
                     = false).
    { unfold shape_is, take_cols. cbn [nrows ncols].
      apply andb_false_iff. destruct Hbad as [Hr|Hc].
      - left. now apply Nat.eqb_neq.
      - right. apply Nat.eqb_neq. lia. }
    rewrite Hshape in Hq.
    apply (Hstep AssertionError); now rewrite Hq.
  - intros Hr Hc Hu Hh. rewrite Hauto, Hu in Hq. rewrite Hq. cbn [fst].
    pose proof (history_after_push (_resize_image self image) self Hh) as Hne.
    unfold _obtain_image_history_and_mask.
    destruct (image_history _) as [|f0 fs]; [contradiction|].
    rewrite Hans. cbn [map].
    assert (Hshape : shape_is (take_cols 7 chunk) (pred_action_horizon self) 7
                     = true).
    { unfold shape_is, take_cols. cbn [nrows ncols].
      apply andb_true_iff. split; apply Nat.eqb_eq; lia. }
    now rewrite Hshape.
Qed.

(** ** An episode on chunks of zeros

    With a model that answers every query with a chunk of zeros, every call
    of [step] returns the mean of the statistics as raw action, under both
    policies.  Under [widowx_bridge] this rests on the ensembler as the
    spec describes it: a weighted sum of zeros is zero, whatever the
    weights. *)

Section ZeroChunks.

Context {rt : Runtime}.

Lemma map2_Forall {A B C} (P : C -> Prop) (f : A -> B -> C) u v :
  (forall a b, In a u -> In b v -> P (f a b)) -> Forall P (map2 f u v).
Proof.
  intros H. unfold map2. apply Forall_forall. intros c Hc.
  apply in_map_iff in Hc as ([a b] & <- & Hin).
  apply H; [eapply in_combine_l | eapply in_combine_r]; exact Hin.
Qed.

Lemma vector_add_zeros a b : zeros7 a -> zeros7 b -> zeros7 (vector_add a b).
Proof.
  intros [La Za] [Lb Zb]. unfold vector_add. split.
  - unfold map2. rewrite length_map, length_combine. lia.
  - apply map2_Forall. intros x y Hx Hy.
    rewrite Forall_forall in Za, Zb.
    rewrite (Za x Hx), (Zb y Hy). reflexivity.
Qed.

Lemma scale_zeros a w : zeros7 a -> zeros7 (scale a w).
Proof.
  intros [La Za]. unfold scale. split; [now rewrite length_map|].
  apply Forall_forall. intros x Hx.
  apply in_map_iff in Hx as (y & <- & Hy).
  rewrite Forall_forall in Za. rewrite (Za y Hy). ring.
Qed.

Lemma sum_of_zeros l :
  Forall zeros7 l -> zeros7 (fold_right vector_add (repeat 0%Q 7) l).
Proof.
  induction 1 as [|a l Ha _ IH]; simpl.
  - split; [reflexivity | repeat constructor; reflexivity].
  - now apply vector_add_zeros.
Qed.

(** A row of a chunk of zeros. *)
Lemma zero_chunk_row n c k :
  zero_chunk n c -> k < n -> zeros7 (nth k (rows c) []).
Proof.
  intros ((Hlen & Hcols) & Hn & H7 & Hz) Hk.
  assert (Hin : In (nth k (rows c) []) (rows c))
    by (apply nth_In; lia).
  rewrite Forall_forall in Hcols, Hz.
  split; [rewrite (Hcols _ Hin); exact H7 | exact (Hz _ Hin)].
Qed.

(** The ensembler on chunks of zeros: the action is zero and the buffer
    holds chunks of zeros again. *)
Lemma ensemble_action_zero chunk e :
  Forall (zero_chunk (ens_pred_action_horizon e)) (action_history e) ->
  zero_chunk (ens_pred_action_horizon e) chunk ->
  zeros7 (fst (ensemble_action chunk e)) /\
  ens_pred_action_horizon (snd (ensemble_action chunk e))
    = ens_pred_action_horizon e /\
  ens_temp (snd (ensemble_action chunk e)) = ens_temp e /\
  Forall (zero_chunk (ens_pred_action_horizon e))
    (action_history (snd (ensemble_action chunk e))) /\
  length (action_history (snd (ensemble_action chunk e)))
    <= ens_pred_action_horizon e.
Proof.
  intros Hhist Hchunk. unfold ensemble_action. cbn [fst snd
    ens_pred_action_horizon ens_temp action_history].
  set (P := ens_pred_action_horizon e) in *.
  rewrite deque_append_lastn.
  set (history := lastn P (action_history e ++ [chunk])).
  assert (Hall : Forall (zero_chunk P) history).
  { assert (H : Forall (zero_chunk P) (action_history e ++ [chunk]))
      by (apply Forall_app; split; [exact Hhist | now constructor]).
    unfold history, lastn.
    rewrite <- (firstn_skipn (length (action_history e ++ [chunk]) - P)) in H.
    now apply Forall_app in H. }
  assert (Hlen : length history <= P)
    by (unfold history; rewrite lastn_length; lia).
  split; [|split; [reflexivity | split; [reflexivity | split; assumption]]].
  apply sum_of_zeros, map2_Forall. intros w a _ Ha. apply scale_zeros.
  revert a Ha. apply Forall_forall, map2_Forall. intros k c Hk Hc.
  apply in_seq in Hk. apply in_rev in Hc.
  rewrite Forall_forall in Hall.
  apply (zero_chunk_row P c k (Hall c Hc)). lia.
Qed.

Lemma answer_of_config (self self' : OctoInference) images pad_mask :
  config self' = config self ->
  task self' = task self ->
  answer_of self' images pad_mask = answer_of self images pad_mask.
Proof.
  intros Hcfg Htask.
  destruct (config_fields self self' Hcfg) as (_ & Em & _ & _ & Ea & _).
  unfold answer_of. now rewrite Ea, Em, Htask.
Qed.

(** One call on a chunk of zeros. *)
Lemma step_on_zero_chunk image (self : OctoInference) chunk batch :
  ensembler_ok self ->
  zero_buffered self ->
  dtype_is_uint8 image = true ->
  0 < horizon self ->
  0 < pred_action_horizon self ->
  length (action_mean self) = 7 ->
  length (action_std self) = 7 ->
  (forall images pad_mask, answer_of self images pad_mask = chunk :: batch) ->
  zero_chunk (pred_action_horizon self) chunk ->
  returns_raw (action_mean self) (fst (step image self)) /\
  config (snd (step image self)) = config self /\
  task (snd (step image self)) = task self /\
  ensembler_ok (snd (step image self)) /\
  zero_buffered (snd (step image self)).
Proof.
  intros Hok Hbuf Hu Hh HP Hmean Hstd Hans Hchunk.
  destruct (step_evolves image self) as (Hcfg & Htask & Hok').
  split; [|split; [exact Hcfg | split; [exact Htask | split; [auto|]]]].
  - (* the call returns the mean *)
    rewrite step_eq, query_model_eq, Hu. cbv zeta.
    set (self1 := _add_image_to_history (_resize_image self image) self).
    destruct (add_image_evolves (_resize_image self image) self)
      as ((Hcfg1 & Htask1 & Hok1) & Hens1). fold self1 in Hcfg1, Htask1, Hok1, Hens1.
    destruct (config_fields self self1 Hcfg1)
      as (_ & _ & Em & Es & _ & _ & _ & EP & Ee & _).
    pose proof (history_after_push (_resize_image self image) self Hh) as Hne.
    fold self1 in Hne. unfold _obtain_image_history_and_mask.
    destruct (image_history self1) as [|f0 fs]; [contradiction|].
    rewrite (answer_of_config self self1 _ _ Hcfg1 Htask1), Hans, EP.
    destruct Hchunk as (Hwf & Hrows & Hcols & Hz).
    unfold shape_is. rewrite Hrows, Hcols, !Nat.eqb_refl. cbn [andb].
    rewrite ensemble_eq, Ee.
    destruct (action_ensemble self) eqn:Ea.
    + (* the policy ensembles *)
      rewrite Hens1. unfold ensembler_ok in Hok. unfold zero_buffered in Hbuf.
      destruct (action_ensembler self) as [e|]; [|congruence].
      destruct Hok as (_ & HeP & _). destruct Hbuf as [Hhist _].
      destruct (ensemble_action_zero chunk e Hhist) as ((La & Za) & _).
      { rewrite HeP. unfold zero_chunk.
        split; [exact Hwf | repeat split; assumption]. }
      destruct (postprocess_denormalizes
                  (set_action_ensembler (Some (snd (ensemble_action chunk e)))
                     self1)
                  (add_axis (fst (ensemble_action chunk e)))
                  (fst (ensemble_action chunk e)) [])
        as (raw & action & -> & _ & Hzero);
        try reflexivity; try assumption;
        try (cbn [action_mean action_std set_action_ensembler]; congruence).
      cbn [fst returns_raw]. rewrite <- Em. apply (Hzero Za).
    + (* the first action of the chunk is taken *)
      destruct Hwf as [Hlen Hwidth].
      destruct (rows chunk) as [|first others] eqn:Er;
        [simpl in Hlen; lia|].
      inversion Hz as [|? ? Hz1 _]; subst.
      inversion Hwidth as [|? ? Hw1 _]; subst.
      destruct (postprocess_denormalizes self1 chunk first others)
        as (raw & action & -> & _ & Hzero); try assumption; try congruence.
      cbn [fst returns_raw]. rewrite <- Em. apply (Hzero Hz1).
  - (* the buffer holds chunks of zeros again *)
    rewrite step_eq, query_model_eq, Hu. cbv zeta.
    set (self1 := _add_image_to_history (_resize_image self image) self).
    destruct (add_image_evolves (_resize_image self image) self)
      as ((Hcfg1 & Htask1 & Hok1) & Hens1). fold self1 in Hcfg1, Htask1, Hok1, Hens1.
    destruct (config_fields self self1 Hcfg1)
      as (_ & _ & _ & _ & _ & _ & _ & EP & Ee & _).
    assert (Hbuf1 : zero_buffered self1)
      by (unfold zero_buffered; now rewrite Hens1).
    destruct (_obtain_image_history_and_mask self1) as [[images pad_mask]|e];
      [|exact Hbuf1].
    rewrite (answer_of_config self self1 _ _ Hcfg1 Htask1), Hans.
    destruct (shape_is chunk (pred_action_horizon self1) 7); [|exact Hbuf1].
    assert (Hpost : forall norm s, zero_buffered s ->
                    zero_buffered (snd (postprocess norm s))).
    { intros norm s Hs. rewrite postprocess_eq.
      destruct (denormalize s norm) as [raw_actions|e]; [|exact Hs].
      destruct (rows raw_actions) as [|first others]; [exact Hs|].
      destruct (slice 3 6 first) as [|roll [|pitch [|yaw [|]]]]; exact Hs. }
    rewrite ensemble_eq, Ee.
    destruct (action_ensemble self) eqn:Ea; [|apply Hpost, Hbuf1].
    rewrite Hens1. unfold ensembler_ok in Hok. unfold zero_buffered in Hbuf.
    destruct (action_ensembler self) as [e|]; [|congruence].
    destruct Hok as (_ & HeP & _). destruct Hbuf as [Hhist _].
    destruct (ensemble_action_zero chunk e Hhist) as (_ & E1 & _ & H1 & H2).
    { rewrite HeP. exact Hchunk. }
    apply Hpost. unfold zero_buffered.
    cbn [action_ensembler set_action_ensembler]. rewrite E1. auto.
Qed.

Lemma run_unfold image images (self : OctoInference) :
  run (image :: images) self =
    (fst (step image self) :: fst (run images (snd (step image self))),
     snd (run images (snd (step image self)))).
Proof.
  simpl. destruct (step image self) as [r s1]. simpl.
  destruct (run images s1) as [rs s2]. reflexivity.
Qed.

(** An episode on chunks of zeros: every call returns the mean. *)
Lemma run_on_zero_chunks images chunk batch :
  forall self : OctoInference,
    ensembler_ok self ->
    zero_buffered self ->
    Forall (fun image => dtype_is_uint8 image = true) images ->
    0 < horizon self ->
    0 < pred_action_horizon self ->
    length (action_mean self) = 7 ->
    length (action_std self) = 7 ->
    (forall images pad_mask, answer_of self images pad_mask = chunk :: batch) ->
    zero_chunk (pred_action_horizon self) chunk ->
    Forall (returns_raw (action_mean self)) (fst (run images self)).
Proof.
  induction images as [|image images IH];
    intros self Hok Hbuf Hu Hh HP Hmean Hstd Hans Hchunk; [constructor|].
  inversion Hu as [|? ? Hu1 Hus]; subst.
  destruct (step_on_zero_chunk image self chunk batch
              Hok Hbuf Hu1 Hh HP Hmean Hstd Hans Hchunk)
    as (Hraw & Hcfg & Htask & Hok' & Hbuf').
  rewrite run_unfold. cbn [fst]. constructor; [exact Hraw|].
  destruct (config_fields self _ Hcfg)
    as (_ & _ & Em & Es & _ & _ & Eh & EP & _).
  rewrite <- Em. apply IH; auto; try congruence.
  intros imgs mask. rewrite (answer_of_config self _ imgs mask Hcfg Htask).
  apply Hans.
Qed.

End ZeroChunks.

End OctoFacts.

(** * Construction and [reset] *)

Module LifecycleFacts.

Section Local.

Import Octo OctoFacts.

Context {rt : Runtime}.

(** What [__init__] returns: no frame, no step, and an ensembler that is
    new if the policy ensembles. *)
Lemma init_fresh model_type policy h P ex size scale (fresh : OctoInference) :
  __init__ model_type policy h P ex size scale = Ok fresh ->
  ensembler_ok fresh /\
  core_state fresh =
    ([], 0,
     if action_ensemble fresh
     then Some (new_ensembler (pred_action_horizon fresh)
                  (action_ensemble_temp fresh))
     else None,
     0).
Proof.
  unfold __init__.
  destruct (policy_config policy) as [[[dataset_id ae] temp]|e];
    [|discriminate].
  destruct (load_model model_type dataset_id)
    as [[[[stored m] [mean std]] automatic]|e]; [|discriminate].
  intros H. injection H as <-.
  unfold ensembler_ok, core_state. simpl.
  destruct ae; simpl; auto.
Qed.

(** On a state whose ensembler agrees with the configuration, [reset]
    returns and leaves the configuration, the encoded task, and an empty
    core. *)
Lemma reset_normal_form task_description (self : OctoInference) :
  ensembler_ok self ->
  reset task_description self =
    (Ok tt,
     mkOcto (policy_setup self) (model_type self) (model self)
       (action_mean self) (action_std self) (automatic_task_creation self)
       (image_size self) (action_scale self) (horizon self)
       (pred_action_horizon self) (exec_horizon self) (action_ensemble self)
       (action_ensemble_temp self)
       (Some (if automatic_task_creation self
              then create_tasks (model self) task_description
              else tokenizer task_description))
       []
       (if action_ensemble self
        then Some (new_ensembler (pred_action_horizon self)
                     (action_ensemble_temp self))
        else None)
       0 0).
Proof.
  unfold reset, ensembler_ok.
  destruct self as [ps mt m mean std auto sz sc h P ex ae temp t hist ens n ts].
  simpl. destruct ens as [[eP et eh]|]; simpl.
  - intros (-> & -> & ->). destruct auto; reflexivity.
  - intros ->. destruct auto; reflexivity.
Qed.

Lemma reachable_keeps_config (fresh self : OctoInference) :
  ensembler_ok fresh ->
  reachable fresh self ->
  config self = config fresh /\ ensembler_ok self.
Proof.
  intros Hok. induction 1 as [| t self _ [IH1 IH2] | image self _ [IH1 IH2]].
  - auto.
  - rewrite (reset_normal_form t self IH2). cbn [snd]. split.
    + rewrite <- IH1. reflexivity.
    + unfold ensembler_ok. cbn [action_ensembler action_ensemble
        pred_action_horizon action_ensemble_temp].
      destruct (action_ensemble self); simpl; auto.
  - destruct (step_evolves image self) as (H1 & _ & H3).
    split; [congruence | auto].
Qed.

(** The frame counter never exceeds the horizon. *)
Lemma num_image_history_le model_type policy h P ex size scale
    (fresh self : OctoInference) :
  __init__ model_type policy h P ex size scale = Ok fresh ->
  reachable fresh self ->
  num_image_history self <= horizon self.
Proof.
  intros Hinit Hreach.
  destruct (init_fresh _ _ _ _ _ _ _ fresh Hinit) as [Hok Hcore].
  induction Hreach as [| t self Hr IH | image self Hr IH].
  - unfold core_state in Hcore. injection Hcore as _ -> _ _. lia.
  - destruct (reachable_keeps_config fresh self Hok Hr) as [_ Hok'].
    rewrite (reset_normal_form t self Hok'). simpl. lia.
  - destruct (step_evolves image self) as (Hcfg & _).
    destruct (config_fields self _ Hcfg) as (_ & _ & _ & _ & _ & _ & -> & _).
    destruct (step_history image self) as [[_ ->] | [_ ->]]; [exact IH|].
    unfold _add_image_to_history.
    destruct (num_image_history self =? 0); simpl; lia.
Qed.

(** After a reset, from whatever state, an episode on chunks of zeros
    returns the mean on every call. *)
Lemma zero_episode_after_reset model_type policy h P ex size scale
    (fresh self : OctoInference) task_description images chunk batch :
  __init__ model_type policy h P ex size scale = Ok fresh ->
  reachable fresh self ->
  0 < horizon fresh ->
  0 < pred_action_horizon fresh ->
  length (action_mean fresh) = 7 ->
  length (action_std fresh) = 7 ->
  (forall images pad_mask,
     answer_of (snd (reset task_description self)) images pad_mask
     = chunk :: batch) ->
  zero_chunk (pred_action_horizon fresh) chunk ->
  Forall (fun image => dtype_is_uint8 image = true) images ->
  Forall (returns_raw (action_mean fresh))
    (fst (run images (snd (reset task_description self)))).
Proof.
  intros Hinit Hreach Hh HP Hmean Hstd Hans Hchunk Hu.
  destruct (init_fresh _ _ _ _ _ _ _ fresh Hinit) as [Hok _].
  destruct (reachable_keeps_config fresh self Hok Hreach) as [Hcfg Hok'].
  assert (Hreach' : reachable fresh (snd (reset task_description self)))
    by now apply reach_reset.
  destruct (reachable_keeps_config fresh _ Hok Hreach') as [Hcfg' Hok''].
  destruct (config_fields fresh _ Hcfg')
    as (_ & _ & Em & Es & _ & _ & Eh & EP & _).
  rewrite <- Em.
  apply (run_on_zero_chunks images chunk batch); auto; try congruence.
  rewrite (reset_normal_form task_description self Hok').
  unfold zero_buffered. cbn [snd action_ensembler].
  destruct (action_ensemble self); simpl; auto.
  split; [constructor | lia].
Qed.

End Local.

(** C7.  A policy other than the two known ones makes both constructors
    raise; a custom model with a dataset id other than the two with written
    statistics makes the loading of the model raise, and whenever that
    loading raises so does the constructor; and the constructor of the
    remote adapter raises for [widowx_bridge].  A raised constructor returns
    no object. *)
Theorem construction_fails_on_bad_configuration :
  forall (rt : Octo.Runtime),
    (forall (model_type policy_setup : string) (h P ex size : nat) (sc : Q),
       policy_setup <> "widowx_bridge"%string ->
       policy_setup <> "google_robot"%string ->
       Octo.__init__ model_type policy_setup h P ex size sc
         = Raise (NotImplementedError (not_supported policy_setup)) /\
       OctoServer.__init__ model_type policy_setup size sc
         = Raise (NotImplementedError (not_supported policy_setup))) /\
    (forall (model_type dataset_id : string),
       model_type <> "octo-base"%string ->
       model_type <> "octo-small"%string ->
       dataset_id <> "bridge_dataset"%string ->
       dataset_id <> "fractal20220817_data"%string ->
       Octo.load_model model_type dataset_id
         = Raise (NotImplementedError
                    (dataset_id
                       ++ " not supported yet for custom octo model checkpoints.")%string)) /\
    (forall (model_type policy_setup dataset_id : string)
            (h P ex size : nat) (sc temp : Q) (ensemble : bool) (e : exn),
       Octo.policy_config policy_setup = Ok (dataset_id, ensemble, temp) ->
       Octo.load_model model_type dataset_id = Raise e ->
       Octo.__init__ model_type policy_setup h P ex size sc = Raise e) /\
    (forall (model_type : string) (size : nat) (sc : Q),
       OctoServer.__init__ model_type "widowx_bridge" size sc
         = Raise (NotImplementedError
                    "Action normalization might be wrong, TODO")).
Proof.
  intros rt. split; [|split; [|split]].
  - intros mt ps h P ex size sc Hw Hg.
    apply String.eqb_neq in Hw, Hg.
    unfold Octo.__init__, Octo.policy_config, OctoServer.__init__.
    rewrite Hw, Hg. split; reflexivity.
  - intros mt d Hb Hs Hd1 Hd2.
    apply String.eqb_neq in Hb, Hs, Hd1, Hd2.
    unfold Octo.load_model, Octo.custom_statistics.
    rewrite Hb, Hs, Hd1, Hd2. reflexivity.
  - intros mt ps d h P ex size sc temp ae e Hp Hl.
    unfold Octo.__init__. rewrite Hp, Hl. reflexivity.
  - reflexivity.
Qed.

(** C8.  From every state that calls of [reset] and [step] can reach,
    [reset] returns and leaves the changing part of the state (window and
    frame counter, ensembler, step counter; sticky fields, previous reading
    and step counter) as the constructor built it; the whole object is the
    one [reset] makes of a new one, so that what comes after a reset does
    not depend on what came before it. *)
Theorem reset_restores_fresh_state :
  (forall (rt : Octo.Runtime) (model_type policy_setup : string)
          (h P ex size : nat) (sc : Q)
          (fresh self : Octo.OctoInference) (task_description : string),
     Octo.__init__ model_type policy_setup h P ex size sc = Ok fresh ->
     Octo.reachable fresh self ->
     fst (Octo.reset task_description self) = Ok tt /\
     Octo.core_state (snd (Octo.reset task_description self))
       = Octo.core_state fresh /\
     Octo.reset task_description self = Octo.reset task_description fresh) /\
  (forall (Image : Type) (dtype_is_uint8 : Image -> bool)
          (euler2axangle : Q -> Q -> Q -> list Q * Q)
          (model_type policy_setup : string) (size : nat) (sc : Q)
          (fresh self : OctoServer.OctoServerInference)
          (task_description : string),
     OctoServer.__init__ model_type policy_setup size sc = Ok fresh ->
     OctoServer.reachable dtype_is_uint8 euler2axangle fresh self ->
     OctoServer.core_state (OctoServer.reset task_description self)
       = OctoServer.core_state fresh /\
     OctoServer.reset task_description self
       = OctoServer.reset task_description fresh).
Proof.
  split.
  - intros rt mt ps h P ex size sc fresh self t Hinit Hreach.
    destruct (init_fresh mt ps h P ex size sc fresh Hinit) as [Hok Hcore].
    destruct (reachable_keeps_config fresh self Hok Hreach) as [Hcfg Hok'].
    destruct (OctoFacts.config_fields fresh self Hcfg)
      as (E1 & E2 & E3 & E4 & E5 & E6 & E7 & E8 & E9 & E10 & E11 & E12 & E13).
    rewrite (reset_normal_form t self Hok'), (reset_normal_form t fresh Hok).
    rewrite E1, E2, E3, E4, E5, E6, E7, E8, E9, E10, E11, E12, E13.
    split; [reflexivity|]. split; [|reflexivity].
    rewrite Hcore. reflexivity.
  - intros Image dtype euler mt ps size sc fresh self t Hinit Hreach.
    destruct (OctoServerFacts.reachable_config Image dtype euler fresh self
                Hreach) as (E1 & E2 & E3 & E4).
    apply OctoServerFacts.init_bound in Hinit. subst fresh.
    destruct self as [ps' n on r held prev sz sc' t' ts].
    simpl in E1, E2, E3, E4. subst.
    split; reflexivity.
Qed.

End LifecycleFacts.

(** * The adapters on concrete inputs *)

Module Examples.

Import Toy.

Lemma widowx_released_is_built answer :
  @Octo.__init__ (runtime answer) "octo-base" "widowx_bridge" 2 4 1 256 1.0%Q
    = Ok (widowx_released answer).
Proof. reflexivity. Qed.

Lemma google_released_is_built answer :
  @Octo.__init__ (runtime answer) "octo-small" "google_robot" 2 4 1 256 1.0%Q
    = Ok (google_released answer).
Proof. reflexivity. Qed.

Lemma google_custom_is_built answer :
  @Octo.__init__ (runtime answer) "checkpoints/octo_custom" "google_robot"
     2 4 1 256 1.0%Q
    = Ok (google_custom answer).
Proof. reflexivity. Qed.

Local Abbreviation rt09 := (runtime [chunk_with_gripper 0.9%Q]).
Local Abbreviation rt0 := (runtime [chunk_with_gripper 0%Q]).
Local Abbreviation rt_wide := (runtime [wide_chunk]).
Local Abbreviation rt_narrow := (runtime [narrow_chunk]).

Lemma window_after_first_push_witness :
  Octo._obtain_image_history_and_mask
    (Octo._add_image_to_history (3 : @Octo.Frame rt09)
       (snd (Octo.reset "pick" (widowx_released [chunk_with_gripper 0.9%Q]))))
  = Ok ([3; 3], [false; true]).
Proof.
  apply (OctoFacts.window_after_first_push rt09
           (widowx_released [chunk_with_gripper 0.9%Q]) "pick" (true, 3)).
  - simpl. lia.
  - reflexivity.
Defined.

Lemma window_after_pushes_witness :
  exists (images : list (@Octo.Frame rt09)) mask,
    Octo._obtain_image_history_and_mask
      (@Octo.push_all rt09 [3; 4; 5]
         (snd (Octo.reset "pick"
                 (widowx_released [chunk_with_gripper 0.9%Q]))))
    = Ok (images, mask) /\
    mask = [true; true] /\ images = [4; 5].
Proof.
  destruct (OctoFacts.window_after_pushes rt09
              (widowx_released [chunk_with_gripper 0.9%Q]) "pick" 3 [4; 5])
    as (images & mask & Hw & _ & _ & Hfull & _).
  - simpl. lia.
  - reflexivity.
  - exists images, mask. split; [exact Hw|].
    apply Hfull. simpl. lia.
Defined.


Lemma gripper_is_binarized_witness :
  exists raw action self',
    @Octo.step rt09 (true, 3)
      (snd (Octo.reset "pick" (widowx_released [chunk_with_gripper 0.9%Q])))
    = (Ok (raw, action), self') /\
    Octo.raw_open_gripper raw = [0.900%Q] /\
    Qeq_list (Octo.gripper action) [1%Q].
Proof.
  assert (E : exists raw action self',
            @Octo.step rt09 (true, 3)
              (snd (Octo.reset "pick"
                      (widowx_released [chunk_with_gripper 0.9%Q])))
            = (Ok (raw, action), self') /\
            Octo.raw_open_gripper raw = [0.900%Q]).
  { eexists _, _, _. split; [vm_compute; reflexivity | reflexivity]. }
  destruct E as (raw & action & self' & Hstep & Hg).
  exists raw, action, self'. split; [exact Hstep|]. split; [exact Hg|].
  destruct (OctoFacts.gripper_is_binarized rt09 _ self' (true, 3) raw action
              0.900%Q Hstep Hg) as [Hw _].
  apply (Hw eq_refl). reflexivity.
Defined.

(** C9 fails as stated: under a custom model, a chunk of shape (4, 8) is
    not of shape ([pred_action_horizon], 7) = (4, 7), and [step] returns all
    the same; the gripper is read from the seventh entry and the eighth is
    dropped. *)
Lemma wide_chunk_is_cut_not_refused :
  shape_is wide_chunk (Octo.pred_action_horizon (google_custom [wide_chunk])) 7
    = false /\
  @Octo.lc_ws2 rt_wide (Octo.model (google_custom [wide_chunk])) [3; 3]
    [false; true] (Some "pick"%string) = [wide_chunk] /\
  exists raw action self',
    @Octo.step rt_wide (true, 3)
      (snd (Octo.reset "pick" (google_custom [wide_chunk])))
    = (Ok (raw, action), self') /\
    Octo.raw_open_gripper raw = [0.9%Q].
Proof.
  split; [reflexivity|]. split; [reflexivity|].
  eexists _, _, _. split; [vm_compute; reflexivity | reflexivity].
Qed.

Lemma wrong_chunk_shape_witness :
  (exists e,
     fst (@Octo.step rt_wide (true, 3)
            (snd (Octo.reset "pick" (google_released [wide_chunk]))))
     = Raise e) /\
  (exists e,
     fst (@Octo.step rt_narrow (true, 3)
            (snd (Octo.reset "pick" (google_custom [narrow_chunk]))))
     = Raise e) /\
  fst (@Octo.query_model rt_wide (true, 3)
         (snd (Octo.reset "pick" (google_custom [wide_chunk]))))
  = Ok (take_cols 7 wide_chunk).
Proof.
  split; [|split].
  - apply (proj1 (OctoFacts.wrong_chunk_shape rt_wide
                    (snd (Octo.reset "pick" (google_released [wide_chunk])))
                    (true, 3) wide_chunk [])).
    + reflexivity.
    + reflexivity.
    + reflexivity.
  - apply (proj2 (OctoFacts.wrong_chunk_shape rt_narrow
                    (snd (Octo.reset "pick" (google_custom [narrow_chunk])))
                    (true, 3) narrow_chunk [])).
    + reflexivity.
    + reflexivity.
    + right. simpl. lia.
  - apply (proj2 (OctoFacts.wrong_chunk_shape rt_wide
                    (snd (Octo.reset "pick" (google_custom [wide_chunk])))
                    (true, 3) wide_chunk [])).
    + reflexivity.
    + reflexivity.
    + reflexivity.
    + simpl. lia.
    + reflexivity.
    + simpl. lia.
Defined.

Lemma construction_fails_on_bad_configuration_witness :
  (@Octo.__init__ rt0 "octo-base" "franka_panda" 2 4 1 256 1.0%Q
     = Raise (NotImplementedError (not_supported "franka_panda")) /\
   OctoServer.__init__ "octo-base" "franka_panda" 256 1.0%Q
     = Raise (NotImplementedError (not_supported "franka_panda"))) /\
  @Octo.load_model rt0 "checkpoints/octo_custom" "droid"
    = Raise (NotImplementedError
               "droid not supported yet for custom octo model checkpoints.").
Proof.
  destruct (LifecycleFacts.construction_fails_on_bad_configuration rt0)
    as (Hpolicy & Hdataset & _ & _).
  split.
  - apply Hpolicy; discriminate.
  - apply Hdataset; discriminate.
Defined.

Lemma reset_restores_fresh_state_witness :
  (let fresh := widowx_released [chunk_with_gripper 0.9%Q] in
   let self := snd (@Octo.step rt09 (true, 3) (snd (Octo.reset "pick" fresh))) in
   Octo.core_state (snd (Octo.reset "place" self)) = Octo.core_state fresh /\
   Octo.reset "place" self = Octo.reset "place" fresh) /\
  (let self :=
     snd (OctoServer.step is_uint8 axangle (true, 0) (reply_of 0%Q)
            (snd (OctoServer.step is_uint8 axangle (true, 0) (reply_of 0.6%Q)
                    server_reset))) in
   OctoServer.core_state (OctoServer.reset "place" self)
     = OctoServer.core_state server0 /\
   OctoServer.reset "place" self = OctoServer.reset "place" server0).
Proof.
  destruct LifecycleFacts.reset_restores_fresh_state as [Hlocal Hremote].
  split; cbv zeta.
  - assert (Hreach :
              Octo.reachable (widowx_released [chunk_with_gripper 0.9%Q])
                (snd (@Octo.step rt09 (true, 3)
                        (snd (Octo.reset "pick"
                                (widowx_released
                                   [chunk_with_gripper 0.9%Q]))))))
      by (apply Octo.reach_step, Octo.reach_reset, Octo.reach_fresh).
    destruct (Hlocal rt09 "octo-base"%string "widowx_bridge"%string 2 4 1 256
                1.0%Q _ _ "place"%string
                (widowx_released_is_built [chunk_with_gripper 0.9%Q]) Hreach)
      as (_ & Hcore & Hall).
    split; [exact Hcore | exact Hall].
  - assert (Hreach :
              OctoServer.reachable is_uint8 axangle server0
                (snd (OctoServer.step is_uint8 axangle (true, 0)
                        (reply_of 0%Q)
                        (snd (OctoServer.step is_uint8 axangle (true, 0)
                                (reply_of 0.6%Q) server_reset)))))
      by (apply OctoServer.reach_step, OctoServer.reach_step,
            OctoServer.reach_reset, OctoServer.reach_fresh).
    exact (Hremote image is_uint8 axangle "octo-base"%string
             "google_robot"%string 256 1.0%Q server0 _ "place"%string
             eq_refl Hreach).
Defined.

Lemma chunk_of_zeros : zero_chunk 4 (chunk_with_gripper 0%Q).
Proof.
  unfold zero_chunk, wf_array2. simpl.
  repeat split; repeat constructor; reflexivity.
Qed.

(** Three identical frames under [widowx_bridge], a model that answers
    with zeros: every call returns the mean of the bridge statistics. *)
Lemma zero_episode_example :
  Forall (Octo.returns_raw Octo.bridge_action_mean)
    (fst (@Octo.run rt0 [(true, 3); (true, 3); (true, 3)]
            (snd (Octo.reset "pick"
                    (widowx_released [chunk_with_gripper 0%Q]))))).
Proof.
  apply (@LifecycleFacts.zero_episode_after_reset rt0
           "octo-base" "widowx_bridge" 2 4 1 256 1.0%Q
           (widowx_released [chunk_with_gripper 0%Q])
           (widowx_released [chunk_with_gripper 0%Q]) "pick"
           [(true, 3); (true, 3); (true, 3)] (chunk_with_gripper 0%Q) []).
  - reflexivity.
  - apply Octo.reach_fresh.
  - simpl. lia.
  - simpl. lia.
  - reflexivity.
  - reflexivity.
  - reflexivity.
  - exact chunk_of_zeros.
  - repeat constructor.
Qed.

End Examples.

(** * Further properties of the remote adapter *)

Module ServerExtras.
Import OctoServer OctoServerFacts.

Section Steps.
Variable Image : Type.
Variable dtype_is_uint8 : Image -> bool.
Variable euler2axangle : Q -> Q -> Q -> list Q * Q.
Local Abbreviation step := (step dtype_is_uint8 euler2axangle).
Local Abbreviation run := (run dtype_is_uint8 euler2axangle).
Local Abbreviation well_formed := (well_formed dtype_is_uint8).
Local Abbreviation reachable := (reachable dtype_is_uint8 euler2axangle).

Lemma slice_3_6_short {A} (reply : list A) :
  length reply < 6 ->
  forall r p y, slice 3 6 reply <> [r; p; y].
Proof.
  intros H r p y.
  destruct reply as [|a [|b [|c [|d [|e [|f rest]]]]]]; simpl in H;
    try lia; discriminate.
Qed.

(** [step] on an input that is not well formed. *)
Lemma step_bad_input image reply self :
  (dtype_is_uint8 image = false ->
   step image reply self = (Raise AssertionError, self)) /\
  (dtype_is_uint8 image = true -> length reply < 6 ->
   step image reply self = (Raise ValueError, self)).
Proof.
  split.
  - intros H. unfold OctoServer.step. now rewrite H.
  - intros H Hlen. unfold OctoServer.step. rewrite H. simpl negb. cbv iota.
    cbn [raw_rotation_delta].
    pose proof (slice_3_6_short reply Hlen) as Hs.
    destruct (slice 3 6 reply) as [|r [|p [|y [|]]]]; try reflexivity.
    exfalso. apply (Hs r p y). reflexivity.
Qed.




(** X2.  The first call after [reset] cannot start a hold: under
    [google_robot] it emits the gripper value 0 whatever the reading, and
    leaves the adapter idle with that reading as the previous one. *)
Theorem first_step_after_reset_is_quiet :
  forall (self : OctoServerInference) (task_description : string)
         (x : Image * list Q),
    policy_setup self = "google_robot"%string ->
    1 <= sticky_gripper_num_repeat self ->
    well_formed x ->
    let self0 := reset task_description self in
    emitted (fst (step (fst x) (snd x) self0)) = Some 0%Q /\
    idle (snd (step (fst x) (snd x) self0)) /\
    previous_gripper_action (snd (step (fst x) (snd x) self0))
      = Some (grip x).
Proof.
  intros self t x Hg HN Hwf. cbv zeta.
  set (self0 := reset t self).
  assert (Hg0 : policy_setup self0 = "google_robot"%string) by exact Hg.
  assert (Hidle : idle self0) by (repeat split).
  assert (Hq : (Qabs (relative (grip x) self0) <= 0.5)%Q) by discriminate.
  destruct (step_google Image dtype_is_uint8 euler2axangle x self0 Hg0 Hwf)
    as [-> ->].
  rewrite sticky_gripper_idle_emits by apply Hidle.
  rewrite (sticky_gripper_quiet_state (grip x) self0 Hidle HN Hq).
  repeat split.
Qed.

Lemma sticky_gripper_time g self :
  time_step (snd (sticky_gripper g self)) = time_step self.
Proof.
  unfold sticky_gripper.
  destruct self as [ps n on r h prev sz sc t ts]; simpl.
  destruct (Qgtb _ _), on; simpl;
    match goal with |- context [?a =? ?b] => destruct (a =? b) end;
    reflexivity.
Qed.

(** One call moves the step counter by one if it returns and not at all if
    it raises. *)
Lemma server_step_time image reply self :
  time_step (snd (step image reply self)) =
    time_step self + count_ok [fst (step image reply self)].
Proof.
  destruct (step_bad_input image reply self) as [Hd Hr].
  destruct (dtype_is_uint8 image) eqn:Eu;
    [|rewrite (Hd eq_refl); unfold count_ok; simpl; lia].
  destruct (Nat.lt_ge_cases (length reply) 6) as [Hlt|Hge];
    [rewrite (Hr eq_refl Hlt); unfold count_ok; simpl; lia|].
  unfold OctoServer.step. rewrite Eu. simpl negb. cbv iota.
  cbn [raw_rotation_delta raw_open_gripper raw_world_vector].
  destruct reply as [|a [|b [|c [|roll [|pitch [|yaw rest]]]]]];
    simpl in Hge; try lia.
  change (slice 3 6 (a :: b :: c :: roll :: pitch :: yaw :: rest))
    with [roll; pitch; yaw]. cbv beta iota.
  destruct (euler2axangle roll pitch yaw) as [ax angle].
  rewrite (last_slice_cons 0%Q).
  destruct (String.eqb (policy_setup self) "google_robot").
  - pose proof (sticky_gripper_time
                  (last (a :: b :: c :: roll :: pitch :: yaw :: rest) 0%Q)
                  self) as Ht.
    destruct (sticky_gripper _ self) as [g self1].
    cbn [fst snd] in *. unfold count_ok. simpl. lia.
  - unfold count_ok. simpl. lia.
Qed.

Lemma count_ok_cons {A} (r : result A) rs :
  count_ok (r :: rs) = count_ok [r] + count_ok rs.
Proof. unfold count_ok. simpl. destruct r; simpl; reflexivity. Qed.

(** X3.  The step counter of the remote adapter counts the calls of [step]
    that returned: calls that raise do not move it. *)
Theorem server_time_step_counts_returned_steps :
  forall (inputs : list (Image * list Q)) (self : OctoServerInference),
    time_step (snd (run inputs self)) =
      time_step self + count_ok (fst (run inputs self)).
Proof.
  induction inputs as [|x xs IH]; intros self.
  - simpl. unfold count_ok. simpl. lia.
  - rewrite run_cons. cbn [fst snd].
    pose proof (count_ok_cons (fst (step (fst x) (snd x) self))
                  (fst (run xs (snd (step (fst x) (snd x) self))))) as Hc.
    rewrite IH, server_step_time. lia.
Qed.


(** X4.  The constructor of the remote adapter returns an object exactly for
    the policy [google_robot], and every object that calls of [reset] and
    [step] make of it keeps that policy: whenever [step] returns, the key
    ['gripper'] is set, by the sticky gripper; the branch that binarizes
    for [widowx_bridge] is never taken. *)
Theorem server_always_google_robot :
  forall (model_type policy : string) (size : nat) (scale : Q)
         (fresh self : OctoServerInference) (image : Image) (reply : list Q)
         (raw : RawAction) (action : Action),
    (__init__ model_type policy size scale = Ok fresh <->
     policy = "google_robot"%string /\
     fresh = mkServer "google_robot" 15 false 0 0%Q None size scale None 0) /\
    (__init__ model_type policy size scale = Ok fresh ->
     reachable fresh self ->
     fst (step image reply self) = Ok (raw, action) ->
     policy_setup self = "google_robot"%string /\
     gripper action = Some (fst (sticky_gripper (last reply 0%Q) self))).
Proof.
  intros mt ps size sc fresh self image reply raw action. split.
  - split.
    + intros H. pose proof (init_bound mt ps size sc fresh H) as ->.
      split; [|reflexivity].
      unfold __init__ in H.
      destruct (String.eqb ps "widowx_bridge"); [discriminate|].
      destruct (String.eqb_spec ps "google_robot"); [assumption|discriminate].
    + intros [-> ->]. reflexivity.
  - intros Hinit Hreach Hok.
    destruct (reachable_config Image dtype_is_uint8 euler2axangle fresh self
                Hreach) as (_ & Hp & _).
    rewrite (init_bound mt ps size sc fresh Hinit) in Hp. simpl in Hp.
    split; [exact Hp|].
    destruct (step_bad_input image reply self) as [Hd Hr].
    destruct (dtype_is_uint8 image) eqn:Eu;
      [|rewrite (Hd eq_refl) in Hok; discriminate].
    destruct (Nat.lt_ge_cases (length reply) 6) as [Hlt|Hge];
      [rewrite (Hr eq_refl Hlt) in Hok; discriminate|].
    assert (Hwf : well_formed (image, reply)) by (split; assumption).
    destruct (step_google Image dtype_is_uint8 euler2axangle (image, reply)
                self Hp Hwf) as [Hem _].
    cbn [fst snd] in Hem. rewrite Hok in Hem. exact Hem.
Qed.

(** The relation between the sticky fields holds in every state reached
    from a constructed object, which has the policy [google_robot]. *)
Lemma reachable_sticky_invariant model_type policy size scale fresh self :
  __init__ model_type policy size scale = Ok fresh ->
  reachable fresh self ->
  sticky_invariant self /\ policy_setup self = "google_robot"%string /\
  sticky_gripper_num_repeat self = 15.
Proof.
  intros Hinit Hreach. apply init_bound in Hinit.
  destruct (reachable_config Image dtype_is_uint8 euler2axangle fresh self
              Hreach) as (HN & Hp & _).
  rewrite Hinit in HN, Hp. simpl in HN, Hp.
  split; [|auto].
  clear HN Hp.
  induction Hreach as [| t self Hr IH | image reply self Hr IH].
  - subst fresh. split; simpl; intros H; [auto | discriminate].
  - split; simpl; intros H; [auto | discriminate].
  - destruct (reachable_config Image dtype_is_uint8 euler2axangle fresh self
                Hr) as [HN _].
    rewrite Hinit in HN. simpl in HN.
    destruct (step_state_cases Image dtype_is_uint8 euler2axangle image reply
                self) as [-> | [-> | (g & _ & _ & _ & ->)]]; try exact IH.
    apply sticky_invariant_time_step, sticky_gripper_invariant;
      [lia | exact IH].
Qed.

(** X5.  Under [google_robot], from any state the adapter can reach, the
    magnitude of the emitted gripper value tells whether a hold is on: it
    is above 0.5 when the call is made during a hold or starts one, and it
    is the raw relative action, of magnitude at most 0.5, otherwise. *)
Theorem emitted_magnitude_tells_hold :
  forall (model_type policy : string) (size : nat) (scale : Q)
         (fresh self : OctoServerInference) (x : Image * list Q),
    __init__ model_type policy size scale = Ok fresh ->
    reachable fresh self ->
    well_formed x ->
    exists v,
      emitted (fst (step (fst x) (snd x) self)) = Some v /\
      (sticky_action_is_on self = true \/
       (0.5 < Qabs (relative (grip x) self))%Q ->
       (0.5 < Qabs v)%Q) /\
      (sticky_action_is_on self = false ->
       (Qabs (relative (grip x) self) <= 0.5)%Q ->
       v = relative (grip x) self /\ (Qabs v <= 0.5)%Q).
Proof.
  intros mt ps size sc fresh self x Hinit Hreach Hwf.
  destruct (reachable_sticky_invariant mt ps size sc fresh self Hinit Hreach)
    as ([Hoff Hon] & Hp & _).
  destruct (step_google Image dtype_is_uint8 euler2axangle x self Hp Hwf)
    as [-> _].
  exists (fst (sticky_gripper (grip x) self)). split; [reflexivity|].
  destruct (sticky_action_is_on self) eqn:E.
  - rewrite (sticky_gripper_hold_emits (grip x) self E).
    destruct (Hon eq_refl) as [_ Hh].
    split; [intros _; exact Hh | discriminate].
  - rewrite (sticky_gripper_idle_emits (grip x) self E). split.
    + intros [H|H]; [discriminate | exact H].
    + intros _ Hq. split; [reflexivity | exact Hq].
Qed.

(** X6.  [step] reads the reply through its entries 0 to 5 and its last
    entry only: two replies that agree there give the same result and the
    same state, whatever their lengths; and in a reply of exactly 6
    entries the last rotation entry is read as the gripper as well. *)
Theorem reply_is_read_by_six_entries_and_the_last :
  forall (image : Image) (self : OctoServerInference) (r1 r2 : list Q),
    (6 <= length r1 -> 6 <= length r2 ->
     firstn 6 r1 = firstn 6 r2 -> last r1 0%Q = last r2 0%Q ->
     step image r1 self = step image r2 self) /\
    (length r1 = 6 ->
     forall raw action,
       fst (step image r1 self) = Ok (raw, action) ->
       raw_open_gripper raw = skipn 2 (raw_rotation_delta raw)).
Proof.
  intros image self r1 r2. split.
  - intros H1 H2 Hfirst Hlast.
    destruct r1 as [|a [|b [|c [|d [|e [|f rest1]]]]]]; simpl in H1; try lia.
    destruct r2 as [|a' [|b' [|c' [|d' [|e' [|f' rest2]]]]]]; simpl in H2;
      try lia.
    injection Hfirst as -> -> -> -> -> ->.
    unfold OctoServer.step.
    rewrite !(last_slice_cons 0%Q), Hlast. reflexivity.
  - intros Hlen raw action.
    destruct r1 as [|a [|b [|c [|d [|e [|f [|]]]]]]]; try discriminate Hlen.
    unfold OctoServer.step. destruct (dtype_is_uint8 image); [|discriminate].
    simpl negb. cbv iota.
    cbn [raw_rotation_delta raw_open_gripper raw_world_vector].
    change (slice 3 6 [a; b; c; d; e; f]) with [d; e; f]. cbv beta iota.
    destruct (euler2axangle d e f) as [ax angle].
    change (last_slice [a; b; c; d; e; f]) with [f].
    destruct (String.eqb (policy_setup self) "google_robot").
    + destruct (sticky_gripper f self) as [g self1]. cbn [fst].
      intros H. injection H as <- _. reflexivity.
    + cbn [fst]. intros H. injection H as <- _. reflexivity.
Qed.

Lemma run_keeps_policy xs :
  forall self, policy_setup (snd (run xs self)) = policy_setup self.
Proof.
  induction xs as [|x xs IH]; intros self; [reflexivity|].
  rewrite run_cons. cbn [snd]. rewrite IH.
  apply (step_keeps_config Image dtype_is_uint8 euler2axangle).
Qed.

(** X7.  The previous reading is stored on every call that goes through,
    during a hold as well: after any sequence of well-formed calls under
    [google_robot] it is the reading of the last call, so the relative
    action of the first call after a hold is measured against the last
    reading of the hold. *)
Theorem previous_reading_is_the_last_one :
  forall (xs : list (Image * list Q)) (x : Image * list Q)
         (self : OctoServerInference),
    policy_setup self = "google_robot"%string ->
    well_formed x ->
    previous_gripper_action (snd (run (xs ++ [x]) self)) = Some (grip x) /\
    forall y : Image * list Q,
      relative (grip y) (snd (run (xs ++ [x]) self)) = (grip x - grip y)%Q.
Proof.
  intros xs x self Hg Hwf.
  assert (Hp : previous_gripper_action (snd (run (xs ++ [x]) self))
               = Some (grip x)).
  { rewrite run_app. cbn [snd]. rewrite run_cons. cbn [snd run].
    pose proof (run_keeps_policy xs self) as Hpol. rewrite Hg in Hpol.
    destruct (step_google Image dtype_is_uint8 euler2axangle x _ Hpol Hwf)
      as [_ ->].
    destruct (sticky_gripper_keeps_config (grip x) (snd (run xs self)))
      as (_ & _ & H).
    exact H. }
  split; [exact Hp|].
  intros y. unfold relative. now rewrite Hp.
Qed.

End Steps.
End ServerExtras.

(** * Further properties of the local adapter *)

Module OctoExtras.
Import Octo OctoFacts LifecycleFacts.

Section Steps.
Context {rt : Runtime}.

(** The stages of [step] and the step counter. *)
Lemma query_model_time image (self : OctoInference) :
  time_step (snd (query_model image self)) = time_step self.
Proof.
  rewrite query_model_eq. destruct (dtype_is_uint8 image); [|reflexivity].
  cbn [snd]. unfold _add_image_to_history.
  destruct (num_image_history self =? 0); reflexivity.
Qed.

Lemma ensemble_time norm (self : OctoInference) :
  time_step (snd (ensemble norm self)) = time_step self.
Proof.
  rewrite ensemble_eq. destruct (action_ensemble self); [|reflexivity].
  destruct (action_ensembler self); reflexivity.
Qed.

Lemma postprocess_time norm (self : OctoInference) :
  time_step (snd (postprocess norm self)) =
    time_step self + count_ok [fst (postprocess norm self)].
Proof.
  rewrite postprocess_eq. unfold count_ok.
  destruct (denormalize self norm) as [raw_actions|e]; [|simpl; lia].
  destruct (rows raw_actions) as [|first others]; [simpl; lia|].
  destruct (slice 3 6 first) as [|roll [|pitch [|yaw [|]]]]; simpl; lia.
Qed.

Lemma local_step_time image (self : OctoInference) :
  time_step (snd (step image self)) =
    time_step self + count_ok [fst (step image self)].
Proof.
  rewrite step_eq.
  pose proof (query_model_time image self) as H1.
  destruct (query_model image self) as [[chunk|e] self1]; cbn [fst snd] in *;
    [|unfold count_ok; simpl; lia].
  pose proof (ensemble_time chunk self1) as H2.
  destruct (ensemble chunk self1) as [[norm|e] self2]; cbn [fst snd] in *;
    [|unfold count_ok; simpl; lia].
  rewrite postprocess_time. lia.
Qed.

End Steps.

(** X8.  The step counter of the local adapter counts the calls of [step]
    that returned: a call that raises, before or after the frame was
    pushed, does not move it. *)
Theorem local_time_step_counts_returned_steps :
  forall (rt : Runtime) (images : list Image) (self : OctoInference),
    time_step (snd (run images self)) =
      time_step self + count_ok (fst (run images self)).
Proof.
  intros rt. induction images as [|image images IH]; intros self.
  - simpl. unfold count_ok. simpl. lia.
  - rewrite run_unfold. cbn [fst snd].
    pose proof (ServerExtras.count_ok_cons (fst (step image self))
                  (fst (run images (snd (step image self))))) as Hc.
    rewrite IH, local_step_time. lia.
Qed.

(** X9.  [step] of the local adapter can fail before and after the push.
    An image that is not uint8 raises AssertionError and leaves the object
    as it was.  A chunk of the wrong shape raises AssertionError after the
    frame was pushed: the history and the frame counter are those after the
    push, and nothing else has changed. *)
Theorem local_step_failure_modes :
  forall (rt : Runtime) (self : OctoInference) (image : Image)
         (chunk : array2) (batch : array3),
    (dtype_is_uint8 image = false ->
     step image self = (Raise AssertionError, self)) /\
    (dtype_is_uint8 image = true ->
     0 < horizon self ->
     (forall images pad_mask,
        answer_of self images pad_mask = chunk :: batch) ->
     shape_is chunk (pred_action_horizon self) 7 = false ->
     step image self =
       (Raise AssertionError,
        _add_image_to_history (_resize_image self image) self)).
Proof.
  intros rt self image chunk batch. split.
  - intros Hu. rewrite step_eq, query_model_eq, Hu. reflexivity.
  - intros Hu Hh Hans Hshape.
    rewrite step_eq, query_model_eq, Hu. cbv zeta.
    set (self1 := _add_image_to_history (_resize_image self image) self).
    destruct (add_image_evolves (_resize_image self image) self)
      as ((Hcfg & Htask & _) & _). fold self1 in Hcfg, Htask.
    destruct (config_fields self self1 Hcfg)
      as (_ & _ & _ & _ & _ & _ & _ & EP & _).
    pose proof (history_after_push (_resize_image self image) self Hh) as Hne.
    fold self1 in Hne. unfold _obtain_image_history_and_mask.
    destruct (image_history self1) as [|f0 fs]; [contradiction|].
    rewrite (answer_of_config self self1 _ _ Hcfg Htask), Hans, EP, Hshape.
    reflexivity.
Qed.


Section History.
Context {rt : Runtime}.

(** After a push the history holds [horizon] frames, if it was empty or
    full before. *)
Lemma push_fills frame (self : OctoInference) :
  0 < horizon self ->
  (num_image_history self = 0 /\ image_history self = []) \/
  (1 <= num_image_history self <= horizon self /\
   length (image_history self) = horizon self) ->
  let self' := _add_image_to_history frame self in
  1 <= num_image_history self' <= horizon self /\
  length (image_history self') = horizon self.
Proof.
  intros Hh [[Hn Hi] | [Hn Hl]]; cbv zeta.
  - destruct (first_push frame self Hi Hn) as (H1 & H2 & _).
    rewrite H1, H2, repeat_length. lia.
  - destruct (later_push frame self) as (H1 & H2 & _); [lia|].
    rewrite H1, H2, lastn_length, length_app. simpl. lia.
Qed.

End History.

(** X10.  In every state the local adapter can reach (horizon at least 1)
    the window is either empty, with no frame counted, or holds exactly
    [horizon] frames, with between 1 and [horizon] frames counted; so
    reading the window raises exactly when no frame was pushed since the
    last reset. *)
Theorem history_is_empty_or_full :
  forall (rt : Runtime) (model_type policy : string)
         (h P ex size : nat) (scale : Q) (fresh self : OctoInference),
    __init__ model_type policy h P ex size scale = Ok fresh ->
    reachable fresh self ->
    0 < h ->
    horizon self = h /\
    ((num_image_history self = 0 /\ image_history self = []) \/
     (1 <= num_image_history self <= h /\
      length (image_history self) = h)) /\
    (_obtain_image_history_and_mask self = Raise ValueError <->
     num_image_history self = 0).
Proof.
  intros rt mt ps h P ex size sc fresh self Hinit Hreach Hh.
  destruct (init_fresh mt ps h P ex size sc fresh Hinit) as [Hok Hcore].
  assert (Hhf : horizon fresh = h).
  { revert Hinit. unfold __init__.
    destruct (policy_config ps) as [[[d ae] temp]|e]; [|discriminate].
    destruct (load_model mt d) as [[[[stored m] [mean std]] auto]|e];
      [|discriminate].
    intros H. injection H as <-. reflexivity. }
  assert (Hinv : horizon self = h /\
            ((num_image_history self = 0 /\ image_history self = []) \/
             (1 <= num_image_history self <= h /\
              length (image_history self) = h))).
  { induction Hreach as [| t self Hr [IH1 IH2] | image self Hr [IH1 IH2]].
    - split; [exact Hhf|]. left.
      unfold core_state in Hcore. injection Hcore as H1 H2 _ _. auto.
    - destruct (reachable_keeps_config fresh self Hok Hr) as [_ Hok'].
      rewrite (reset_normal_form t self Hok'). cbn [snd horizon
        num_image_history image_history]. auto.
    - destruct (step_evolves image self) as (Hcfg & _).
      destruct (config_fields self _ Hcfg)
        as (_ & _ & _ & _ & _ & _ & Eh & _).
      split; [congruence|].
      destruct (step_history image self) as [[-> ->] | [-> ->]];
        [exact IH2|].
      right. rewrite <- IH1. apply push_fills; rewrite IH1; assumption. }
  destruct Hinv as [H1 H2]. split; [exact H1|]. split; [exact H2|].
  unfold _obtain_image_history_and_mask.
  destruct H2 as [[Hn Hi] | [Hn Hl]].
  - rewrite Hi. tauto.
  - destruct (image_history self) as [|f fs]; [simpl in Hl; lia|].
    split; [discriminate | lia].
Qed.



Section Actions.
Context {rt : Runtime}.

Lemma denormalize_first_row (self : OctoInference) norm norm' first others
    others' :
  rows norm = first :: others ->
  rows norm' = first :: others' ->
  ncols norm = ncols norm' ->
  match denormalize self norm, denormalize self norm' with
  | Ok a, Ok a' => exists r o o', rows a = r :: o /\ rows a' = r :: o'
  | Raise e, Raise e' => e = e'
  | _, _ => False
  end.
Proof.
  intros Hr Hr' Hc. unfold denormalize, broadcast_op. rewrite Hc.
  destruct (broadcast_dim (ncols norm') (length (action_std self)));
    [|reflexivity].
  cbn [ncols rows]. rewrite Hr, Hr'.
  destruct (broadcast_dim n (length (action_mean self))); [|reflexivity].
  cbn [rows map]. eexists _, _, _. split; reflexivity.
Qed.

Lemma slice_lengths {A} (l : list A) r p y :
  slice 3 6 l = [r; p; y] ->
  length (slice 0 3 l) = 3 /\ length (slice 6 7 l) <= 1.
Proof.
  intros H.
  destruct l as [|a [|b [|c [|d [|e [|f rest]]]]]]; try discriminate H.
  split; [reflexivity|].
  destruct rest; simpl; lia.
Qed.

Lemma binarize_sign g : (binarize g == 1)%Q \/ (binarize g == -1)%Q.
Proof.
  destruct (Qlt_le_dec 0.5 g) as [H|H].
  - left. now apply binarize_open.
  - right. now apply binarize_closed.
Qed.

Lemma gripper_action_signs policy open_gripper :
  length (gripper_action policy open_gripper) = length open_gripper /\
  Forall (fun g => (g == 1)%Q \/ (g == -1)%Q)
    (gripper_action policy open_gripper).
Proof.
  unfold gripper_action.
  destruct (String.eqb policy "google_robot").
  - split; [now rewrite !length_map|].
    apply Forall_forall. intros g Hg.
    apply in_map_iff in Hg as (b & <- & Hb).
    apply in_map_iff in Hb as (o & <- & _).
    destruct (binarize_sign o) as [-> | ->]; [right | left]; reflexivity.
  - split; [now rewrite length_map|].
    apply Forall_forall. intros g Hg.
    apply in_map_iff in Hg as (o & <- & _). apply binarize_sign.
Qed.

(** The parts of what [step] returns. *)
Lemma step_ok_parts image (self self' : OctoInference) raw action :
  step image self = (Ok (raw, action), self') ->
  exists first roll pitch yaw,
    raw = raw_of first /\
    slice 3 6 first = [roll; pitch; yaw] /\
    rot_axangle action =
      scale (scale (fst (euler2axangle roll pitch yaw))
               (snd (euler2axangle roll pitch yaw)))
        (action_scale self).
Proof.
  intros Hstep.
  destruct (step_ok_inv image self self' raw action Hstep)
    as (norm & self1 & Hnorm & Hpost).
  pose proof (normalized_actions_evolves image self) as (Hcfg & _ & _).
  rewrite Hnorm in Hcfg. cbn [snd] in Hcfg.
  destruct (config_fields self self1 Hcfg)
    as (_ & _ & _ & _ & _ & Ec & _).
  rewrite postprocess_eq in Hpost.
  destruct (denormalize self1 norm) as [raw_actions|e]; [|discriminate].
  destruct (rows raw_actions) as [|first others]; [discriminate|].
  destruct (slice 3 6 first) as [|roll [|pitch [|yaw [|]]]] eqn:Es;
    try discriminate.
  injection Hpost as <- <- _.
  exists first, roll, pitch, yaw. rewrite <- Ec. auto.
Qed.

End Actions.

(** X12.  Of the chunk that enters the de-normalization only the first action
    is used: two arrays with the same first row and the same number of
    columns give the same result and the same state, whatever their other
    rows; and where the policy does not ensemble, the chunk of the model
    enters the de-normalization as it is, so that of the
    [pred_action_horizon] predicted actions only the first is executed. *)
Theorem only_the_first_action_is_executed :
  forall (rt : Runtime) (self : OctoInference) (norm norm' : array2)
         (first : list Q) (others others' : list (list Q)),
    (rows norm = first :: others ->
     rows norm' = first :: others' ->
     ncols norm = ncols norm' ->
     postprocess norm self = postprocess norm' self) /\
    (action_ensemble self = false -> ensemble norm self = (Ok norm, self)).
Proof.
  intros rt self norm norm' first others others'. split.
  - intros Hr Hr' Hc.
    pose proof (denormalize_first_row self norm norm' first others others'
                  Hr Hr' Hc) as H.
    rewrite !postprocess_eq.
    destruct (denormalize self norm) as [a|e],
             (denormalize self norm') as [a'|e']; try contradiction.
    + destruct H as (r & o & o' & -> & ->). reflexivity.
    + now subst.
  - intros H. rewrite ensemble_eq, H. reflexivity.
Qed.

(** X13.  Whenever [step] of the local adapter returns, the raw world vector
    and the raw rotation delta have 3 entries each and the raw open_gripper
    at most one; the world vector of the action is the raw one times
    [action_scale]; the gripper has as many entries as the raw
    open_gripper, each of them 1 or -1; terminate_episode is [0.0]; and the
    step counter has moved by one. *)
Theorem local_action_format :
  forall (rt : Runtime) (self self' : OctoInference) (image : Image)
         (raw : RawAction) (action : Action),
    step image self = (Ok (raw, action), self') ->
    length (raw_world_vector raw) = 3 /\
    length (raw_rotation_delta raw) = 3 /\
    length (raw_open_gripper raw) <= 1 /\
    world_vector action = scale (raw_world_vector raw) (action_scale self) /\
    length (gripper action) = length (raw_open_gripper raw) /\
    Forall (fun g => (g == 1)%Q \/ (g == -1)%Q) (gripper action) /\
    terminate_episode action = [0.0%Q] /\
    time_step self' = time_step self + 1.
Proof.
  intros rt self self' image raw action Hstep.
  pose proof (local_step_time image self) as Ht. rewrite Hstep in Ht.
  unfold count_ok in Ht. cbn [fst snd filter length] in Ht.
  destruct (step_ok_inv image self self' raw action Hstep)
    as (norm & self1 & Hnorm & Hpost).
  pose proof (normalized_actions_evolves image self) as (Hcfg & _ & _).
  rewrite Hnorm in Hcfg. cbn [snd] in Hcfg.
  destruct (config_fields self self1 Hcfg)
    as (_ & _ & _ & _ & _ & Ec & _).
  rewrite postprocess_eq in Hpost.
  destruct (denormalize self1 norm) as [raw_actions|e]; [|discriminate].
  destruct (rows raw_actions) as [|first others]; [discriminate|].
  destruct (slice 3 6 first) as [|roll [|pitch [|yaw [|]]]] eqn:Es;
    try discriminate.
  injection Hpost as <- <- _.
  destruct (slice_lengths first roll pitch yaw Es) as [H1 H2].
  destruct (gripper_action_signs (policy_setup self1) (slice 6 7 first))
    as [H3 H4].
  unfold raw_of, action_of.
  cbn [raw_world_vector raw_rotation_delta raw_open_gripper world_vector
       gripper terminate_episode].
  rewrite Es, Ec. repeat split; auto.
Qed.

End OctoExtras.

(** * The figure of an episode *)

Module VisualizeFacts.

Import Octo OctoFacts Visualize.

Lemma every_third_spec {A} (l : list A) :
  length (every_third l) = (length l + 2) / 3 /\
  forall i, nth_error (every_third l) i = nth_error l (3 * i).
Proof.
  assert (H : forall n (l : list A), length l <= n ->
            length (every_third l) = (length l + 2) / 3 /\
            forall i, nth_error (every_third l) i = nth_error l (3 * i)).
  { induction n as [|n IH]; intros l0 Hl.
    - destruct l0; [|simpl in Hl; lia].
      split; [reflexivity|]. intros i. now rewrite !nth_error_nil.
    - destruct l0 as [|a [|b [|c rest]]].
      + split; [reflexivity|]. intros i. now rewrite !nth_error_nil.
      + split; [reflexivity|]. intros [|i]; [reflexivity|].
        simpl. replace (i + S (i + S (i + 0))) with (S (S (3 * i))) by lia.
        now rewrite !nth_error_nil.
      + split; [reflexivity|]. intros [|i]; [reflexivity|].
        cbn [every_third nth_error].
        replace (3 * S i) with (S (S (S (3 * i)))) by lia.
        cbn [nth_error]. now rewrite !nth_error_nil.
      + destruct (IH rest) as [IHl IHn]; [simpl in Hl; lia|].
        cbn [every_third length]. rewrite IHl. split.
        * replace (S (S (S (length rest))) + 2)
            with (1 * 3 + (length rest + 2)) by lia.
          rewrite Nat.div_add_l by lia. lia.
        * intros [|i]; [reflexivity|].
          replace (3 * S i) with (S (S (S (3 * i)))) by lia.
          cbn [nth_error]. apply IHn. }
  apply (H (length l)). lia.
Qed.


(** X14.  The figure of [visualize_epoch] plots entry 0 of the rotation delta
    under the label "yaw" and entry 2 under "roll", while [step] unpacks
    the rotation delta as roll, pitch, yaw and converts it in that order:
    for a raw action returned by [step], the value plotted as yaw is the
    one converted as roll, and the value plotted as roll the one converted
    as yaw. *)
Theorem plot_labels_swap_roll_and_yaw :
  forall (rt : Runtime) (self self0 self1 : OctoInference)
         (actions : list RawAction) (images : list Image)
         (fig : Figure Frame) (t : nat) (image : Image)
         (raw : RawAction) (action : Action),
    visualize_epoch self actions images = Ok fig ->
    nth_error actions t = Some raw ->
    step image self0 = (Ok (raw, action), self1) ->
    exists roll pitch yaw,
      raw_rotation_delta raw = [roll; pitch; yaw] /\
      rot_axangle action =
        scale (scale (fst (euler2axangle roll pitch yaw))
                 (snd (euler2axangle roll pitch yaw)))
          (action_scale self0) /\
      (exists ys, series_of "yaw" fig = Some ys /\
                  nth_error ys t = Some roll) /\
      (exists ps, series_of "pitch" fig = Some ps /\
                  nth_error ps t = Some pitch) /\
      (exists rs, series_of "roll" fig = Some rs /\
                  nth_error rs t = Some yaw).
Proof.
  intros rt self self0 self1 actions images fig t image raw action
    Hvis Ht Hstep.
  destruct (OctoExtras.step_ok_parts image self0 self1 raw action Hstep)
    as (first & roll & pitch & yaw & -> & Es & Hrot).
  exists roll, pitch, yaw.
  split; [cbn [raw_rotation_delta raw_of]; exact Es|].
  split; [exact Hrot|].
  revert Hvis. unfold visualize_epoch.
  destruct (every_third (map (_resize_image self) images)) as [|f fs];
    [discriminate|].
  destruct (map action_row actions) as [|row rows'] eqn:Erows; [discriminate|].
  assert (Hrow : nth_error (row :: rows') t = Some (action_row (raw_of first)))
    by (rewrite <- Erows; now apply map_nth_error).
  revert Hrow. generalize (row :: rows'). intros table Hrow.
  destruct (negb _); [discriminate|].
  destruct (length row <? length ACTION_DIM_LABELS); [discriminate|].
  intros H. injection H as <-.
  destruct first as [|a [|b [|c [|d [|e [|g rest]]]]]]; try discriminate Es.
  injection Es as <- <- <-.
  unfold series_of. cbn [series].
  split; [|split].
  - exists (map (fun r => nth 3 r 0%Q) table).
    split; [reflexivity|]. now rewrite (map_nth_error _ _ _ Hrow).
  - exists (map (fun r => nth 4 r 0%Q) table).
    split; [reflexivity|]. now rewrite (map_nth_error _ _ _ Hrow).
  - exists (map (fun r => nth 5 r 0%Q) table).
    split; [reflexivity|]. now rewrite (map_nth_error _ _ _ Hrow).
Qed.

(** X15.  [visualize_epoch] raises ValueError on an empty list of images,
    whatever the actions, and IndexError on images without actions.  When
    it returns, the strip shows the resized images 0, 3, 6, ... in order,
    one for every three images or part of three, and the figure has the
    seven series of the labels in their order, each with one value per
    action. *)
Theorem figure_content :
  forall (rt : Runtime) (self : OctoInference)
         (actions : list RawAction) (images : list Image),
    (images = [] -> visualize_epoch self actions images = Raise ValueError) /\
    (images <> [] -> actions = [] ->
     visualize_epoch self actions images = Raise IndexError) /\
    (forall fig,
       visualize_epoch self actions images = Ok fig ->
       length (img_strip fig) = (length images + 2) / 3 /\
       (forall i, nth_error (img_strip fig) i
                  = option_map (_resize_image self) (nth_error images (3 * i))) /\
       map fst (series fig) = ACTION_DIM_LABELS /\
       Forall (fun p => length (snd p) = length actions) (series fig)).
Proof.
  intros rt self actions images.
  destruct (every_third_spec (map (_resize_image self) images)) as [Hl Hn].
  rewrite length_map in Hl.
  split; [|split].
  - intros ->. reflexivity.
  - intros Hne ->. unfold visualize_epoch.
    destruct images as [|i0 rest]; [contradiction|]. reflexivity.
  - intros fig. unfold visualize_epoch.
    destruct (every_third (map (_resize_image self) images)) as [|f fs] eqn:E;
      [discriminate|].
    destruct (map action_row actions) as [|row rows'] eqn:Erows;
      [discriminate|].
    destruct (negb _); [discriminate|].
    destruct (length row <? length ACTION_DIM_LABELS); [discriminate|].
    intros H. injection H as <-. cbn [img_strip series].
    split; [exact Hl|]. split.
    + intros i. rewrite Hn. apply nth_error_map.
    + split; [reflexivity|].
      assert (Hlen : length actions = S (length rows'))
        by (rewrite <- (length_map action_row), Erows; reflexivity).
      repeat constructor; cbn [snd length]; now rewrite length_map, Hlen.
Qed.

End VisualizeFacts.

(** * The JSON codec *)

Module NumpyJsonFacts.

Import NumpyJson.

Section Decoding.

Variable Dtype : Type.
Variable itemsize : Dtype -> nat.
Variable hasobject : Dtype -> bool.
Variable b64decode : pyobj Dtype -> outcome (list Byte.byte).
Variable descr_to_dtype : pyobj Dtype -> outcome Dtype.
Variable np_truth : pyobj Dtype -> outcome bool.
Variable reshape_other : ndarray Dtype -> pyobj Dtype -> outcome (pyobj Dtype).

Local Abbreviation object_hook :=
  (object_hook itemsize hasobject b64decode descr_to_dtype np_truth
     reshape_other).

Lemma dims_of_shape (sh : list nat) :
  dims (map (fun n => PyInt Dtype (Z.of_nat n)) sh) = Some sh.
Proof.
  induction sh as [|n sh IH]; [reflexivity|].
  cbn [map dims]. rewrite IH.
  destruct (Z.leb_spec 0 (Z.of_nat n)); [|lia].
  cbn [option_map]. now rewrite Znat.Nat2Z.id.
Qed.

Lemma decoded_shape (sh : list nat) :
  decoded (shape_tuple Dtype sh)
  = PyList (map (fun n => PyInt Dtype (Z.of_nat n)) sh).
Proof.
  unfold shape_tuple. cbn [decoded]. rewrite map_map. reflexivity.
Qed.

Lemma np_frombuffer_ok (buffer : list Byte.byte) (d : Dtype) (n : nat) :
  hasobject d = false ->
  0 < itemsize d -> length buffer = n * itemsize d ->
  np_frombuffer itemsize hasobject buffer d = Done (mkArray d [n] buffer).
Proof.
  intros Hobj Hpos Hlen. unfold np_frombuffer. rewrite Hobj.
  destruct (Nat.eqb_spec (itemsize d) 0); [lia|].
  rewrite Hlen, Nat.Div0.mod_mul, Nat.div_mul by lia. reflexivity.
Qed.

Lemma np_frombuffer_inv (buffer : list Byte.byte) (d : Dtype) (a : ndarray Dtype) :
  np_frombuffer itemsize hasobject buffer d = Done a ->
  hasobject d = false /\
  0 < itemsize d /\
  a = mkArray d [length buffer / itemsize d] buffer /\
  length buffer = length buffer / itemsize d * itemsize d.
Proof.
  unfold np_frombuffer.
  destruct (hasobject d); [discriminate|].
  destruct (Nat.eqb_spec (itemsize d) 0) as [|Hne]; [discriminate|].
  destruct (Nat.eqb_spec (length buffer mod itemsize d) 0) as [Hm|];
    [|discriminate].
  intros H. injection H as <-.
  split; [reflexivity|]. split; [lia|]. split; [reflexivity|].
  pose proof (Nat.div_mod_eq (length buffer) (itemsize d)). lia.
Qed.

(** X17.  What [object_hook] builds is consistent.  On a dictionary with the
    key [__numpy__] whose shape is a list of non-negative ints, whatever
    the payload, a result is an array of that shape holding exactly as
    many items as the shape says, when the shape has a dimension, and
    otherwise a scalar of one item, the first of the payload: further
    items of the payload are dropped without an error. *)
Theorem object_hook_result_is_consistent :
  forall (dct : list (string * pyobj Dtype)) (l : list (pyobj Dtype))
         (ds : list nat) (r : pyobj Dtype),
    lookup "__numpy__" dct <> None ->
    lookup "shape" dct = Some (PyList l) ->
    dims l = Some ds ->
    object_hook dct = Done r ->
    match ds with
    | [] => exists d buffer,
              r = Generic d (firstn (itemsize d) buffer) /\
              0 < itemsize d <= length buffer /\
              length (firstn (itemsize d) buffer) = itemsize d
    | _ :: _ => exists a, r = NdArray a /\ shape a = ds /\
                          well_formed itemsize a
    end.
Proof.
  intros dct l ds r Hkey Hshape Hdims.
  unfold NumpyJson.object_hook, getitem.
  destruct (lookup "__numpy__" dct) as [payload|]; [|contradiction].
  destruct (b64decode payload) as [buffer|]; [|discriminate].
  cbn [and_then].
  destruct (lookup "dtype" dct) as [descr|]; [|discriminate].
  cbn [and_then].
  destruct (descr_to_dtype descr) as [d|]; [|discriminate].
  cbn [and_then].
  destruct (np_frombuffer itemsize hasobject buffer d) as [a|] eqn:Ebuf;
    [|discriminate].
  apply np_frombuffer_inv in Ebuf as (_ & Hpos & -> & Hlen).
  rewrite Hshape. cbn [and_then truth].
  assert (Hl : l = [] <-> ds = []).
  { destruct l as [|x l]; cbn [dims] in Hdims.
    - injection Hdims as <-. tauto.
    - destruct x; try discriminate.
      destruct (0 <=? z)%Z; [|discriminate].
      destruct (dims l); [|discriminate].
      injection Hdims as <-. split; discriminate. }
  destruct l as [|x l].
  - destruct ds as [|n ds]; [|destruct Hl as [Hl _]; now specialize (Hl eq_refl)].
    cbn [length Nat.eqb negb and_then]. unfold first_item.
    cbn [shape dtype data np_prod fold_right].
    destruct (Nat.eqb_spec (length buffer / itemsize d * 1) 0); [discriminate|].
    intros H. injection H as <-.
    exists d, buffer. split; [reflexivity|].
    assert (itemsize d <= length buffer) by nia.
    split; [lia|]. apply firstn_length_le. lia.
  - destruct ds as [|n ds]; [destruct Hl as [_ Hl]; now specialize (Hl eq_refl)|].
    cbn [length Nat.eqb negb and_then]. unfold NumpyJson.reshape.
    rewrite Hdims. cbn [shape dtype data].
    destruct (Nat.eqb_spec (np_prod (n :: ds))
                (np_prod [length buffer / itemsize d])) as [Hp|];
      [|discriminate].
    intros H. injection H as <-.
    eexists. split; [reflexivity|]. split; [reflexivity|].
    split; cbn [dtype shape data]; [exact Hpos|].
    rewrite Hp. cbn [np_prod fold_right]. lia.
Qed.

End Decoding.

Section Encoding.

Variable Dtype : Type.
Variable itemsize : Dtype -> nat.
Variable hasobject : Dtype -> bool.
Variable b64encode : list Byte.byte -> string.
Variable b64decode : pyobj Dtype -> outcome (list Byte.byte).
Variable dtype_to_descr : Dtype -> pyobj Dtype.
Variable descr_to_dtype : pyobj Dtype -> outcome Dtype.
Variable np_truth : pyobj Dtype -> outcome bool.
Variable reshape_other : ndarray Dtype -> pyobj Dtype -> outcome (pyobj Dtype).

Local Abbreviation default := (default b64encode dtype_to_descr).
Local Abbreviation object_hook :=
  (object_hook itemsize hasobject b64decode descr_to_dtype np_truth
     reshape_other).

(** X16.  Round trip of the codec.  A numpy object of a dtype without
    objects that [default] turns into a dictionary, written by [json.dumps]
    and read back, is rebuilt by [object_hook]: an array of one dimension
    or more and a scalar come back as they were, and an array of no
    dimension comes back as the scalar of its item.  The base64 and
    dtype-description calls are taken to invert each other on this
    object. *)
Theorem numpy_round_trip :
  forall (obj : pyobj Dtype) (d : Dtype) (sh : list nat)
         (bytes : list Byte.byte),
    obj = NdArray (mkArray d sh bytes) \/ (obj = Generic d bytes /\ sh = []) ->
    hasobject d = false ->
    0 < itemsize d ->
    length bytes = np_prod sh * itemsize d ->
    b64decode (PyStr Dtype (b64encode bytes)) = Done bytes ->
    descr_to_dtype (decoded (dtype_to_descr d)) = Done d ->
    exists dct,
      default obj = Done dct /\
      object_hook (items (decoded dct))
      = Done (match sh with
              | [] => Generic d bytes
              | _ :: _ => NdArray (mkArray d sh bytes)
              end).
Proof.
  intros obj d sh bytes Hobj Hplain Hpos Hlen Hb64 Hdescr.
  assert (Hhook : object_hook
            [("__numpy__"%string, PyStr Dtype (b64encode bytes));
             ("dtype"%string, decoded (dtype_to_descr d));
             ("shape"%string, decoded (shape_tuple Dtype sh))]
          = Done (match sh with
                  | [] => Generic d bytes
                  | _ :: _ => NdArray (mkArray d sh bytes)
                  end)).
  { unfold NumpyJson.object_hook, getitem, lookup.
    cbn [find fst snd String.eqb Ascii.eqb Bool.eqb option_map andb].
    rewrite Hb64. cbn [and_then]. rewrite Hdescr. cbn [and_then].
    rewrite (np_frombuffer_ok Dtype itemsize hasobject bytes d (np_prod sh)
               Hplain Hpos Hlen).
    cbn [and_then]. rewrite (decoded_shape Dtype).
    destruct sh as [|n sh].
    - cbn [map truth length Nat.eqb negb and_then]. unfold first_item.
      cbn [shape dtype data np_prod fold_right] in *.
      rewrite firstn_all2 by lia. reflexivity.
    - cbn [truth length map Nat.eqb negb and_then].
      unfold NumpyJson.reshape.
      change (PyInt Dtype (Z.of_nat n)
              :: map (fun n0 => PyInt Dtype (Z.of_nat n0)) sh)
        with (map (fun n0 => PyInt Dtype (Z.of_nat n0)) (n :: sh)).
      rewrite (dims_of_shape Dtype). cbn [shape dtype data].
      replace (np_prod [np_prod (n :: sh)]) with (np_prod (n :: sh))
        by (cbn [np_prod fold_right]; lia).
      now rewrite Nat.eqb_refl. }
  destruct Hobj as [-> | [-> ->]].
  - eexists. split; [reflexivity|]. exact Hhook.
  - eexists. split; [reflexivity|]. exact Hhook.
Qed.

End Encoding.

End NumpyJsonFacts.

(** * Examples for the further properties *)

Module ExtraExamples.

Import Toy.

Section Remote.

Import OctoServer.

Local Abbreviation step := (step is_uint8 axangle).
Local Abbreviation run := (run is_uint8 axangle).


Lemma first_step_after_reset_is_quiet_witness :
  emitted (fst (step (true, 0) (reply_of 0.6%Q) (reset "pick" server_armed)))
    = Some 0%Q /\
  idle (snd (step (true, 0) (reply_of 0.6%Q) (reset "pick" server_armed))) /\
  previous_gripper_action
    (snd (step (true, 0) (reply_of 0.6%Q) (reset "pick" server_armed)))
    = Some 0.6%Q.
Proof.
  apply (ServerExtras.first_step_after_reset_is_quiet image is_uint8 axangle
           server_armed "pick" (input_of 0.6%Q)).
  - reflexivity.
  - simpl. lia.
  - split; [reflexivity | simpl; lia].
Defined.

Local Abbreviation armed :=
  (snd (step (true, 0) (reply_of 0.6%Q) server_reset)).

Lemma armed_is_reachable : reachable is_uint8 axangle server0 armed.
Proof.
  apply (@reach_step image is_uint8 axangle server0 (true, 0)
           (reply_of 0.6%Q)).
  apply (@reach_reset image is_uint8 axangle server0 "pick coke can").
  apply reach_fresh.
Qed.

Lemma server_always_google_robot_witness :
  __init__ "octo-base" "widowx_bridge" 256 1.0%Q <> Ok server0 /\
  exists raw action,
    fst (step (true, 0) (reply_of 0%Q) armed) = Ok (raw, action) /\
    gripper action = Some 0.6%Q.
Proof.
  split.
  - intros H.
    destruct (ServerExtras.server_always_google_robot image is_uint8 axangle
                "octo-base" "widowx_bridge" 256 1.0%Q server0 server0
                (true, 0) (reply_of 0%Q) (mkRaw [] [] [])
                (mkAction [] [] None [])) as [[Hinit _] _].
    destruct (Hinit H) as [Hp _]. discriminate Hp.
  - assert (E : exists raw action,
              fst (step (true, 0) (reply_of 0%Q) armed) = Ok (raw, action))
      by (eexists _, _; vm_compute; reflexivity).
    destruct E as (raw & action & E).
    exists raw, action. split; [exact E|].
    destruct (ServerExtras.server_always_google_robot image is_uint8 axangle
                "octo-base" "google_robot" 256 1.0%Q server0 armed
                (true, 0) (reply_of 0%Q) raw action) as [_ H].
    destruct (H eq_refl armed_is_reachable E) as [_ Hg].
    rewrite Hg. vm_compute. reflexivity.
Defined.

Lemma emitted_magnitude_tells_hold_witness :
  exists v,
    emitted (fst (step (true, 0) (reply_of 0%Q) armed)) = Some v /\
    (0.5 < Qabs v)%Q.
Proof.
  destruct (ServerExtras.emitted_magnitude_tells_hold image is_uint8 axangle
              "octo-base" "google_robot" 256 1.0%Q server0 armed
              (input_of 0%Q) eq_refl armed_is_reachable)
    as (v & Hv & Hhold & _).
  - split; [reflexivity | simpl; lia].
  - exists v. split; [exact Hv|].
    apply Hhold. right. reflexivity.
Defined.

Lemma reply_is_read_by_six_entries_and_the_last_witness :
  step (true, 0) [0; 0; 0; 0; 0; 0; 0.6]%Q server_reset
  = step (true, 0) [0; 0; 0; 0; 0; 0; 7; 8; 0.6]%Q server_reset /\
  exists raw action,
    fst (step (true, 0) [0; 0; 0; 1; 2; 3]%Q server_reset)
    = Ok (raw, action) /\
    raw_rotation_delta raw = [1; 2; 3]%Q /\
    raw_open_gripper raw = [3]%Q.
Proof.
  split.
  - apply (ServerExtras.reply_is_read_by_six_entries_and_the_last image
             is_uint8 axangle (true, 0) server_reset
             [0; 0; 0; 0; 0; 0; 0.6]%Q [0; 0; 0; 0; 0; 0; 7; 8; 0.6]%Q).
    + simpl. lia.
    + simpl. lia.
    + reflexivity.
    + reflexivity.
  - assert (E : exists raw action,
              fst (step (true, 0) [0; 0; 0; 1; 2; 3]%Q server_reset)
              = Ok (raw, action) /\
              raw_rotation_delta raw = [1; 2; 3]%Q)
      by (eexists _, _; split; vm_compute; reflexivity).
    destruct E as (raw & action & E & Hr).
    exists raw, action. split; [exact E|]. split; [exact Hr|].
    destruct (ServerExtras.reply_is_read_by_six_entries_and_the_last image
                is_uint8 axangle (true, 0) server_reset
                [0; 0; 0; 1; 2; 3]%Q []) as [_ H].
    rewrite (H eq_refl raw action E), Hr. reflexivity.
Defined.

Lemma previous_reading_is_the_last_one_witness :
  previous_gripper_action
    (snd (run (map input_of [0.6; 0; 0.2]%Q) server_reset)) = Some 0.2%Q /\
  relative 0.9%Q (snd (run (map input_of [0.6; 0; 0.2]%Q) server_reset))
  = (0.2 - 0.9)%Q.
Proof.
  destruct (ServerExtras.previous_reading_is_the_last_one image is_uint8
              axangle (map input_of [0.6; 0]%Q) (input_of 0.2%Q) server_reset)
    as [Hp Hr].
  - reflexivity.
  - split; [reflexivity | simpl; lia].
  - split; [exact Hp|]. exact (Hr (input_of 0.9%Q)).
Defined.

End Remote.

Local Abbreviation rt_open := (runtime [chunk_with_gripper 0.9%Q]).
Local Abbreviation rt_six := (runtime [narrow_chunk]).
Local Abbreviation open_start :=
  (snd (Octo.reset "pick" (widowx_released [chunk_with_gripper 0.9%Q]))).

Lemma local_step_failure_modes_witness :
  @Octo.step rt_six (false, 3) (google_released [narrow_chunk])
  = (Raise AssertionError, google_released [narrow_chunk]) /\
  @Octo.step rt_six (true, 3) (google_released [narrow_chunk])
  = (Raise AssertionError,
     @Octo._add_image_to_history rt_six 3 (google_released [narrow_chunk])).
Proof.
  destruct (OctoExtras.local_step_failure_modes rt_six
              (google_released [narrow_chunk]) (false, 3) narrow_chunk [])
    as [Hdtype _].
  destruct (OctoExtras.local_step_failure_modes rt_six
              (google_released [narrow_chunk]) (true, 3) narrow_chunk [])
    as [_ Hshape].
  split.
  - apply Hdtype. reflexivity.
  - apply Hshape.
    + reflexivity.
    + simpl. lia.
    + reflexivity.
    + reflexivity.
Defined.

Lemma history_is_empty_or_full_witness :
  Octo.horizon (snd (@Octo.step rt_open (true, 3) open_start)) = 2 /\
  length (Octo.image_history (snd (@Octo.step rt_open (true, 3) open_start)))
  = 2 /\
  Octo._obtain_image_history_and_mask open_start = Raise ValueError.
Proof.
  assert (Hstart : Octo.reachable (widowx_released [chunk_with_gripper 0.9%Q])
                     open_start)
    by (apply (@Octo.reach_reset rt_open); apply Octo.reach_fresh).
  destruct (OctoExtras.history_is_empty_or_full rt_open "octo-base"
              "widowx_bridge" 2 4 1 256 1.0%Q
              (widowx_released [chunk_with_gripper 0.9%Q])
              (snd (@Octo.step rt_open (true, 3) open_start)) eq_refl)
    as (Hh & Hfull & _).
  - apply (@Octo.reach_step rt_open). exact Hstart.
  - lia.
  - destruct (OctoExtras.history_is_empty_or_full rt_open "octo-base"
                "widowx_bridge" 2 4 1 256 1.0%Q
                (widowx_released [chunk_with_gripper 0.9%Q])
                open_start eq_refl Hstart) as (_ & _ & Hraise); [lia|].
    split; [exact Hh|]. split; [|apply Hraise; reflexivity].
    destruct Hfull as [[Hn _] | [_ Hl]]; [|exact Hl].
    discriminate Hn.
Defined.


Lemma only_the_first_action_is_executed_witness :
  @Octo.postprocess rt_open (chunk_with_gripper 0.9%Q) open_start
  = @Octo.postprocess rt_open
      (mkArray2 2 7 [[0; 0; 0; 0; 0; 0; 0.9]; [1; 2; 3; 4; 5; 6; 7]]%Q)
      open_start /\
  @Octo.ensemble rt_open (chunk_with_gripper 0.9%Q)
    (google_released [chunk_with_gripper 0.9%Q])
  = (Ok (chunk_with_gripper 0.9%Q), google_released [chunk_with_gripper 0.9%Q]).
Proof.
  split.
  - apply (OctoExtras.only_the_first_action_is_executed rt_open open_start
             (chunk_with_gripper 0.9%Q)
             (mkArray2 2 7 [[0; 0; 0; 0; 0; 0; 0.9]; [1; 2; 3; 4; 5; 6; 7]]%Q)
             [0; 0; 0; 0; 0; 0; 0.9]%Q
             (repeat [0; 0; 0; 0; 0; 0; 0.9]%Q 3)
             [[1; 2; 3; 4; 5; 6; 7]%Q]); reflexivity.
  - apply (OctoExtras.only_the_first_action_is_executed rt_open
             (google_released [chunk_with_gripper 0.9%Q])
             (chunk_with_gripper 0.9%Q) (chunk_with_gripper 0.9%Q) [] [] []).
    reflexivity.
Defined.

Lemma local_action_format_witness :
  exists raw action self',
    @Octo.step rt_open (true, 3) open_start = (Ok (raw, action), self') /\
    length (Octo.raw_world_vector raw) = 3 /\
    Octo.terminate_episode action = [0.0%Q] /\
    Octo.time_step self' = 1.
Proof.
  assert (E : exists raw action self',
            @Octo.step rt_open (true, 3) open_start
            = (Ok (raw, action), self'))
    by (eexists _, _, _; vm_compute; reflexivity).
  destruct E as (raw & action & self' & E).
  exists raw, action, self'. split; [exact E|].
  destruct (OctoExtras.local_action_format rt_open open_start self' (true, 3)
              raw action E) as (Hw & _ & _ & _ & _ & _ & Ht & Hn).
  split; [exact Hw|]. split; [exact Ht | exact Hn].
Defined.

Lemma plot_labels_swap_roll_and_yaw_witness :
  exists raw action self' fig,
    @Octo.step rt_open (true, 3) open_start = (Ok (raw, action), self') /\
    Visualize.visualize_epoch open_start [raw] [(true, 3)] = Ok fig /\
    exists roll pitch yaw,
      Octo.raw_rotation_delta raw = [roll; pitch; yaw] /\
      (exists ys, Visualize.series_of "yaw" fig = Some ys /\
                  nth_error ys 0 = Some roll) /\
      (exists rs, Visualize.series_of "roll" fig = Some rs /\
                  nth_error rs 0 = Some yaw).
Proof.
  assert (E : exists raw action self' fig,
            @Octo.step rt_open (true, 3) open_start
            = (Ok (raw, action), self') /\
            Visualize.visualize_epoch open_start [raw] [(true, 3)] = Ok fig)
    by (eexists _, _, _, _; split; vm_compute; reflexivity).
  destruct E as (raw & action & self' & fig & E & Hfig).
  exists raw, action, self', fig. split; [exact E|]. split; [exact Hfig|].
  destruct (VisualizeFacts.plot_labels_swap_roll_and_yaw rt_open open_start
              open_start self' [raw] [(true, 3)] fig 0 (true, 3) raw action
              Hfig eq_refl E)
    as (roll & pitch & yaw & Hr & _ & Hy & _ & Hro).
  exists roll, pitch, yaw. split; [exact Hr|]. split; [exact Hy | exact Hro].
Defined.

Lemma figure_content_witness :
  Visualize.visualize_epoch open_start [] [] = Raise ValueError /\
  Visualize.visualize_epoch open_start [] [(true, 3)] = Raise IndexError.
Proof.
  destruct (VisualizeFacts.figure_content rt_open open_start [] [])
    as (Hnone & _ & _).
  destruct (VisualizeFacts.figure_content rt_open open_start [] [(true, 3)])
    as (_ & Hactions & _).
  split; [apply Hnone; reflexivity|].
  apply Hactions; [discriminate | reflexivity].
Defined.

Section Codec.

Import NumpyJson ToyCodec.

Lemma numpy_round_trip_witness :
  (exists dct,
     default (NdArray (mkArray 1 [3; 2] six_bytes)) = Done dct /\
     object_hook (items (decoded dct))
     = Done (NdArray (mkArray 1 [3; 2] six_bytes))) /\
  (exists dct,
     default (NdArray (mkArray 6 [] six_bytes)) = Done dct /\
     object_hook (items (decoded dct)) = Done (Generic 6 six_bytes)).
Proof.
  split.
  - apply (NumpyJsonFacts.numpy_round_trip nat (fun d => d) (fun _ => false)
             b64encode b64decode dtype_to_descr descr_to_dtype np_truth
             reshape_other
             (NdArray (mkArray 1 [3; 2] six_bytes)) 1 [3; 2] six_bytes).
    + left. reflexivity.
    + reflexivity.
    + lia.
    + reflexivity.
    + reflexivity.
    + reflexivity.
  - apply (NumpyJsonFacts.numpy_round_trip nat (fun d => d) (fun _ => false)
             b64encode b64decode dtype_to_descr descr_to_dtype np_truth
             reshape_other
             (NdArray (mkArray 6 [] six_bytes)) 6 [] six_bytes).
    + left. reflexivity.
    + reflexivity.
    + lia.
    + reflexivity.
    + reflexivity.
    + reflexivity.
Defined.

Lemma object_hook_result_is_consistent_witness :
  exists d buffer,
    object_hook [("__numpy__"%string, PyStr nat (b64encode six_bytes));
                 ("dtype"%string, PyInt nat 2);
                 ("shape"%string, PyList [])]
    = Done (Generic d (firstn 2 buffer)) /\
    2 <= length buffer.
Proof.
  destruct (NumpyJsonFacts.object_hook_result_is_consistent nat (fun d => d)
              (fun _ => false) b64decode descr_to_dtype np_truth reshape_other
              [("__numpy__"%string, PyStr nat (b64encode six_bytes));
               ("dtype"%string, PyInt nat 2);
               ("shape"%string, PyList [])]
              [] [] (Generic 2 [Byte.x01; Byte.x02]))
    as (d & buffer & Hr & Hlen & _).
  - discriminate.
  - reflexivity.
  - reflexivity.
  - reflexivity.
  - injection Hr as <- Hitem. exists 2, buffer.
    split; [rewrite <- Hitem; reflexivity | lia].
Defined.

End Codec.

End ExtraExamples.
